(** * TRM modernisation prototype: classification and risk core

    A shallow embedding of [config.py], [classification.py],
    [risk_assessment.py], of the cleaning and filtering of
    [data_processor.py] and of the loop over the methods of [app.py], and
    the properties of the classification and risk engine proved over it.

    Modelling conventions.
    - A Python [str] is a [string]; case mapping and whitespace are the ASCII
      ones ([str.lower], [str.strip] restricted to code points below 128,
      every other byte is left alone and is not white space).
    - A pandas cell of an object column is a [cell]: a missing value
      ([NaN]/[None], what [pd.isnull] answers [True] on) or a string. A
      missing value prints as [nan], as the [NaN] of a file that was read
      does.
    - A column has no dtype of its own. Writing text with [.at] into a
      column that holds missing values only stores the text, as pandas 2
      does by turning the column into an object column; pandas 3 raises
      [TypeError] there. The theorems on what a run writes are stated for
      the runs that return.
    - A Python exception is a value of [exn]; code that can raise returns a
      [result].
    - An insertion-ordered [dict] literal of [config.py] is an association
      list, in the order it is written. *)

From Stdlib Require Import ZArith Ascii String List Bool.
From Stdlib Require Import PrimFloat FloatOps Uint63 SpecFloat.
From stdpp Require Import gmap strings list fin_maps pretty.

Local Open Scope string_scope.
Local Open Scope list_scope.

(** ** Python strings *)

Module PyStr.

Definition is_upper (c : ascii) : bool :=
  (65 <=? nat_of_ascii c)%nat && (nat_of_ascii c <=? 90)%nat.

Definition lower_char (c : ascii) : ascii :=
  if is_upper c then ascii_of_nat (nat_of_ascii c + 32) else c.

(** [s.lower()] *)
Fixpoint lower (s : string) : string :=
  match s with
  | EmptyString => EmptyString
  | String c r => String (lower_char c) (lower r)
  end.

(** The characters [str.strip()] removes: TAB, LF, VT, FF, CR, the four
    separators FS, GS, RS, US, and the space. *)
Definition is_space (c : ascii) : bool :=
  let n := nat_of_ascii c in
  ((9 <=? n)%nat && (n <=? 13)%nat) || ((28 <=? n)%nat && (n <=? 32)%nat).

Fixpoint lstrip (s : string) : string :=
  match s with
  | EmptyString => EmptyString
  | String c r => if is_space c then lstrip r else s
  end.

Fixpoint rstrip (s : string) : string :=
  match s with
  | EmptyString => EmptyString
  | String c r =>
      match rstrip r with
      | EmptyString => if is_space c then EmptyString else String c EmptyString
      | r' => String c r'
      end
  end.

(** [s.strip()] *)
Definition strip (s : string) : string := rstrip (lstrip s).

(** [sub in s] *)
Fixpoint contains (sub s : string) : bool :=
  String.prefix sub s ||
  match s with
  | EmptyString => false
  | String _ r => contains sub r
  end.

(** [s.split(sep)] for a non-empty separator: scan left to right, cut at
    every occurrence of [sep] that does not overlap the previous one.
    [skip] counts the characters of a separator still to be passed over,
    [cur] is the piece being read. *)
Fixpoint split_from (sep s : string) (skip : nat) (cur : string) : list string :=
  match s with
  | EmptyString => [cur]
  | String c r =>
      match skip with
      | S k => split_from sep r k cur
      | O =>
          if String.prefix sep s
          then cur :: split_from sep r (String.length sep - 1) EmptyString
          else split_from sep r 0 (cur +:+ String c EmptyString)
      end
  end.

Definition split (sep s : string) : list string := split_from sep s 0 EmptyString.

(** [", ".join(l)] *)
Fixpoint join (sep : string) (l : list string) : string :=
  match l with
  | [] => EmptyString
  | [x] => x
  | x :: rest => x +:+ sep +:+ join sep rest
  end.

End PyStr.

(** ** Exceptions and results *)

Inductive exn : Type :=
  | KeyError
  | IndexError
  | ValueError
  | AttributeError
  | ZeroDivisionError
  | ReferenceError
  | ServiceError (detail : string).

Inductive result (A : Type) : Type :=
  | Ok (a : A)
  | Raise (e : exn).

Arguments Ok {A} a.
Arguments Raise {A} e.

Definition rbind {A B : Type} (r : result A) (k : A -> result B) : result B :=
  match r with
  | Ok a => k a
  | Raise e => Raise e
  end.

#[global] Instance result_ret : MRet result := fun A a => Ok a.
#[global] Instance result_bind : MBind result := fun A B k r => rbind r k.

(** ** Python values held in a table cell *)

Inductive cell : Type :=
  | Null
  | Str (s : string).

#[global] Instance cell_eq_dec : EqDecision cell.
Proof. solve_decision. Defined.

(** [str(v)]: the missing value of a pandas column prints as [nan]. *)
Definition py_str (v : cell) : string :=
  match v with
  | Null => "nan"
  | Str s => s
  end.

(** [pd.isnull(v)] *)
Definition isnull (v : cell) : bool :=
  match v with
  | Null => true
  | Str _ => false
  end.

(** ** Ordered dictionaries of [config.py] *)

Section Dict.
Context {V : Type}.

Fixpoint dict_lookup (d : list (string * V)) (k : string) : option V :=
  match d with
  | [] => None
  | (k', v) :: rest => if String.eqb k' k then Some v else dict_lookup rest k
  end.

(** [k in d] *)
Definition dict_mem (k : string) (d : list (string * V)) : bool :=
  match dict_lookup d k with
  | Some _ => true
  | None => false
  end.

(** [d[k]] *)
Definition dict_get (d : list (string * V)) (k : string) : result V :=
  match dict_lookup d k with
  | Some v => Ok v
  | None => Raise KeyError
  end.
End Dict.

(** [l[0]] *)
Definition list_first {A : Type} (l : list A) : result A :=
  match l with
  | x :: _ => Ok x
  | [] => Raise IndexError
  end.

(** [x in l] for a list of strings *)
Definition list_mem (x : string) (l : list string) : bool :=
  existsb (String.eqb x) l.

(** ** [config.py] *)

Module config.

Definition DEFAULT_RISK_FLAG : string := "Normal".
Definition DEFAULT_DOMAIN : string := "Unclassified".
Definition DEFAULT_SUBDOMAIN : string := "Unclassified".

Definition TRM_DOMAINS_SUBDOMAINS : list (string * list string) :=
  [ ("Data Management", ["Database Platforms"; "Data Processing"; "Data Storage"]);
    ("Artificial Intelligence", ["ML Frameworks"; "NLP Tools"; "Computer Vision"]);
    ("Security", ["Security Tools"; "Authentication"; "Encryption"]);
    ("Network", ["Networking Tools"; "Load Balancers"; "API Gateways"]);
    ("Development", ["IDEs"; "Version Control"; "CI/CD"]);
    ("Unclassified", ["Unclassified"]) ].

Definition CLASSIFICATION_KEYWORDS : list (string * list string) :=
  [ ("Data Management",
      ["database"; "sql"; "nosql"; "data store"; "postgresql"; "mysql"; "mongodb"; "redis"]);
    ("Artificial Intelligence",
      ["machine learning"; "ai"; "ml"; "artificial intelligence"; "deep learning";
       "tensorflow"; "pytorch"]);
    ("Security",
      ["security"; "auth"; "encryption"; "firewall"; "protection"; "vulnerability";
       "antivirus"]);
    ("Network",
      ["network"; "protocol"; "routing"; "traffic"; "proxy"; "load balancer";
       "api gateway"]);
    ("Development",
      ["ide"; "git"; "development"; "programming"; "code"; "compiler"; "build"; "cicd"]) ].

Definition UI_SELECT_ALL : string := "All".

Definition RISK_STATUSES : list (string * string) :=
  [ ("High-Risk", "High-Risk items require immediate attention");
    ("Medium-Risk", "Medium-Risk items should be reviewed during regular cycles");
    ("Normal", "Normal items have acceptable risk levels") ].

Definition LIFECYCLE_STATUSES : list string :=
  ["Active"; "Deprecated"; "Planned"; "Beta"].

Definition STATUS_RISK_MAPPING : list (string * string) :=
  [ ("Deprecated", "High-Risk");
    ("Beta", "Medium-Risk");
    ("Active", "Normal");
    ("Planned", "Normal") ].

End config.

(** ** The taxonomy as the spec reads it off the configuration *)

(** [is_valid domain subdomain]: the domain is a key of the domains mapping
    and the subdomain is one of its declared subdomains. *)
Definition is_valid (domain subdomain : string) : Prop :=
  exists subs, dict_lookup config.TRM_DOMAINS_SUBDOMAINS domain = Some subs
               /\ In subdomain subs.

(** ** [classification.py]: the rule classifier *)

(** The text the keywords are searched in:
    [f"{str(description).lower()} {str(hint).lower()}"]. *)
Definition desc_hint (description hint : cell) : string :=
  PyStr.lower (py_str description) +:+ " " +:+ PyStr.lower (py_str hint).

(** [any(keyword in desc_hint for keyword in keywords)] *)
Definition any_keyword_in (keywords : list string) (text : string) : bool :=
  existsb (fun keyword => PyStr.contains keyword text) keywords.

(** The [for domain, keywords in ....items()] loop, with the [return] after
    it for the case that no domain matched. *)
Fixpoint classify_loop (items : list (string * list string)) (text : string)
  : result (string * string) :=
  match items with
  | [] => Ok (config.DEFAULT_DOMAIN, config.DEFAULT_SUBDOMAIN)
  | (domain, keywords) :: rest =>
      if any_keyword_in keywords text
      then subdomains ← dict_get config.TRM_DOMAINS_SUBDOMAINS domain;
           first ← list_first subdomains;
           Ok (domain, first)
      else classify_loop rest text
  end.

Definition rule_based_classify (description hint : cell) : result (string * string) :=
  classify_loop config.CLASSIFICATION_KEYWORDS (desc_hint description hint).

(** ** Tables and the program state *)

(** A row as [iterrows] and [apply(axis=1)] hand it over: a [Series] indexed
    by the column names. [c in row] is [row_mem c row], [row[c]] is
    [row_get row c]. *)
Abbreviation Series := (gmap string cell).

Definition row_mem (c : string) (row : Series) : bool :=
  bool_decide (is_Some (row !! c)).

Definition row_get (row : Series) (c : string) : result cell :=
  match row !! c with
  | Some v => Ok v
  | None => Raise KeyError
  end.

(** A [DataFrame]: its column names, and its rows in order, each with its
    index label. In a well-formed frame every row has exactly the frame's
    columns. *)
Record DataFrame : Type := {
  df_columns : list string;
  df_rows : list (nat * Series)
}.

Definition df_wf (df : DataFrame) : Prop :=
  forall idx row, In (idx, row) (df_rows df) ->
    forall c, is_Some (row !! c) <-> In c (df_columns df).

(** The state the code runs in: the [DataFrame] objects alive (by address),
    the notices shown with [st.warning], and the number of requests sent to
    the text-completion service. *)
Record World : Type := {
  frames : gmap nat DataFrame;
  notices : list string;
  requests : nat
}.

Definition M (A : Type) : Type := World -> result A * World.

#[global] Instance M_ret : MRet M := fun A a w => (Ok a, w).
#[global] Instance M_bind : MBind M := fun A B k m w =>
  match m w with
  | (Ok a, w') => k a w'
  | (Raise e, w') => (Raise e, w')
  end.

Definition lift {A : Type} (r : result A) : M A := fun w => (r, w).

(** [try: body / except Exception as e: handler e] *)
Definition try_except {A : Type} (body : M A) (handler : exn -> M A) : M A :=
  fun w =>
    match body w with
    | (Ok a, w') => (Ok a, w')
    | (Raise e, w') => handler e w'
    end.

(** [st.warning(msg)] *)
Definition warning (msg : string) : M unit :=
  fun w => (Ok tt, {| frames := frames w;
                      notices := notices w ++ [msg];
                      requests := requests w |}).

(** ** [classification.py]: the model classifier *)

(** What one call of [client.chat.completions.create] followed by
    [response.choices[0].message.content] comes to: the content, which the
    service may leave out ([None]), or an exception. *)
Inductive completion : Type :=
  | Responded (content : option string)
  | Failed (detail : string).

(** [str(e)] as it is put in the notice. *)
Definition exn_str (e : exn) : string :=
  match e with
  | ServiceError detail => detail
  | AttributeError => "'NoneType' object has no attribute 'lower'"
  | KeyError => "KeyError"
  | IndexError => "list index out of range"
  | ValueError => "ValueError"
  | ZeroDivisionError => "division by zero"
  | ReferenceError => "ReferenceError"
  end.

Definition newline : string := String (ascii_of_nat 10) EmptyString.

(** The numbered list of domains of the prompt: numbered over all entries,
    then the sentinel domain is left out. *)
Definition domains_text : string :=
  PyStr.join newline
    (map (fun '(i, (domain, subdomains)) =>
            pretty (i + 1)%nat +:+ ". " +:+ domain +:+ " - " +:+ PyStr.join ", " subdomains)
         (List.filter (fun '(i, (domain, subdomains)) =>
                         negb (String.eqb domain config.DEFAULT_DOMAIN))
                      (imap (fun i entry => (i, entry)) config.TRM_DOMAINS_SUBDOMAINS))).

Definition prompt_of (product_name description hint : cell) : string :=
  "Classify the software product '" +:+ py_str product_name
  +:+ "' described as '" +:+ py_str description +:+ "' "
  +:+ "with hint '" +:+ py_str hint
  +:+ "' into one of these TRM Domains and Subdomains:" +:+ newline
  +:+ domains_text +:+ newline
  +:+ "If uncertain, return 'Unclassified'." +:+ newline +:+ newline
  +:+ "Return your answer in 'Domain, Subdomain' format only.".

(** [domain, subdomain = parts]: a [ValueError] unless there are exactly
    two parts. *)
Definition unpack2 (parts : list string) : result (string * string) :=
  match parts with
  | [a; b] => Ok (a, b)
  | _ => Raise ValueError
  end.

(** The body of the inner [try]: split, trim, validate against the
    taxonomy. *)
Definition parse_response (classification : string) : result (string * string) :=
  '(domain, subdomain) ← unpack2 (PyStr.split ", " classification);
  let domain := PyStr.strip domain in
  let subdomain := PyStr.strip subdomain in
  known ← (if dict_mem domain config.TRM_DOMAINS_SUBDOMAINS
           then subdomains ← dict_get config.TRM_DOMAINS_SUBDOMAINS domain;
                Ok (list_mem subdomain subdomains)
           else Ok false);
  if (known : bool) then Ok (domain, subdomain)
  else if dict_mem domain config.TRM_DOMAINS_SUBDOMAINS
       then subdomains ← dict_get config.TRM_DOMAINS_SUBDOMAINS domain;
            first ← list_first subdomains;
            Ok (domain, first)
       else Ok (config.DEFAULT_DOMAIN, config.DEFAULT_SUBDOMAIN).

(** [try: body / except ValueError: handler] *)
Definition except_ValueError {A : Type} (body handler : result A) : result A :=
  match body with
  | Raise ValueError => handler
  | r => r
  end.

(** What the outer [try] does with the content of the response. *)
Definition read_response (content : option string) : result (string * string) :=
  classification ← (match content with
                    | Some c => Ok c
                    | None => Raise AttributeError
                    end);
  if String.eqb (PyStr.lower classification) "unclassified"
  then Ok (config.DEFAULT_DOMAIN, config.DEFAULT_SUBDOMAIN)
  else except_ValueError (parse_response classification)
         (Ok (config.DEFAULT_DOMAIN, config.DEFAULT_SUBDOMAIN)).

Section Service.

(** [config.OPENAI_API_KEY], and the text-completion service: the outcome
    of the request with the given number and prompt. *)
Variable OPENAI_API_KEY : option string.
Variable chat_completions_create : nat -> string -> completion.

(** [not config.OPENAI_API_KEY] *)
Definition key_missing : bool :=
  match OPENAI_API_KEY with
  | None => true
  | Some k => String.eqb k ""
  end.

Definition request (prompt : string) : M (option string) :=
  fun w =>
    let w' := {| frames := frames w;
                 notices := notices w;
                 requests := S (requests w) |} in
    match chat_completions_create (requests w) prompt with
    | Responded content => (Ok content, w')
    | Failed detail => (Raise (ServiceError detail), w')
    end.

Definition llm_classify (product_name description hint : cell) : M (string * string) :=
  if key_missing then
    _ ← warning "OpenAI API Key not configured. Using rule-based classification instead.";
    lift (rule_based_classify description hint)
  else
    let prompt := prompt_of product_name description hint in
    try_except
      (content ← request prompt;
       lift (read_response content))
      (fun e =>
         _ ← warning ("LLM API Error: " +:+ exn_str e);
         lift (rule_based_classify description hint)).

End Service.

Definition w0 : World := {| frames := ∅; notices := []; requests := 0 |}.

(** ** [risk_assessment.py]: the risk of one record *)

(** [v.lower()] and [v.strip()] on a cell: a missing value has no such
    method. *)
Definition cell_lower (v : cell) : result string :=
  match v with
  | Str s => Ok (PyStr.lower s)
  | Null => Raise AttributeError
  end.

Definition cell_strip (v : cell) : result string :=
  match v with
  | Str s => Ok (PyStr.strip s)
  | Null => Raise AttributeError
  end.

(** ['Lifecycle Status' in row and row['Lifecycle Status'].lower() == status] *)
Definition lifecycle_is (status : string) (row : Series) : result bool :=
  if row_mem "Lifecycle Status" row
  then v ← row_get row "Lifecycle Status";
       l ← cell_lower v;
       Ok (String.eqb l status)
  else Ok false.

(** ['Vendor' in row and (pd.isnull(row['Vendor']) or row['Vendor'].strip() == '')] *)
Definition vendor_missing (row : Series) : result bool :=
  if row_mem "Vendor" row
  then v ← row_get row "Vendor";
       if isnull v then Ok true
       else v' ← row_get row "Vendor";
            s ← cell_strip v';
            Ok (String.eqb s "")
  else Ok false.

(** ['TRM Domain' in row and row['TRM Domain'] == config.DEFAULT_DOMAIN] *)
Definition domain_unclassified (row : Series) : result bool :=
  if row_mem "TRM Domain" row
  then v ← row_get row "TRM Domain";
       Ok (bool_decide (v = Str config.DEFAULT_DOMAIN))
  else Ok false.

Definition flag_risk (row : Series) : result string :=
  deprecated ← lifecycle_is "deprecated" row;
  if (deprecated : bool) then Ok "High-Risk"
  else
    no_vendor ← vendor_missing row;
    if (no_vendor : bool) then Ok "High-Risk"
    else
      unclassified ← domain_unclassified row;
      if (unclassified : bool) then Ok "High-Risk"
      else
        beta ← lifecycle_is "beta" row;
        if (beta : bool) then Ok "Medium-Risk"
        else Ok config.DEFAULT_RISK_FLAG.

(** Rows for the examples. *)
Definition mk_row (fields : list (string * cell)) : Series := list_to_map fields.

(** ** [risk_assessment.py]: metrics over a record set *)

(** Python floats are IEEE 754 binary64 numbers, as Rocq's primitive
    floats are. *)
Definition float_of_Z (z : Z) : float := PrimFloat.of_uint63 (Uint63.of_Z z).
Definition float_of_nat (n : nat) : float := float_of_Z (Z.of_nat n).

(** The integer nearest to [num / den], ties to the even one. *)
Definition round_half_even_div (num den : Z) : Z :=
  let q := (num / den)%Z in
  let r := (num mod den)%Z in
  if (2 * r <? den)%Z then q
  else if (den <? 2 * r)%Z then (q + 1)%Z
  else if Z.even q then q else (q + 1)%Z.

(** [round(x, 1)]: the exact binary value of [x] is rounded to the nearest
    multiple of one tenth, ties to even, and the float nearest to that
    decimal is returned; an integer-valued, infinite or NaN [x] is returned
    as it is. (For magnitudes up to [2^49], far above a percentage.) *)
Definition py_round1 (x : float) : float :=
  match Prim2SF x with
  | S754_finite s m e =>
      if (0 <=? e)%Z then x
      else
        let tenths := round_half_even_div (Z.pos m * 10) (2 ^ (- e)) in
        let r := (float_of_Z tenths / 10)%float in
        if s then (- r)%float else r
  | _ => x
  end.

(** [round(v / total * 100, 1)] for a count [v]; dividing by a zero [total]
    raises. *)
Definition percentage (v total : nat) : result float :=
  match total with
  | O => Raise ZeroDivisionError
  | S _ => Ok (py_round1 (float_of_nat v / float_of_nat total * 100)%float)
  end.

(** [df[c]], the cells of column [c] in row order. *)
Definition column (df : DataFrame) (c : string) : list cell :=
  map (fun '(_, row) => default Null (row !! c)) (df_rows df).

(** [series.value_counts().to_dict()]: how often each value occurs, the
    missing values left out. *)
Definition value_counts (col : list cell) : gmap string nat :=
  foldr (fun v acc =>
           match v with
           | Str s => <[s := S (default 0%nat (acc !! s))]> acc
           | Null => acc
           end) ∅ col.

(** [len(df[mask])] for a row-wise condition on one column. *)
Definition count_where (p : cell -> bool) (col : list cell) : nat :=
  length (List.filter p col).

(** [{k: round(v/total*100, 1) for k, v in risk_counts.items()}] *)
Definition percentages_of (risk_counts : gmap string nat) (total : nat)
  : result (gmap string float) :=
  items ← mapM (fun '(k, v) => p ← percentage v total; Ok (k, p))
               (map_to_list risk_counts);
  Ok (list_to_map items).

Record RiskMetrics : Type := {
  counts : gmap string nat;
  percentages : gmap string float;
  deprecated_count : nat;
  missing_vendor_count : nat;
  unclassified_count : nat;
  total : nat
}.

Definition generate_risk_metrics (df : DataFrame) : result RiskMetrics :=
  let risk_counts :=
    if list_mem "Risk Flag" (df_columns df)
    then value_counts (column df "Risk Flag") else ∅ in
  let total := length (df_rows df) in
  risk_percentages ← percentages_of risk_counts total;
  let deprecated_count :=
    if list_mem "Lifecycle Status" (df_columns df)
    then count_where (fun v => bool_decide (v = Str "Deprecated"))
                     (column df "Lifecycle Status")
    else 0%nat in
  let missing_vendor_count :=
    if list_mem "Vendor" (df_columns df)
    then count_where (fun v => isnull v || bool_decide (v = Str ""))
                     (column df "Vendor")
    else 0%nat in
  let unclassified_count :=
    if list_mem "TRM Domain" (df_columns df)
    then count_where (fun v => bool_decide (v = Str config.DEFAULT_DOMAIN))
                     (column df "TRM Domain")
    else 0%nat in
  Ok {| counts := risk_counts;
        percentages := risk_percentages;
        deprecated_count := deprecated_count;
        missing_vendor_count := missing_vendor_count;
        unclassified_count := unclassified_count;
        total := total |}.

(** ** [classification.py]: the orchestrator *)

(** [df.at[idx, col] = v]. A column that does not exist yet is created,
    missing in every row; then every row labelled [idx] gets [v]; were there
    no such row, one would be appended. *)
Definition add_column (col : string) (df : DataFrame) : DataFrame :=
  if list_mem col (df_columns df) then df
  else {| df_columns := df_columns df ++ [col];
          df_rows := map (fun '(i, row) => (i, <[col := Null]> row)) (df_rows df) |}.

Definition has_label (idx : nat) (df : DataFrame) : bool :=
  existsb (fun '(i, _) => Nat.eqb i idx) (df_rows df).

Definition at_set (df : DataFrame) (idx : nat) (col : string) (v : cell) : DataFrame :=
  let df1 := add_column col df in
  if has_label idx df1
  then {| df_columns := df_columns df1;
          df_rows := map (fun '(i, row) =>
                            (i, if Nat.eqb i idx then <[col := v]> row else row))
                         (df_rows df1) |}
  else {| df_columns := df_columns df1;
          df_rows := df_rows df1 ++
                     [(idx, <[col := v]> (list_to_map (map (fun c => (c, Null))
                                                           (df_columns df1))))] |}.

(** Frames live in the store; a variable holds an address. An address with
    nothing behind it cannot occur in Python: the model raises there. *)
Definition deref (l : nat) : M DataFrame :=
  fun w =>
    match frames w !! l with
    | Some df => (Ok df, w)
    | None => (Raise ReferenceError, w)
    end.

Definition alloc (df : DataFrame) : M nat :=
  fun w =>
    let l := fresh (dom (frames w)) in
    (Ok l, {| frames := <[l := df]> (frames w);
              notices := notices w;
              requests := requests w |}).

Definition store (l : nat) (df : DataFrame) : M unit :=
  fun w => (Ok tt, {| frames := <[l := df]> (frames w);
                      notices := notices w;
                      requests := requests w |}).

(** [df.copy()]: a new frame with the same columns, labels and cells. *)
Definition df_copy (l : nat) : M nat :=
  df ← deref l;
  alloc df.

(** [df.iterrows()]: the rows are read off when the loop starts. *)
Definition iterrows (l : nat) : M (list (nat * Series)) :=
  df ← deref l;
  mret (df_rows df).

Definition set_at (l : nat) (idx : nat) (col : string) (v : cell) : M unit :=
  df ← deref l;
  store l (at_set df idx col v).

Fixpoint for_each {A : Type} (items : list A) (body : A -> M unit) : M unit :=
  match items with
  | [] => mret tt
  | x :: rest => _ ← body x; for_each rest body
  end.

Section Orchestrator.

Variable OPENAI_API_KEY : option string.
Variable chat_completions_create : nat -> string -> completion.

(** The body of the loop of [run_classification]. *)
Definition classify_row (result_df : nat) (method : string)
    (entry : nat * Series) : M unit :=
  let '(idx, row) := entry in
  product_name ← lift (row_get row "Product Name");
  description ← lift (row_get row "Description");
  hint ← (if row_mem "Category Hint" row
          then lift (row_get row "Category Hint")
          else mret (Str ""));
  '(domain, subdomain) ←
    (if String.eqb method "rule-based"
     then lift (rule_based_classify description hint)
     else llm_classify OPENAI_API_KEY chat_completions_create
            product_name description hint);
  _ ← set_at result_df idx "TRM Domain" (Str domain);
  set_at result_df idx "TRM Subdomain" (Str subdomain).

Definition run_classification (df : nat) (method : string) : M nat :=
  result_df ← df_copy df;
  rows ← iterrows result_df;
  _ ← for_each rows (classify_row result_df method);
  mret result_df.

End Orchestrator.

Definition sample_frame : DataFrame :=
  {| df_columns := ["Product Name"; "Description"; "Vendor"];
     df_rows :=
       [ (0%nat, mk_row [("Product Name", Str "pgAdmin");
                         ("Description", Str "PostgreSQL console");
                         ("Vendor", Str "Acme")]);
         (1%nat, mk_row [("Product Name", Str "Abacus");
                         ("Description", Str "a simple calculator");
                         ("Vendor", Null)]) ] |}.

Definition sample_world : World :=
  {| frames := {[ 0%nat := sample_frame ]}; notices := []; requests := 0 |}.

(** ** The vocabulary of the properties *)

(** The conditions of the risk rules, read off a row. *)

(** [lifecycle_status] is present and equals [status] when lowercased. *)
Definition lifecycle_equals (status : string) (row : Series) : bool :=
  match row !! "Lifecycle Status" with
  | Some (Str s) => String.eqb (PyStr.lower s) status
  | _ => false
  end.

(** The vendor field is there, and is null or blank. *)
Definition vendor_blank (row : Series) : bool :=
  match row !! "Vendor" with
  | Some Null => true
  | Some (Str s) => String.eqb (PyStr.strip s) ""
  | None => false
  end.

(** The vendor is absent, null, or empty after trimming. *)
Definition vendor_absent_or_blank (row : Series) : bool :=
  match row !! "Vendor" with
  | None => true
  | Some Null => true
  | Some (Str s) => String.eqb (PyStr.strip s) ""
  end.

(** The domain field holds the sentinel domain. *)
Definition domain_is_sentinel (row : Series) : bool :=
  bool_decide (row !! "TRM Domain" = Some (Str config.DEFAULT_DOMAIN)).

(** The lifecycle status, where the row has one, is a string. *)
Definition lifecycle_is_text (row : Series) : Prop :=
  row !! "Lifecycle Status" <> Some Null.

(** The precedence of the five rules, with a given reading of "the vendor is
    missing". *)
Definition risk_by_precedence (vendor_rule : Series -> bool) (row : Series) : string :=
  if lifecycle_equals "deprecated" row then "High-Risk"
  else if vendor_rule row then "High-Risk"
  else if domain_is_sentinel row then "High-Risk"
  else if lifecycle_equals "beta" row then "Medium-Risk"
  else "Normal".

(** The sentinel pair. *)
Definition SENTINEL : string * string :=
  (config.DEFAULT_DOMAIN, config.DEFAULT_SUBDOMAIN).

(** A domain's entry of the keyword table matches a text when one of its
    keywords occurs in the text. *)
Definition domain_matches (text : string) (entry : string * list string) : bool :=
  any_keyword_in entry.2 text.

(** The first declared subdomain of a domain. *)
Definition first_subdomain (domain : string) : option string :=
  match dict_lookup config.TRM_DOMAINS_SUBDOMAINS domain with
  | Some (s :: _) => Some s
  | _ => None
  end.

(** The rule classifier as the spec words it, on the text to search: the
    first domain in declared order one of whose keywords occurs in the text,
    with its first declared subdomain; the sentinel pair when there is
    none. *)
Definition first_match_wins (text : string) : option (string * string) :=
  match List.find (domain_matches text) config.CLASSIFICATION_KEYWORDS with
  | Some (domain, _) => s ← first_subdomain domain; Some (domain, s)
  | None => Some SENTINEL
  end.

(** Every character of a string satisfies [p]. *)
Fixpoint all_chars (p : ascii -> bool) (s : string) : bool :=
  match s with
  | EmptyString => true
  | String c r => p c && all_chars p r
  end.

Definition not_comma (c : ascii) : bool := negb (Ascii.eqb c ",").

(** The state after one more notice, and after one more request. *)
Definition with_notice (msg : string) (w : World) : World :=
  {| frames := frames w; notices := notices w ++ [msg]; requests := requests w |}.

Definition after_request (w : World) : World :=
  {| frames := frames w; notices := notices w; requests := S (requests w) |}.

(** How many cells of a column hold the string [s]. *)
Definition occurrences (s : string) (col : list cell) : nat :=
  count_where (fun v => bool_decide (v = Str s)) col.

(** [round(v / total * 100, 1)], where the division is defined. *)
Definition percent (v total : nat) : float :=
  py_round1 (float_of_nat v / float_of_nat total * 100)%float.

(** The records of a frame the risk rule 2 finds without vendor. *)
Definition rows_missing_vendor (df : DataFrame) : nat :=
  length (List.filter (fun entry => vendor_blank entry.2) (df_rows df)).

(** The records whose vendor is absent, null, or empty after trimming. *)
Definition rows_vendor_absent_or_blank (df : DataFrame) : nat :=
  length (List.filter (fun entry => vendor_absent_or_blank entry.2) (df_rows df)).

(** No vendor of the frame is a non-empty string of white space only. *)
Definition no_blank_vendor (df : DataFrame) : Prop :=
  forall idx row s,
    In (idx, row) (df_rows df) ->
    row !! "Vendor" = Some (Str s) ->
    PyStr.strip s = "" -> s = "".

Definition metrics_frame : DataFrame :=
  {| df_columns := ["Product Name"; "Vendor"; "Lifecycle Status"; "TRM Domain"; "Risk Flag"];
     df_rows :=
       [ (0%nat, mk_row [("Product Name", Str "pgAdmin"); ("Vendor", Str "Acme");
                         ("Lifecycle Status", Str "Deprecated");
                         ("TRM Domain", Str "Data Management");
                         ("Risk Flag", Str "High-Risk")]);
         (1%nat, mk_row [("Product Name", Str "Abacus"); ("Vendor", Null);
                         ("Lifecycle Status", Str "Active");
                         ("TRM Domain", Str "Unclassified");
                         ("Risk Flag", Str "High-Risk")]);
         (2%nat, mk_row [("Product Name", Str "HAProxy"); ("Vendor", Str "HAProxy Inc");
                         ("Lifecycle Status", Str "Active");
                         ("TRM Domain", Str "Network");
                         ("Risk Flag", Str "Normal")]) ] |}.

(** A frame with no vendor column, and one whose only vendor is a space. *)
Definition frame_without_vendor : DataFrame :=
  {| df_columns := ["Product Name"];
     df_rows := [ (0%nat, mk_row [("Product Name", Str "Abacus")]) ] |}.

Definition frame_blank_vendor : DataFrame :=
  {| df_columns := ["Product Name"; "Vendor"];
     df_rows := [ (0%nat, mk_row [("Product Name", Str "Abacus"); ("Vendor", Str " ")]) ] |}.

(** Decision procedures for the two conditions on a frame. *)
Definition df_wfb (df : DataFrame) : bool :=
  forallb (fun entry : nat * Series =>
             bool_decide (dom entry.2 = (list_to_set (df_columns df) : gset string)))
          (df_rows df).

Definition no_blank_vendorb (df : DataFrame) : bool :=
  forallb (fun entry : nat * Series =>
             match entry.2 !! "Vendor" with
             | Some (Str s) => negb (String.eqb (PyStr.strip s) "") || String.eqb s ""
             | _ => true
             end)
          (df_rows df).

(** A row of the result agrees with the row of the input it stands for:
    same index label, and the same cell in every column but the two the
    classification writes. *)
Definition agree (e e' : nat * Series) : Prop :=
  e'.1 = e.1
  /\ forall c, c <> "TRM Domain" -> c <> "TRM Subdomain" -> e'.2 !! c = e.2 !! c.

(** The rows of [df'] are the rows of [df], one for one and in the same
    order, up to the domain and subdomain fields. *)
Definition only_classification_written (df df' : DataFrame) : Prop :=
  Forall2 agree (df_rows df) (df_rows df').

(** While [run_classification] runs: every frame but the copy at [r] is as
    it was in the store [F0], and the copy differs from the input [df0] in
    the two classification fields only. *)
Definition copy_invariant (F0 : gmap nat DataFrame) (r : nat) (df0 : DataFrame)
    (w : World) : Prop :=
  (forall l, l <> r -> frames w !! l = F0 !! l)
  /\ exists dfk, frames w !! r = Some dfk /\ only_classification_written df0 dfk.

(** The row has the two fields the loop reads without a guard. *)
Definition classifiable (row : Series) : Prop :=
  is_Some (row !! "Product Name") /\ is_Some (row !! "Description").

(** ** [utils.py] *)

(** [api_key is not None and len(str(api_key).strip()) > 0] *)
Definition is_api_key_configured (api_key : option string) : bool :=
  match api_key with
  | None => false
  | Some k => (0 <? String.length (PyStr.strip k))%nat
  end.

(** The hint the loops read: ['Category Hint'] where the row has one, the
    empty string otherwise. *)
Definition hint_of (row : Series) : cell :=
  match row !! "Category Hint" with
  | Some v => v
  | None => Str ""
  end.

(** The classifier a run uses, by its method. *)
Definition classifier_run (key : option string) (service : nat -> string -> completion)
    (method : string) (product_name description hint : cell) (w : World)
  : result (string * string) * World :=
  if String.eqb method "rule-based"
  then (rule_based_classify description hint, w)
  else llm_classify key service product_name description hint w.

(** The frame at [r] replaced by [df]. *)
Definition with_frame (r : nat) (df : DataFrame) (w : World) : World :=
  {| frames := <[r := df]> (frames w); notices := notices w; requests := requests w |}.

(** Both classification fields of the rows labelled [idx] set. *)
Definition write_pair (df : DataFrame) (idx : nat) (pair : string * string) : DataFrame :=
  at_set (at_set df idx "TRM Domain" (Str pair.1)) idx "TRM Subdomain" (Str pair.2).

(** The row carries the pair in its two classification fields. *)
Definition carries (row : Series) (pair : string * string) : Prop :=
  row !! "TRM Domain" = Some (Str pair.1)
  /\ row !! "TRM Subdomain" = Some (Str pair.2).

(** The last row of a list that has the label [idx]. *)
Definition last_with_label (idx : nat) (rows : list (nat * Series)) : option Series :=
  snd <$> List.find (fun e => Nat.eqb e.1 idx) (rev rows).

(** What [at_set] does to one row: a missing column is filled in, and the
    rows with the label get the value. *)
Definition fill_column (col : string) (df : DataFrame) (row : Series) : Series :=
  if list_mem col (df_columns df) then row else <[col := Null]> row.

Definition set_in_row (df : DataFrame) (idx : nat) (col : string) (v : cell)
    (e : nat * Series) : nat * Series :=
  (e.1, if Nat.eqb e.1 idx then <[col := v]> (fill_column col df e.2)
        else fill_column col df e.2).

(** What a run writes for an input row: a valid pair, and under the
    rule-based method the pair the rules give for the row's description and
    hint. *)
Definition classification_of (method : string) (row : Series)
    (pair : string * string) : Prop :=
  is_valid pair.1 pair.2
  /\ (method = "rule-based" ->
      exists description,
        row !! "Description" = Some description
        /\ rule_based_classify description (hint_of row) = Ok pair).

(** The requests and notices a run has added after the rows [pre]: one
    request for each row under the model-based method with a key, none
    otherwise; no notice under the rule-based method, one for each row when
    the key is missing, at most one for each row in any case. *)
Definition accounted (key : option string) (method : string) (w0 : World)
    (pre : list (nat * Series)) (w : World) : Prop :=
  requests w = (requests w0 +
                if String.eqb method "rule-based" || key_missing key
                then 0 else length pre)%nat
  /\ (method = "rule-based" -> notices w = notices w0)
  /\ (method <> "rule-based" -> key_missing key = true ->
      length (notices w) = (length (notices w0) + length pre)%nat)
  /\ (length (notices w) <= length (notices w0) + length pre)%nat.

(** The pair is what the classifier of the method returned for the row: by
    a call on the row's product name, description and hint, made when at
    least [lo] requests had been sent, and after which at most [hi] had. (The
    answer of the model-based classifier depends on the state through the
    number of requests sent so far only.) *)
Definition classified_by (key : option string) (service : nat -> string -> completion)
    (method : string) (lo hi : nat) (row : Series) (pair : string * string) : Prop :=
  exists product_name description w_at w_after,
    row !! "Product Name" = Some product_name
    /\ row !! "Description" = Some description
    /\ classifier_run key service method product_name description (hint_of row) w_at
       = (Ok pair, w_after)
    /\ (lo <= requests w_at)%nat
    /\ (requests w_after <= hi)%nat.

(** While the loop of [run_classification] runs on the copy at [r], having
    started when [lo] requests had been sent: each row of the copy whose
    label has come up carries the classification, by a call made since, of
    the last row that had the label. *)
Definition written (key : option string) (service : nat -> string -> completion)
    (r : nat) (method : string) (lo : nat)
    (pre : list (nat * Series)) (w : World) : Prop :=
  (lo <= requests w)%nat
  /\ exists dfk,
       frames w !! r = Some dfk
       /\ (pre <> [] ->
           list_mem "TRM Domain" (df_columns dfk) = true
           /\ list_mem "TRM Subdomain" (df_columns dfk) = true)
       /\ forall e, In e (df_rows dfk) ->
            forall row_last, last_with_label e.1 pre = Some row_last ->
              exists res,
                classified_by key service method lo (requests w) row_last res
                /\ carries e.2 res.

(** ** [classification.py]: classification with statistics *)

(** The dictionary [classify_software] returns. *)
Module Results.
Record t : Type := {
  classifications : list (string * string);
  domain_counts : gmap string nat;
  unclassified_count : nat
}.
End Results.

(** A loop that carries the value it builds. *)
Fixpoint fold_each {A S : Type} (items : list A) (body : S -> A -> M S) (acc : S) : M S :=
  match items with
  | [] => mret acc
  | x :: rest => acc' ← body acc x; fold_each rest body acc'
  end.

Section Software.

Variable OPENAI_API_KEY : option string.
Variable chat_completions_create : nat -> string -> completion.

(** The body of the loop of [classify_software]. *)
Definition classify_software_row (method : string) (results : Results.t)
    (entry : nat * Series) : M Results.t :=
  let '(_, row) := entry in
  product_name ← lift (row_get row "Product Name");
  description ← lift (row_get row "Description");
  hint ← (if row_mem "Category Hint" row
          then lift (row_get row "Category Hint")
          else mret (Str ""));
  '(domain, subdomain) ←
    (if String.eqb method "rule-based"
     then lift (rule_based_classify description hint)
     else llm_classify OPENAI_API_KEY chat_completions_create
            product_name description hint);
  mret {| Results.classifications :=
            Results.classifications results ++ [(domain, subdomain)];
          Results.domain_counts :=
            match Results.domain_counts results !! domain with
            | Some n => <[domain := S n]> (Results.domain_counts results)
            | None => <[domain := 1%nat]> (Results.domain_counts results)
            end;
          Results.unclassified_count :=
            if String.eqb domain config.DEFAULT_DOMAIN
            then S (Results.unclassified_count results)
            else Results.unclassified_count results |}.

Definition classify_software (df : nat) (method : string) : M Results.t :=
  rows ← iterrows df;
  fold_each rows (classify_software_row method)
    {| Results.classifications := [];
       Results.domain_counts := ∅;
       Results.unclassified_count := 0 |}.

End Software.

(** How many of the pairs have the domain [d]. *)
Definition domain_tally (d : string) (pairs : list (string * string)) : nat :=
  length (List.filter (fun p => String.eqb p.1 d) pairs).

(** The statistics of [results] are those of its list of pairs. *)
Definition tallied (results : Results.t) : Prop :=
  (forall d,
     Results.domain_counts results !! d =
     if Nat.eqb (domain_tally d (Results.classifications results)) 0
     then None
     else Some (domain_tally d (Results.classifications results)))
  /\ Results.unclassified_count results
     = domain_tally config.DEFAULT_DOMAIN (Results.classifications results).

(** One entry added to the results. *)
Definition record_pair (results : Results.t) (pair : string * string) : Results.t :=
  {| Results.classifications := Results.classifications results ++ [pair];
     Results.domain_counts :=
       match Results.domain_counts results !! pair.1 with
       | Some n => <[pair.1 := S n]> (Results.domain_counts results)
       | None => <[pair.1 := 1%nat]> (Results.domain_counts results)
       end;
     Results.unclassified_count :=
       if String.eqb pair.1 config.DEFAULT_DOMAIN
       then S (Results.unclassified_count results)
       else Results.unclassified_count results |}.

(** ** [data_processor.py]: cleaning *)

(** [df[c]]: the column, which has to be there. *)
Definition getitem (df : DataFrame) (c : string) : result (list cell) :=
  if list_mem c (df_columns df) then Ok (column df c) else Raise KeyError.

(** [df[c] = values], for values that were made from a column of [df]:
    each row gets its value, and a new column is added last. *)
Definition setitem (df : DataFrame) (c : string) (values : list cell) : DataFrame :=
  {| df_columns := if list_mem c (df_columns df) then df_columns df
                   else df_columns df ++ [c];
     df_rows := zip_with (fun '(i, row) v => (i, <[c := v]> row)) (df_rows df) values |}.

(** [series.fillna(s)] *)
Definition fillna (s : string) (col : list cell) : list cell :=
  map (fun v => if isnull v then Str s else v) col.

(** [series.str]: only a column of text has it. In a frame as [read_csv]
    builds it, a column that has records but no text in any of them is a
    column of floats, and asking for [.str] raises. *)
Definition str_accessor (col : list cell) : result (list cell) :=
  match col with
  | [] => Ok col
  | _ :: _ => if forallb isnull col then Raise AttributeError else Ok col
  end.

(** [series.str.strip()], [series.str.lower()]: the missing values stay. *)
Definition str_map (f : string -> string) (col : list cell) : result (list cell) :=
  texts ← str_accessor col;
  Ok (map (fun v => match v with
                    | Str s => Str (f s)
                    | Null => Null
                    end) texts).

Definition status_mapping : list (string * string) :=
  [ ("active", "Active");
    ("deprecated", "Deprecated");
    ("beta", "Beta");
    ("planned", "Planned") ].

(** [lambda x: status_mapping.get(x, 'Active') if pd.notnull(x) else 'Active'] *)
Definition map_status (x : cell) : cell :=
  match x with
  | Str s => Str (default "Active" (dict_lookup status_mapping s))
  | Null => Str "Active"
  end.

(** [clean_data] on the value of the copy it makes; the frame handed in is
    not touched. *)
Definition clean_data (df : DataFrame) : result DataFrame :=
  let cleaned_df := df in
  description ← getitem cleaned_df "Description";
  let cleaned_df := setitem cleaned_df "Description" (fillna "" description) in
  hint ← getitem cleaned_df "Category Hint";
  let cleaned_df := setitem cleaned_df "Category Hint" (fillna "" hint) in
  product_name ← getitem cleaned_df "Product Name";
  stripped ← str_map PyStr.strip product_name;
  let cleaned_df := setitem cleaned_df "Product Name" stripped in
  cleaned_df ←
    (if list_mem "Lifecycle Status" (df_columns cleaned_df)
     then status ← getitem cleaned_df "Lifecycle Status";
          lowered ← str_map PyStr.lower status;
          Ok (setitem cleaned_df "Lifecycle Status" (map map_status lowered))
     else Ok cleaned_df);
  Ok (fold_left (fun frame col => add_column col frame)
                ["TRM Domain"; "TRM Subdomain"; "Risk Flag"] cleaned_df).

Definition raw_frame : DataFrame :=
  {| df_columns := ["Product Name"; "Description"; "Category Hint"; "Vendor";
                    "Lifecycle Status"];
     df_rows :=
       [ (0%nat, mk_row [("Product Name", Str "  pgAdmin ");
                         ("Description", Str "PostgreSQL console");
                         ("Category Hint", Null);
                         ("Vendor", Str "Acme");
                         ("Lifecycle Status", Str "DEPRECATED")]);
         (1%nat, mk_row [("Product Name", Str "Abacus");
                         ("Description", Null);
                         ("Category Hint", Str "tools");
                         ("Vendor", Null);
                         ("Lifecycle Status", Str "retired")]) ] |}.

(** What [clean_data] does, row by row. *)

(** The same change made in every row. *)
Definition map_rows (f : Series -> Series) (df : DataFrame) : DataFrame :=
  {| df_columns := df_columns df;
     df_rows := map (fun e => (e.1, f e.2)) (df_rows df) |}.

(** One cell of a row replaced by a function of what it held. *)
Definition on_cell (c : string) (g : cell -> cell) (row : Series) : Series :=
  <[c := g (default Null (row !! c))]> row.

Definition fill_null (s : string) (v : cell) : cell :=
  if isnull v then Str s else v.

Definition str_cell (f : string -> string) (v : cell) : cell :=
  match v with
  | Str s => Str (f s)
  | Null => Null
  end.

(** The column has [.str]: it has no record, or text in one of them. *)
Definition has_text (col : list cell) : bool :=
  match col with
  | [] => true
  | _ :: _ => negb (forallb isnull col)
  end.

Definition clean_status (v : cell) : cell := map_status (str_cell PyStr.lower v).

Definition clean_row (lifecycle : bool) (row : Series) : Series :=
  let row := on_cell "Description" (fill_null "") row in
  let row := on_cell "Category Hint" (fill_null "") row in
  let row := on_cell "Product Name" (str_cell PyStr.strip) row in
  if lifecycle then on_cell "Lifecycle Status" clean_status row else row.

Definition add_columns (cols : list string) (df : DataFrame) : DataFrame :=
  fold_left (fun frame col => add_column col frame) cols df.

(** The outcome of [clean_data], by the columns of the frame. *)
Definition cleaned (df : DataFrame) : result DataFrame :=
  if list_mem "Description" (df_columns df)
     && list_mem "Category Hint" (df_columns df)
     && list_mem "Product Name" (df_columns df)
  then
    if has_text (column df "Product Name")
    then
      if list_mem "Lifecycle Status" (df_columns df)
      then
        if has_text (column df "Lifecycle Status")
        then Ok (add_columns ["TRM Domain"; "TRM Subdomain"; "Risk Flag"]
                   (map_rows (clean_row true) df))
        else Raise AttributeError
      else Ok (add_columns ["TRM Domain"; "TRM Subdomain"; "Risk Flag"]
                 (map_rows (clean_row false) df))
    else Raise AttributeError
  else Raise KeyError.

(** The ['Risk Flag'] of every record is what [flag_risk] gives for the
    record, as after [df['Risk Flag'] = df.apply(flag_risk, axis=1)]. *)
Definition flagged (df : DataFrame) : Prop :=
  forall idx row, In (idx, row) (df_rows df) ->
    exists level, flag_risk row = Ok level /\ row !! "Risk Flag" = Some (Str level).

Definition assessed_frame : DataFrame :=
  {| df_columns := ["Product Name"; "Vendor"; "Lifecycle Status"; "TRM Domain"; "Risk Flag"];
     df_rows :=
       [ (0%nat, mk_row [("Product Name", Str "pgAdmin");
                         ("Vendor", Str "Acme");
                         ("Lifecycle Status", Str "Deprecated");
                         ("TRM Domain", Str "Data Management");
                         ("Risk Flag", Str "High-Risk")]);
         (1%nat, mk_row [("Product Name", Str "Abacus");
                         ("Vendor", Null);
                         ("Lifecycle Status", Str "Active");
                         ("TRM Domain", Str "Unclassified");
                         ("Risk Flag", Str "High-Risk")]);
         (2%nat, mk_row [("Product Name", Str "Kite");
                         ("Vendor", Str "Birds");
                         ("Lifecycle Status", Str "Beta");
                         ("TRM Domain", Str "Network");
                         ("Risk Flag", Str "Medium-Risk")]) ] |}.

(** ** [app.py]: the chosen methods are run one after the other *)

Section Methods.

Variable OPENAI_API_KEY : option string.
Variable chat_completions_create : nat -> string -> completion.

(** [for method in classification_methods: df = run_classification(df, method)] *)
Fixpoint run_methods (df : nat) (classification_methods : list string) : M nat :=
  match classification_methods with
  | [] => mret df
  | method :: rest =>
      df' ← run_classification OPENAI_API_KEY chat_completions_create df method;
      run_methods df' rest
  end.

End Methods.

(** ** [data_processor.py]: filtering *)

(** [df[mask]]: the rows the mask selects, with their labels. *)
Definition select (df : DataFrame) (mask : list bool) : DataFrame :=
  {| df_columns := df_columns df;
     df_rows := map fst (List.filter snd (combine (df_rows df) mask)) |}.

(** [df[col] == value] *)
Definition eq_mask (col : list cell) (value : string) : list bool :=
  map (fun v => bool_decide (v = Str value)) col.

(** The truth value of an optional string in a condition: [None] and the
    empty string count as false. *)
Definition truthy (value : option string) : bool :=
  match value with
  | Some s => negb (String.eqb s "")
  | None => false
  end.

(** One of the three blocks
    [if value and value != config.UI_SELECT_ALL:
         filtered_df = filtered_df[filtered_df[col] == value]]. *)
Definition filter_equal (filtered_df : DataFrame) (col : string) (value : option string)
  : result DataFrame :=
  match value with
  | Some v =>
      if truthy value && negb (String.eqb v config.UI_SELECT_ALL)
      then column ← getitem filtered_df col;
           Ok (select filtered_df (eq_mask column v))
      else Ok filtered_df
  | None => Ok filtered_df
  end.

Section Filter.

(** The rows that
    [df['Product Name'].str.lower().str.contains(term)
     | df['Description'].str.lower().str.contains(term)]
    selects. The search is the regular-expression search of pandas, which
    is not modelled: it is a parameter, and may raise. *)
Variable search_mask : string -> DataFrame -> result (list bool).

Definition filter_data (df : DataFrame)
    (search_term domain status risk_level : option string) : result DataFrame :=
  let filtered_df := df in
  filtered_df ←
    match search_term with
    | Some term =>
        if truthy search_term && (0 <? String.length (PyStr.strip term))%nat
        then let search_term := PyStr.lower (PyStr.strip term) in
             mask ← search_mask search_term filtered_df;
             Ok (select filtered_df mask)
        else Ok filtered_df
    | None => Ok filtered_df
    end;
  filtered_df ← filter_equal filtered_df "TRM Domain" domain;
  filtered_df ← filter_equal filtered_df "Lifecycle Status" status;
  filtered_df ← filter_equal filtered_df "Risk Flag" risk_level;
  Ok filtered_df.

End Filter.

(** The value a filter is set to, if it is set: [None], the empty string and
    ["All"] leave it off. *)
Definition active (value : option string) : option string :=
  match value with
  | Some v => if String.eqb v "" || String.eqb v "All" then None else Some v
  | None => None
  end.

(** The row passes the filter on [col]. *)
Definition meets (col : string) (value : option string) (row : Series) : bool :=
  match active value with
  | Some v => bool_decide (default Null (row !! col) = Str v)
  | None => true
  end.

(** The frame has the column the filter reads, if the filter is set. *)
Definition readable (col : string) (value : option string) (df : DataFrame) : bool :=
  match active value with
  | Some _ => list_mem col (df_columns df)
  | None => true
  end.

(** No search is asked for: no term, or a blank one. *)
Definition no_search (search_term : option string) : bool :=
  match search_term with
  | Some term => String.eqb (PyStr.strip term) ""
  | None => true
  end.

(** The rows of a frame that satisfy [p]. *)
Definition keep_rows (p : Series -> bool) (df : DataFrame) : DataFrame :=
  {| df_columns := df_columns df;
     df_rows := List.filter (fun e => p e.2) (df_rows df) |}.

(** The row passes the three filters. *)
Definition meets_all (domain status risk_level : option string) (row : Series) : bool :=
  meets "TRM Domain" domain row
  && meets "Lifecycle Status" status row
  && meets "Risk Flag" risk_level row.

(** The frame has the columns the filters that are set read. *)
Definition readable_all (domain status risk_level : option string) (df : DataFrame) : bool :=
  readable "TRM Domain" domain df
  && readable "Lifecycle Status" status df
  && readable "Risk Flag" risk_level df.

Definition filter_frame : DataFrame :=
  {| df_columns := ["Product Name"; "Lifecycle Status"; "TRM Domain"];
     df_rows :=
       [ (0%nat, mk_row [("Product Name", Str "pgAdmin");
                         ("Lifecycle Status", Str "Deprecated");
                         ("TRM Domain", Str "Data Management")]);
         (1%nat, mk_row [("Product Name", Str "Abacus");
                         ("Lifecycle Status", Str "Active");
                         ("TRM Domain", Null)]);
         (2%nat, mk_row [("Product Name", Str "Redis");
                         ("Lifecycle Status", Str "Active");
                         ("TRM Domain", Str "Data Management")]) ] |}.

(** * Properties *)

(** ** The model on concrete inputs *)

Example lower_ex : PyStr.lower "Beta-Version 2" = "beta-version 2".
Proof. reflexivity. Qed.

Example strip_ex : PyStr.strip "  Acme Corp " = "Acme Corp".
Proof. reflexivity. Qed.

Example split_ex1 : PyStr.split ", " "Security, Firewalling" = ["Security"; "Firewalling"].
Proof. reflexivity. Qed.

Example split_ex2 : PyStr.split ", " "a, b, c" = ["a"; "b"; "c"].
Proof. reflexivity. Qed.

Example split_ex3 : PyStr.split ", " "a,b, " = ["a,b"; ""].
Proof. reflexivity. Qed.

Example split_ex4 : PyStr.split ", " "" = [""].
Proof. reflexivity. Qed.

Example contains_ex : PyStr.contains "sql" "a nosql store" = true.
Proof. reflexivity. Qed.

Example rule_ex1 :
  rule_based_classify (Str "A PostgreSQL database server") (Str "") =
  Ok ("Data Management", "Database Platforms").
Proof. reflexivity. Qed.

Example rule_ex2 :
  rule_based_classify (Str "a simple calculator") (Str "") =
  Ok ("Unclassified", "Unclassified").
Proof. reflexivity. Qed.

Example rule_ex3 :
  rule_based_classify (Str "network security scanner") (Str "") =
  Ok ("Security", "Security Tools").
Proof. reflexivity. Qed.

Example rule_ex4 :
  rule_based_classify (Str "data") (Str "store") =
  Ok ("Data Management", "Database Platforms").
Proof. reflexivity. Qed.

Example rule_ex5 :
  rule_based_classify (Str "data") (Str "base") = Ok ("Unclassified", "Unclassified").
Proof. reflexivity. Qed.

Example llm_ex_repair :
  (llm_classify (Some "sk-test") (fun _ _ => Responded (Some "Security, Firewalling"))
     (Str "FortiGate") (Str "perimeter appliance") (Str "") w0).1
  = Ok ("Security", "Security Tools").
Proof. reflexivity. Qed.

Example llm_ex_valid :
  (llm_classify (Some "sk-test") (fun _ _ => Responded (Some "Network, Load Balancers"))
     (Str "HAProxy") (Str "proxy") (Str "") w0).1
  = Ok ("Network", "Load Balancers").
Proof. reflexivity. Qed.

Example llm_ex_three_parts :
  (llm_classify (Some "sk-test") (fun _ _ => Responded (Some "Security, Security Tools, really"))
     (Str "x") (Str "y") (Str "") w0).1
  = Ok ("Unclassified", "Unclassified").
Proof. reflexivity. Qed.

Example llm_ex_failure :
  llm_classify (Some "sk-test") (fun _ _ => Failed "timeout")
     (Str "pgAdmin") (Str "PostgreSQL console") (Str "") w0
  = (Ok ("Data Management", "Database Platforms"),
     {| frames := ∅; notices := ["LLM API Error: timeout"]; requests := 1 |}).
Proof. reflexivity. Qed.

Example domains_text_ex :
  PyStr.split newline domains_text =
  [ "1. Data Management - Database Platforms, Data Processing, Data Storage";
    "2. Artificial Intelligence - ML Frameworks, NLP Tools, Computer Vision";
    "3. Security - Security Tools, Authentication, Encryption";
    "4. Network - Networking Tools, Load Balancers, API Gateways";
    "5. Development - IDEs, Version Control, CI/CD" ].
Proof. vm_compute. reflexivity. Qed.

Example risk_ex_precedence :
  flag_risk (mk_row [("Lifecycle Status", Str "Deprecated"); ("Vendor", Null)])
  = Ok "High-Risk".
Proof. vm_compute. reflexivity. Qed.

Example risk_ex_beta :
  flag_risk (mk_row [("Lifecycle Status", Str "Beta"); ("Vendor", Str "Acme");
                     ("TRM Domain", Str "Development")])
  = Ok "Medium-Risk".
Proof. vm_compute. reflexivity. Qed.

Example risk_ex_normal :
  flag_risk (mk_row [("Lifecycle Status", Str "Active"); ("Vendor", Str "Acme");
                     ("TRM Domain", Str "Network")])
  = Ok "Normal".
Proof. vm_compute. reflexivity. Qed.

Example risk_ex_null_lifecycle :
  flag_risk (mk_row [("Lifecycle Status", Null); ("Vendor", Str "Acme")])
  = Raise AttributeError.
Proof. vm_compute. reflexivity. Qed.

Example run_ex :
  let '(r, w) := run_classification None (fun _ _ => Failed "off") 0 "rule-based"
                   sample_world in
  r = Ok 1%nat
  /\ frames w !! 0%nat = Some sample_frame
  /\ (df_columns <$> frames w !! 1%nat)
     = Some ["Product Name"; "Description"; "Vendor"; "TRM Domain"; "TRM Subdomain"]
  /\ (map (fun '(i, row) => (i, row !! "TRM Domain", row !! "TRM Subdomain",
                             row !! "Vendor"))
        <$> (df_rows <$> frames w !! 1%nat))
     = Some [ (0%nat, Some (Str "Data Management"), Some (Str "Database Platforms"),
               Some (Str "Acme"));
              (1%nat, Some (Str "Unclassified"), Some (Str "Unclassified"),
               Some Null) ].
Proof. vm_compute. repeat split; reflexivity. Qed.

(** ** Risk of one record *)

Lemma row_mem_Some (row : Series) c v : row !! c = Some v -> row_mem c row = true.
Proof. intros H. unfold row_mem. apply bool_decide_eq_true_2. eauto. Qed.

Lemma row_mem_None (row : Series) c : row !! c = None -> row_mem c row = false.
Proof.
  intros H. unfold row_mem. apply bool_decide_eq_false_2.
  rewrite H. intros [v Hv]. discriminate.
Qed.

Lemma lifecycle_is_ok status row :
  lifecycle_is_text row ->
  lifecycle_is status row = Ok (lifecycle_equals status row).
Proof.
  unfold lifecycle_is_text, lifecycle_is, lifecycle_equals, row_get.
  intros Htext.
  destruct (row !! "Lifecycle Status") as [[|s]|] eqn:E.
  - congruence.
  - rewrite (row_mem_Some _ _ _ E). reflexivity.
  - rewrite (row_mem_None _ _ E). reflexivity.
Qed.

Lemma vendor_missing_ok row : vendor_missing row = Ok (vendor_blank row).
Proof.
  unfold vendor_missing, vendor_blank, row_get.
  destruct (row !! "Vendor") as [[|s]|] eqn:E.
  - rewrite (row_mem_Some _ _ _ E). reflexivity.
  - rewrite (row_mem_Some _ _ _ E). reflexivity.
  - rewrite (row_mem_None _ _ E). reflexivity.
Qed.

Lemma domain_unclassified_ok row :
  domain_unclassified row = Ok (domain_is_sentinel row).
Proof.
  unfold domain_unclassified, domain_is_sentinel, row_get.
  destruct (row !! "TRM Domain") as [v|] eqn:E.
  - rewrite (row_mem_Some _ _ _ E). cbn. f_equal.
    apply bool_decide_ext. split; congruence.
  - rewrite (row_mem_None _ _ E). reflexivity.
Qed.

(** What [flag_risk] computes, on every row it does not fail on. *)
Lemma flag_risk_ok row :
  lifecycle_is_text row ->
  flag_risk row = Ok (risk_by_precedence vendor_blank row).
Proof.
  intros Htext. unfold flag_risk, risk_by_precedence.
  rewrite !(lifecycle_is_ok _ _ Htext), vendor_missing_ok, domain_unclassified_ok.
  cbn.
  destruct (lifecycle_equals "deprecated" row); [reflexivity|].
  destruct (vendor_blank row); [reflexivity|].
  destruct (domain_is_sentinel row); [reflexivity|].
  destruct (lifecycle_equals "beta" row); reflexivity.
Qed.

(** C1, as the code has it: on every record whose lifecycle status, where
    present, is a string, [flag_risk] returns a level, found by the first
    rule that matches: (1) lifecycle status equal to "deprecated" whatever
    its case gives High-Risk, so a deprecated record is High-Risk whatever
    its vendor; (2) else a vendor field that is there and is null or empty
    after trimming gives High-Risk; (3) else the sentinel domain gives
    High-Risk; (4) else lifecycle status "beta" gives Medium-Risk; (5) else
    Normal. *)
Theorem C1_flag_risk_precedence (row : Series) :
  lifecycle_is_text row ->
  flag_risk row = Ok (risk_by_precedence vendor_blank row)
  /\ (lifecycle_equals "deprecated" row = true -> flag_risk row = Ok "High-Risk").
Proof.
  intros Htext. split.
  - by apply flag_risk_ok.
  - intros Hdep. rewrite (flag_risk_ok _ Htext).
    unfold risk_by_precedence. by rewrite Hdep.
Qed.

Lemma C1_flag_risk_precedence_witness :
  let row := mk_row [("Lifecycle Status", Str "Deprecated"); ("Vendor", Null)] in
  lifecycle_is_text row
  /\ flag_risk row = Ok (risk_by_precedence vendor_blank row)
  /\ (lifecycle_equals "deprecated" row = true -> flag_risk row = Ok "High-Risk").
Proof.
  intros row.
  assert (Htext : lifecycle_is_text row) by (vm_compute; discriminate).
  split; [exact Htext | exact (C1_flag_risk_precedence row Htext)].
Defined.

(** C1 as the spec words it fails twice: a record with no vendor field at
    all is not caught by rule 2, and a null lifecycle status makes
    [flag_risk] raise. *)
Lemma C1_counterexample :
  let no_vendor := mk_row [("Lifecycle Status", Str "Active");
                           ("TRM Domain", Str "Network")] in
  let null_status := mk_row [("Lifecycle Status", Null); ("Vendor", Str "Acme")] in
  risk_by_precedence vendor_absent_or_blank no_vendor = "High-Risk"
  /\ flag_risk no_vendor = Ok "Normal"
  /\ flag_risk null_status = Raise AttributeError.
Proof. vm_compute. repeat split; reflexivity. Qed.

(** C8, as the code has it: a record whose domain field is absent or null,
    which is not deprecated and has a vendor that is present and not blank,
    is not High-Risk: rule 3 fires on the sentinel domain only, and the
    record is Medium-Risk when its lifecycle status is "beta" and Normal
    otherwise. *)
Theorem C8_unset_domain_not_high (row : Series) :
  lifecycle_is_text row ->
  (row !! "TRM Domain" = None \/ row !! "TRM Domain" = Some Null) ->
  lifecycle_equals "deprecated" row = false ->
  vendor_absent_or_blank row = false ->
  flag_risk row =
    Ok (if lifecycle_equals "beta" row then "Medium-Risk" else "Normal").
Proof.
  intros Htext Hdom Hdep Hven.
  rewrite (flag_risk_ok _ Htext). unfold risk_by_precedence.
  rewrite Hdep.
  assert (Hvb : vendor_blank row = false).
  { unfold vendor_blank, vendor_absent_or_blank in *.
    destruct (row !! "Vendor") as [[|s]|]; congruence. }
  assert (Hsent : domain_is_sentinel row = false).
  { unfold domain_is_sentinel. apply bool_decide_eq_false_2.
    destruct Hdom as [-> | ->]; discriminate. }
  rewrite Hvb, Hsent. reflexivity.
Qed.

Lemma C8_unset_domain_not_high_witness :
  let row := mk_row [("Lifecycle Status", Str "Beta"); ("Vendor", Str "Acme")] in
  flag_risk row = Ok "Medium-Risk".
Proof.
  intros row.
  refine (C8_unset_domain_not_high row _ _ _ _).
  - vm_compute; discriminate.
  - left. vm_compute. reflexivity.
  - vm_compute. reflexivity.
  - vm_compute. reflexivity.
Defined.

(** C8 as the spec words it fails: an active record with a vendor and no
    domain field is Normal, and so is one whose domain is null. *)
Lemma C8_counterexample :
  let unset := mk_row [("Lifecycle Status", Str "Active"); ("Vendor", Str "Acme")] in
  let null := mk_row [("Lifecycle Status", Str "Active"); ("Vendor", Str "Acme");
                      ("TRM Domain", Null)] in
  unset !! "TRM Domain" = None
  /\ lifecycle_equals "deprecated" unset = false
  /\ vendor_absent_or_blank unset = false
  /\ flag_risk unset = Ok "Normal"
  /\ null !! "TRM Domain" = Some Null
  /\ flag_risk null = Ok "Normal".
Proof. vm_compute. repeat split; reflexivity. Qed.

(** ** The rule classifier *)

Lemma find_first {A : Type} (f : A -> bool) pre e post :
  Forall (fun x => f x = false) pre -> f e = true ->
  List.find f (pre ++ e :: post) = Some e.
Proof.
  induction 1 as [|x pre Hx _ IH]; intros He; cbn.
  - by rewrite He.
  - rewrite Hx. by apply IH.
Qed.

(** Every domain of the keyword table is declared, with a subdomain. *)
Lemma keyword_domains_declared entry :
  In entry config.CLASSIFICATION_KEYWORDS ->
  exists s, first_subdomain entry.1 = Some s.
Proof.
  assert (H : forallb (fun e => match first_subdomain e.1 with
                                | Some _ => true
                                | None => false
                                end) config.CLASSIFICATION_KEYWORDS = true)
    by (vm_compute; reflexivity).
  rewrite forallb_forall in H. intros Hin. specialize (H _ Hin).
  destruct (first_subdomain entry.1) as [s|]; [eauto | discriminate].
Qed.

Lemma first_subdomain_valid domain s :
  first_subdomain domain = Some s -> is_valid domain s.
Proof.
  unfold first_subdomain, is_valid.
  destruct (dict_lookup _ domain) as [[|s' rest]|]; try discriminate.
  intros [= ->]. eexists. split; [reflexivity | by left].
Qed.

Lemma sentinel_valid : is_valid SENTINEL.1 SENTINEL.2.
Proof. eexists. split; [vm_compute; reflexivity | by left]. Qed.

(** The loop over any part of the table returns the first entry that
    matches, or the sentinel. *)
Lemma classify_loop_first_match items text :
  (forall entry, In entry items -> exists s, first_subdomain entry.1 = Some s) ->
  exists pair,
    classify_loop items text = Ok pair
    /\ match List.find (domain_matches text) items with
       | Some (domain, _) => s ← first_subdomain domain; Some (domain, s)
       | None => Some SENTINEL
       end = Some pair.
Proof.
  induction items as [|[domain keywords] rest IH]; intros Hdecl.
  - exists SENTINEL. split; reflexivity.
  - cbn [classify_loop List.find]. unfold domain_matches at 1. cbn [snd].
    destruct (any_keyword_in keywords text) eqn:Hany.
    + destruct (Hdecl (domain, keywords)) as [s Hs]; [by left|].
      exists (domain, s). cbn [fst] in Hs. rewrite Hs. split; [|reflexivity].
      unfold first_subdomain in Hs. unfold dict_get.
      destruct (dict_lookup _ domain) as [[|s' rest']|]; try discriminate.
      injection Hs as ->. reflexivity.
    + apply IH. intros entry Hin. apply Hdecl. by right.
Qed.

Lemma rule_based_classify_first_match description hint :
  exists pair,
    rule_based_classify description hint = Ok pair
    /\ first_match_wins (desc_hint description hint) = Some pair.
Proof.
  unfold rule_based_classify, first_match_wins.
  apply classify_loop_first_match, keyword_domains_declared.
Qed.

Lemma first_match_wins_valid text pair :
  first_match_wins text = Some pair -> is_valid pair.1 pair.2.
Proof.
  unfold first_match_wins.
  destruct (List.find _ _) as [[domain keywords]|].
  - destruct (first_subdomain domain) as [s|] eqn:Hs; [|discriminate].
    intros [= <-]. by apply first_subdomain_valid.
  - intros [= <-]. apply sentinel_valid.
Qed.

Lemma rule_based_classify_valid description hint :
  exists domain subdomain,
    rule_based_classify description hint = Ok (domain, subdomain)
    /\ is_valid domain subdomain.
Proof.
  destruct (rule_based_classify_first_match description hint)
    as ([domain subdomain] & Hrun & Hspec).
  exists domain, subdomain. split; [done|].
  by apply (first_match_wins_valid _ _ Hspec).
Qed.

(** C3, as the code has it: for every description and hint,
    [rule_based_classify] returns, never failing, what first-match-wins
    gives on the text made of the lowercased description, one space, and the
    lowercased hint: the first domain in declared order one of whose
    keywords occurs in that text, with that domain's first declared
    subdomain, so that of two matching domains the one declared earlier
    wins; and the sentinel pair when no domain matches. *)
Theorem C3_rule_based_first_match (description hint : string) :
  let text := PyStr.lower description +:+ " " +:+ PyStr.lower hint in
  exists pair,
    rule_based_classify (Str description) (Str hint) = Ok pair
    /\ first_match_wins text = Some pair
    /\ (forall pre entry post,
          config.CLASSIFICATION_KEYWORDS = pre ++ entry :: post ->
          Forall (fun e => domain_matches text e = false) pre ->
          domain_matches text entry = true ->
          pair.1 = entry.1 /\ first_subdomain entry.1 = Some pair.2)
    /\ (Forall (fun e => domain_matches text e = false)
               config.CLASSIFICATION_KEYWORDS ->
        pair = ("Unclassified", "Unclassified")).
Proof.
  intros text.
  destruct (rule_based_classify_first_match (Str description) (Str hint))
    as (pair & Hrun & Hspec).
  change (desc_hint (Str description) (Str hint)) with text in Hspec.
  exists pair. split; [done|]. split; [done|]. split.
  - intros pre [domain keywords] post Htable Hpre Hentry.
    unfold first_match_wins in Hspec.
    rewrite Htable, (find_first _ _ _ _ Hpre Hentry) in Hspec. cbn [fst].
    destruct (first_subdomain domain) as [s|]; [|discriminate].
    injection Hspec as <-. done.
  - intros Hnone. unfold first_match_wins in Hspec.
    destruct (List.find _ _) as [entry|] eqn:Hfind.
    + apply find_some in Hfind as [Hin Hm].
      rewrite List.Forall_forall in Hnone. rewrite (Hnone _ Hin) in Hm. discriminate.
    + by injection Hspec as <-.
Qed.

(** C3 as the spec words it fails: the text is not the plain concatenation
    of description and hint. "data" and "base" concatenate to "database", a
    keyword of Data Management, yet the record is Unclassified; "data" and
    "store" concatenate to a text with no keyword, yet the record is
    classified, by the keyword "data store". *)
Lemma C3_counterexample :
  first_match_wins (PyStr.lower ("data" +:+ "base"))
    = Some ("Data Management", "Database Platforms")
  /\ rule_based_classify (Str "data") (Str "base") = Ok ("Unclassified", "Unclassified")
  /\ first_match_wins (PyStr.lower ("data" +:+ "store"))
    = Some ("Unclassified", "Unclassified")
  /\ rule_based_classify (Str "data") (Str "store")
    = Ok ("Data Management", "Database Platforms").
Proof. vm_compute. repeat split; reflexivity. Qed.

(** ** Strings: what splitting needs *)

Lemma append_cons c s r : String c s +:+ r = String c (s +:+ r).
Proof. reflexivity. Qed.

Lemma append_empty_r s : s +:+ "" = s.
Proof. induction s as [|c s IH]; [done | by rewrite append_cons, IH]. Qed.

Lemma append_snoc_assoc s c r : (s +:+ String c "") +:+ r = s +:+ String c r.
Proof. induction s as [|c' s IH]; [done | by rewrite !append_cons, IH]. Qed.

Lemma not_comma_lower c : not_comma (PyStr.lower_char c) = true -> not_comma c = true.
Proof. destruct c as [[] [] [] [] [] [] [] []]; vm_compute; congruence. Qed.

Lemma not_comma_space c : PyStr.is_space c = true -> not_comma c = true.
Proof. destruct c as [[] [] [] [] [] [] [] []]; vm_compute; congruence. Qed.

Lemma all_chars_lower s :
  all_chars not_comma (PyStr.lower s) = true -> all_chars not_comma s = true.
Proof.
  induction s as [|c s IH]; cbn; [done|].
  rewrite !andb_true_iff. intros [Hc Hs]. split; [by apply not_comma_lower | by apply IH].
Qed.

Lemma all_chars_lstrip p s :
  (forall c, PyStr.is_space c = true -> p c = true) ->
  all_chars p (PyStr.lstrip s) = true -> all_chars p s = true.
Proof.
  intros Hsp. induction s as [|c s IH]; cbn; [done|].
  destruct (PyStr.is_space c) eqn:Hc; [|done].
  intros H. rewrite (Hsp _ Hc). by apply IH.
Qed.

Lemma all_chars_rstrip p s :
  (forall c, PyStr.is_space c = true -> p c = true) ->
  all_chars p (PyStr.rstrip s) = true -> all_chars p s = true.
Proof.
  intros Hsp. induction s as [|c s IH]; cbn; [done|].
  destruct (PyStr.rstrip s) as [|c' r'] eqn:Hr.
  - destruct (PyStr.is_space c) eqn:Hc.
    + intros _. rewrite (Hsp _ Hc). by apply IH.
    + cbn. rewrite andb_true_r. intros ->. by apply IH.
  - cbn [all_chars]. rewrite andb_true_iff. intros [Hc Hrest].
    rewrite Hc. by apply IH.
Qed.

Lemma all_chars_strip p s :
  (forall c, PyStr.is_space c = true -> p c = true) ->
  all_chars p (PyStr.strip s) = true -> all_chars p s = true.
Proof.
  intros Hsp H. apply all_chars_lstrip; [done|]. by apply all_chars_rstrip.
Qed.

Lemma prefix_cons a s1 b s2 :
  String.prefix (String a s1) (String b s2) =
  if ascii_dec a b then String.prefix s1 s2 else false.
Proof. reflexivity. Qed.

(** A string with no comma is not cut by [split(", ")]. *)
Lemma split_from_no_comma s cur :
  all_chars not_comma s = true ->
  PyStr.split_from ", " s 0 cur = [cur +:+ s].
Proof.
  revert cur. induction s as [|c s IH]; intros cur; cbn [all_chars PyStr.split_from].
  - by rewrite append_empty_r.
  - rewrite andb_true_iff. intros [Hc Hs].
    assert (Hpre : String.prefix ", " (String c s) = false).
    { rewrite prefix_cons.
      destruct (ascii_dec "," c) as [<-|]; [vm_compute in Hc; discriminate | done]. }
    rewrite Hpre, (IH _ Hs). by rewrite append_snoc_assoc.
Qed.

Lemma split_no_comma s :
  all_chars not_comma s = true -> PyStr.split ", " s = [s].
Proof. intros H. unfold PyStr.split. by rewrite split_from_no_comma. Qed.

(** A response that is the sentinel token, whatever its case and the white
    space around it, has no comma. *)
Lemma sentinel_token_no_comma s :
  String.eqb (PyStr.lower (PyStr.strip s)) "unclassified" = true ->
  all_chars not_comma s = true.
Proof.
  intros H. apply String.eqb_eq in H.
  apply all_chars_strip; [apply not_comma_space|].
  apply all_chars_lower. by rewrite H.
Qed.

Lemma lower_sentinel_no_comma s :
  String.eqb (PyStr.lower s) "unclassified" = true ->
  all_chars not_comma s = true.
Proof.
  intros H. apply String.eqb_eq in H. apply all_chars_lower. by rewrite H.
Qed.

(** ** The model classifier: validating a response *)

Lemma dict_lookup_In {V : Type} (d : list (string * V)) k v :
  dict_lookup d k = Some v -> In (k, v) d.
Proof.
  induction d as [|[k' v'] d IH]; cbn; [done|].
  destruct (String.eqb k' k) eqn:E.
  - apply String.eqb_eq in E as ->. intros [= ->]. by left.
  - intros H. right. by apply IH.
Qed.

Lemma declared_domain_has_subdomain domain subs :
  dict_lookup config.TRM_DOMAINS_SUBDOMAINS domain = Some subs ->
  exists first rest, subs = first :: rest.
Proof.
  intros H. apply dict_lookup_In in H.
  assert (Hall : forallb (fun e => match e.2 with [] => false | _ => true end)
                         config.TRM_DOMAINS_SUBDOMAINS = true)
    by (vm_compute; reflexivity).
  rewrite forallb_forall in Hall. specialize (Hall _ H). cbn in Hall.
  destruct subs as [|first rest]; [discriminate | eauto].
Qed.

Lemma list_mem_In x l : list_mem x l = true -> In x l.
Proof.
  unfold list_mem. rewrite existsb_exists. intros (y & Hy & E).
  apply String.eqb_eq in E. by subst.
Qed.

(** The inner [try] on a response that splits in two. *)
Lemma parse_response_two classification a b :
  PyStr.split ", " classification = [a; b] ->
  parse_response classification =
    match dict_lookup config.TRM_DOMAINS_SUBDOMAINS (PyStr.strip a) with
    | None => Ok SENTINEL
    | Some subs =>
        if list_mem (PyStr.strip b) subs then Ok (PyStr.strip a, PyStr.strip b)
        else match subs with
             | first :: _ => Ok (PyStr.strip a, first)
             | [] => Raise IndexError
             end
    end.
Proof.
  intros Hsplit. unfold parse_response. rewrite Hsplit. cbn [unpack2].
  unfold dict_mem, dict_get.
  change (mbind ?f (Ok ?x)) with (f x). cbv beta iota.
  destruct (dict_lookup _ (PyStr.strip a)) as [subs|]; [|reflexivity].
  cbn. destruct (list_mem (PyStr.strip b) subs); [reflexivity|].
  destruct subs; reflexivity.
Qed.

Lemma parse_response_not_two classification :
  (forall a b, PyStr.split ", " classification <> [a; b]) ->
  parse_response classification = Raise ValueError.
Proof.
  intros Hsplit. unfold parse_response.
  destruct (PyStr.split ", " classification) as [|a [|b [|c l]]]; try reflexivity.
  by destruct (Hsplit a b).
Qed.

(** What [read_response] makes of a response, by its shape. *)
Lemma read_response_token classification :
  String.eqb (PyStr.lower (PyStr.strip classification)) "unclassified" = true ->
  read_response (Some classification) = Ok SENTINEL.
Proof.
  intros Htoken. unfold read_response.
  change (mbind ?f (Ok ?x)) with (f x). cbv beta.
  destruct (String.eqb (PyStr.lower classification) "unclassified"); [reflexivity|].
  rewrite parse_response_not_two; [reflexivity|].
  intros a b. rewrite (split_no_comma _ (sentinel_token_no_comma _ Htoken)).
  discriminate.
Qed.

Lemma read_response_not_two classification :
  (forall a b, PyStr.split ", " classification <> [a; b]) ->
  read_response (Some classification) = Ok SENTINEL.
Proof.
  intros Hsplit. unfold read_response.
  change (mbind ?f (Ok ?x)) with (f x). cbv beta.
  destruct (String.eqb (PyStr.lower classification) "unclassified"); [reflexivity|].
  by rewrite parse_response_not_two.
Qed.

Lemma read_response_two classification a b :
  PyStr.split ", " classification = [a; b] ->
  read_response (Some classification) =
    except_ValueError (parse_response classification) (Ok SENTINEL).
Proof.
  intros Hsplit. unfold read_response.
  change (mbind ?f (Ok ?x)) with (f x). cbv beta.
  destruct (String.eqb (PyStr.lower classification) "unclassified") eqn:Htoken;
    [|reflexivity].
  rewrite (split_no_comma _ (lower_sentinel_no_comma _ Htoken)) in Hsplit.
  discriminate.
Qed.

Lemma read_response_unknown_domain classification a b :
  PyStr.split ", " classification = [a; b] ->
  dict_lookup config.TRM_DOMAINS_SUBDOMAINS (PyStr.strip a) = None ->
  read_response (Some classification) = Ok SENTINEL.
Proof.
  intros Hsplit Hdom.
  rewrite (read_response_two _ _ _ Hsplit), (parse_response_two _ _ _ Hsplit), Hdom.
  reflexivity.
Qed.

Lemma read_response_repair classification a b subs :
  PyStr.split ", " classification = [a; b] ->
  dict_lookup config.TRM_DOMAINS_SUBDOMAINS (PyStr.strip a) = Some subs ->
  list_mem (PyStr.strip b) subs = false ->
  exists first,
    first_subdomain (PyStr.strip a) = Some first
    /\ read_response (Some classification) = Ok (PyStr.strip a, first).
Proof.
  intros Hsplit Hdom Hsub.
  destruct (declared_domain_has_subdomain _ _ Hdom) as (first & rest & ->).
  exists first. split.
  - unfold first_subdomain. by rewrite Hdom.
  - rewrite (read_response_two _ _ _ Hsplit), (parse_response_two _ _ _ Hsplit).
    rewrite Hdom, Hsub. reflexivity.
Qed.

Lemma read_response_valid content domain subdomain :
  read_response content = Ok (domain, subdomain) -> is_valid domain subdomain.
Proof.
  destruct content as [classification|]; [|discriminate].
  destruct (PyStr.split ", " classification) as [|a [|b [|c l]]] eqn:Hsplit.
  1, 2, 4: rewrite read_response_not_two;
    [intros [= <- <-]; apply sentinel_valid | intros a' b'; rewrite Hsplit; discriminate].
  rewrite (read_response_two _ _ _ Hsplit), (parse_response_two _ _ _ Hsplit).
  destruct (dict_lookup _ (PyStr.strip a)) as [subs|] eqn:Hdom.
  - destruct (list_mem (PyStr.strip b) subs) eqn:Hsub.
    + intros [= <- <-]. exists subs. split; [done | by apply list_mem_In].
    + destruct subs as [|first rest]; [discriminate|].
      intros [= <- <-]. exists (first :: rest). split; [done | by left].
  - intros [= <- <-]. apply sentinel_valid.
Qed.

(** ** The model classifier: its three ways through *)

Section LlmClassify.

Variable OPENAI_API_KEY : option string.
Variable chat_completions_create : nat -> string -> completion.
Variables product_name description hint : cell.
Variable w : World.

Let run := llm_classify OPENAI_API_KEY chat_completions_create
             product_name description hint w.
Let outcome := chat_completions_create (requests w)
                 (prompt_of product_name description hint).

Lemma llm_classify_no_key :
  key_missing OPENAI_API_KEY = true ->
  run = (rule_based_classify description hint,
         with_notice "OpenAI API Key not configured. Using rule-based classification instead." w).
Proof. intros Hkey. unfold run, llm_classify. rewrite Hkey. reflexivity. Qed.

Lemma llm_classify_failed detail :
  key_missing OPENAI_API_KEY = false ->
  outcome = Failed detail ->
  run = (rule_based_classify description hint,
         with_notice ("LLM API Error: " +:+ detail) (after_request w)).
Proof.
  intros Hkey Hout. unfold run, llm_classify. rewrite Hkey.
  unfold try_except, mbind, M_bind, request. fold outcome. rewrite Hout.
  reflexivity.
Qed.

Lemma llm_classify_responded content :
  key_missing OPENAI_API_KEY = false ->
  outcome = Responded content ->
  run = match read_response content with
        | Ok res => (Ok res, after_request w)
        | Raise e => (rule_based_classify description hint,
                      with_notice ("LLM API Error: " +:+ exn_str e) (after_request w))
        end.
Proof.
  intros Hkey Hout. unfold run, llm_classify. rewrite Hkey.
  unfold try_except, mbind, M_bind, request. fold outcome. rewrite Hout.
  unfold lift. destruct (read_response content); reflexivity.
Qed.

Lemma llm_classify_valid :
  exists domain subdomain w',
    run = (Ok (domain, subdomain), w') /\ is_valid domain subdomain.
Proof.
  destruct (rule_based_classify_valid description hint)
    as (d & s & Hrule & Hvalid).
  destruct (key_missing OPENAI_API_KEY) eqn:Hkey.
  - rewrite (llm_classify_no_key Hkey), Hrule. eauto.
  - destruct outcome as [content|detail] eqn:Hout.
    + rewrite (llm_classify_responded _ Hkey Hout).
      destruct (read_response content) as [[d' s']|e] eqn:Hread.
      * exists d', s'. eexists. split; [done|].
        by apply (read_response_valid _ _ _ Hread).
      * rewrite Hrule. eauto.
    + rewrite (llm_classify_failed _ Hkey Hout), Hrule. eauto.
Qed.

End LlmClassify.

(** C2: whatever the record, the key and the service do, both classifiers
    return a pair, and the pair is valid for the taxonomy: the domain is a
    key of the domains mapping and the subdomain is in that domain's list. *)
Theorem C2_classifiers_return_valid_pairs
    (key : option string) (service : nat -> string -> completion)
    (product_name description hint : cell) (w : World) :
  (exists domain subdomain,
      rule_based_classify description hint = Ok (domain, subdomain)
      /\ is_valid domain subdomain)
  /\ (exists domain subdomain w',
        llm_classify key service product_name description hint w
          = (Ok (domain, subdomain), w')
        /\ is_valid domain subdomain).
Proof.
  split.
  - apply rule_based_classify_valid.
  - apply llm_classify_valid.
Qed.

(** C4: with no credential configured, or when the request to the service
    raises (or its response has no content to read), [llm_classify] returns
    what [rule_based_classify] returns on the same description and hint; the
    result is a pair, not a failure, and one notice is shown. *)
Theorem C4_llm_fallback_is_rule_based
    (key : option string) (service : nat -> string -> completion)
    (product_name description hint : cell) (w : World) :
  key_missing key = true
  \/ (exists detail,
        service (requests w) (prompt_of product_name description hint) = Failed detail)
  \/ service (requests w) (prompt_of product_name description hint) = Responded None ->
  exists res notice,
    (llm_classify key service product_name description hint w).1 = Ok res
    /\ rule_based_classify description hint = Ok res
    /\ notices (llm_classify key service product_name description hint w).2
       = notices w ++ [notice].
Proof.
  intros Hcase.
  destruct (rule_based_classify_valid description hint) as (d & s & Hrule & _).
  exists (d, s).
  destruct (key_missing key) eqn:Hkey.
  - rewrite (llm_classify_no_key _ service product_name _ _ w Hkey), Hrule.
    eexists. repeat split; reflexivity.
  - destruct Hcase as [Hk | [(detail & Hout) | Hout]]; [discriminate | |].
    + rewrite (llm_classify_failed _ _ _ _ _ _ _ Hkey Hout), Hrule.
      eexists. repeat split; reflexivity.
    + rewrite (llm_classify_responded _ _ _ _ _ _ _ Hkey Hout), Hrule.
      eexists. repeat split; reflexivity.
Qed.

Lemma C4_llm_fallback_is_rule_based_witness :
  exists res notice,
    (llm_classify (Some "sk-test") (fun _ _ => Failed "timeout")
       (Str "pgAdmin") (Str "PostgreSQL console") (Str "") w0).1 = Ok res
    /\ rule_based_classify (Str "PostgreSQL console") (Str "") = Ok res
    /\ notices (llm_classify (Some "sk-test") (fun _ _ => Failed "timeout")
                  (Str "pgAdmin") (Str "PostgreSQL console") (Str "") w0).2
       = notices w0 ++ [notice].
Proof.
  apply (C4_llm_fallback_is_rule_based (Some "sk-test") (fun _ _ => Failed "timeout")).
  right. left. exists "timeout". reflexivity.
Defined.

(** C5: when the response splits on ", " into a domain that the taxonomy
    knows (after trimming) and a subdomain that is not in that domain's list
    (after trimming), [llm_classify] keeps the domain and pairs it with the
    domain's first declared subdomain. *)
Theorem C5_subdomain_repair
    (key : option string) (service : nat -> string -> completion)
    (product_name description hint : cell) (w : World)
    (response a b : string) (subs : list string) :
  key_missing key = false ->
  service (requests w) (prompt_of product_name description hint)
    = Responded (Some response) ->
  PyStr.split ", " response = [a; b] ->
  dict_lookup config.TRM_DOMAINS_SUBDOMAINS (PyStr.strip a) = Some subs ->
  list_mem (PyStr.strip b) subs = false ->
  exists first rest,
    subs = first :: rest
    /\ llm_classify key service product_name description hint w
       = (Ok (PyStr.strip a, first), after_request w).
Proof.
  intros Hkey Hout Hsplit Hdom Hsub.
  destruct (declared_domain_has_subdomain _ _ Hdom) as (first & rest & ->).
  exists first, rest. split; [done|].
  rewrite (llm_classify_responded _ _ _ _ _ _ _ Hkey Hout).
  destruct (read_response_repair _ _ _ _ Hsplit Hdom Hsub) as (first' & Hfirst & ->).
  unfold first_subdomain in Hfirst. rewrite Hdom in Hfirst.
  by injection Hfirst as ->.
Qed.

Lemma C5_subdomain_repair_witness :
  exists first rest,
    ["Security Tools"; "Authentication"; "Encryption"] = first :: rest
    /\ llm_classify (Some "sk-test") (fun _ _ => Responded (Some "Security, Firewalling"))
         (Str "FortiGate") (Str "perimeter appliance") (Str "") w0
       = (Ok ("Security", first), after_request w0).
Proof.
  apply (C5_subdomain_repair (Some "sk-test")
           (fun _ _ => Responded (Some "Security, Firewalling"))
           (Str "FortiGate") (Str "perimeter appliance") (Str "") w0
           "Security, Firewalling" "Security" "Firewalling");
    reflexivity.
Defined.

(** C6: a response that is the sentinel token (whatever its case and the
    white space around it), a response that does not split on ", " into
    exactly two parts, and a response whose domain part is unknown to the
    taxonomy all give the sentinel pair; the result is a pair and no notice
    is shown. *)
Theorem C6_shape_violations_give_sentinel
    (key : option string) (service : nat -> string -> completion)
    (product_name description hint : cell) (w : World) (response : string) :
  key_missing key = false ->
  service (requests w) (prompt_of product_name description hint)
    = Responded (Some response) ->
  let run := llm_classify key service product_name description hint w in
  let sentinel := (Ok ("Unclassified", "Unclassified"), after_request w) in
  (String.eqb (PyStr.lower (PyStr.strip response)) "unclassified" = true ->
   run = sentinel)
  /\ ((forall a b, PyStr.split ", " response <> [a; b]) -> run = sentinel)
  /\ (forall a b,
        PyStr.split ", " response = [a; b] ->
        dict_lookup config.TRM_DOMAINS_SUBDOMAINS (PyStr.strip a) = None ->
        run = sentinel).
Proof.
  intros Hkey Hout run sentinel. subst run sentinel.
  rewrite (llm_classify_responded _ _ _ _ _ _ _ Hkey Hout).
  split; [|split].
  - intros Htoken. by rewrite read_response_token.
  - intros Hsplit. by rewrite read_response_not_two.
  - intros a b Hsplit Hdom. by rewrite (read_response_unknown_domain _ _ _ Hsplit Hdom).
Qed.

Lemma C6_shape_violations_give_sentinel_witness :
  llm_classify (Some "sk-test") (fun _ _ => Responded (Some " UNCLASSIFIED "))
    (Str "Abacus") (Str "a simple calculator") (Str "") w0
  = (Ok ("Unclassified", "Unclassified"), after_request w0).
Proof.
  exact (proj1 (C6_shape_violations_give_sentinel (Some "sk-test")
                  (fun _ _ => Responded (Some " UNCLASSIFIED "))
                  (Str "Abacus") (Str "a simple calculator") (Str "") w0
                  " UNCLASSIFIED " eq_refl eq_refl) eq_refl).
Defined.

Example llm_ex_unknown_domain :
  llm_classify (Some "sk-test") (fun _ _ => Responded (Some "Cloud, Hosting"))
    (Str "x") (Str "y") (Str "") w0
  = (Ok ("Unclassified", "Unclassified"), after_request w0).
Proof. reflexivity. Qed.

Example llm_ex_no_content :
  llm_classify (Some "sk-test") (fun _ _ => Responded None)
    (Str "x") (Str "network monitor") (Str "") w0
  = (Ok ("Network", "Networking Tools"),
     with_notice "LLM API Error: 'NoneType' object has no attribute 'lower'"
       (after_request w0)).
Proof. reflexivity. Qed.

(** ** Metrics over a record set *)

Lemma value_counts_lookup col s :
  value_counts col !! s =
    match occurrences s col with
    | O => None
    | S n => Some (S n)
    end.
Proof.
  unfold occurrences, count_where.
  induction col as [|v col IH]; [done|].
  cbn [value_counts foldr List.filter]. fold (value_counts col).
  destruct v as [|s'].
  - rewrite bool_decide_eq_false_2 by discriminate. exact IH.
  - destruct (decide (s' = s)) as [->|Hne].
    + rewrite bool_decide_eq_true_2 by reflexivity.
      rewrite lookup_insert_eq, IH. cbn [length].
      by destruct (length _).
    + rewrite bool_decide_eq_false_2 by congruence.
      by rewrite lookup_insert_ne.
Qed.

Lemma mapM_result_ok {A B : Type} (f : A -> result B) (g : A -> B) l :
  (forall x, f x = Ok (g x)) -> mapM f l = Ok (map g l).
Proof.
  intros Hf. induction l as [|x l IH]; [done|].
  cbn [mapM map]. rewrite Hf, IH. reflexivity.
Qed.

Lemma percentages_of_ok (risk_counts : gmap string nat) n :
  risk_counts = ∅ \/ n <> 0%nat ->
  percentages_of risk_counts n = Ok ((fun v => percent v n) <$> risk_counts).
Proof.
  intros Hcase. unfold percentages_of.
  destruct n as [|n].
  - destruct Hcase as [-> | Hn]; [|done].
    rewrite map_to_list_empty, fmap_empty. reflexivity.
  - rewrite (mapM_result_ok _ (prod_map id (fun v => percent v (S n)))).
    + change (mbind ?f (Ok ?x)) with (f x). cbv beta.
      change (map ?f ?l) with (f <$> l).
      by rewrite list_to_map_fmap, list_to_map_to_list.
    + intros [k v]. reflexivity.
Qed.

(** What [generate_risk_metrics] returns, on every frame. *)
Lemma generate_risk_metrics_ok df :
  let risk_counts :=
    if list_mem "Risk Flag" (df_columns df)
    then value_counts (column df "Risk Flag") else ∅ in
  generate_risk_metrics df =
    Ok {| counts := risk_counts;
          percentages := (fun v => percent v (length (df_rows df))) <$> risk_counts;
          deprecated_count :=
            if list_mem "Lifecycle Status" (df_columns df)
            then count_where (fun v => bool_decide (v = Str "Deprecated"))
                             (column df "Lifecycle Status")
            else 0%nat;
          missing_vendor_count :=
            if list_mem "Vendor" (df_columns df)
            then count_where (fun v => isnull v || bool_decide (v = Str ""))
                             (column df "Vendor")
            else 0%nat;
          unclassified_count :=
            if list_mem "TRM Domain" (df_columns df)
            then count_where (fun v => bool_decide (v = Str config.DEFAULT_DOMAIN))
                             (column df "TRM Domain")
            else 0%nat;
          total := length (df_rows df) |}.
Proof.
  intros risk_counts. unfold generate_risk_metrics. fold risk_counts.
  rewrite percentages_of_ok; [reflexivity|].
  destruct (df_rows df) as [|entry rows] eqn:Hrows; [left | right; done].
  subst risk_counts. unfold column. rewrite Hrows.
  by destruct (list_mem "Risk Flag" (df_columns df)).
Qed.

(** C7: on every record set the metrics are returned, never a failure;
    [total] is the number of records; the count of a risk level is the
    number of records flagged with it (a level that no record has, has no
    entry); the percentage of a level is its count divided by the total,
    times 100, rounded to one decimal place; and on the empty record set the
    counts and percentages are empty and the total and every sub-count are
    0. *)
Theorem C7_risk_metrics (df : DataFrame) :
  exists m,
    generate_risk_metrics df = Ok m
    /\ total m = length (df_rows df)
    /\ (forall level,
          counts m !! level =
            if list_mem "Risk Flag" (df_columns df)
            then match occurrences level (column df "Risk Flag") with
                 | O => None
                 | S n => Some (S n)
                 end
            else None)
    /\ (forall level,
          percentages m !! level =
            (fun v => py_round1 (float_of_nat v / float_of_nat (total m) * 100)%float)
              <$> counts m !! level)
    /\ (df_rows df = [] ->
        counts m = ∅ /\ percentages m = ∅ /\ total m = 0%nat
        /\ deprecated_count m = 0%nat /\ missing_vendor_count m = 0%nat
        /\ unclassified_count m = 0%nat).
Proof.
  eexists. split; [apply generate_risk_metrics_ok|]. cbn.
  split; [reflexivity|]. split; [|split].
  - intros level. destruct (list_mem "Risk Flag" (df_columns df)).
    + apply value_counts_lookup.
    + apply lookup_empty.
  - intros level. by rewrite lookup_fmap.
  - intros Hrows. unfold column. rewrite Hrows. cbn.
    assert (Hcounts : (if list_mem "Risk Flag" (df_columns df)
                       then (∅ : gmap string nat) else ∅) = ∅)
      by (by destruct (list_mem _ _)).
    rewrite Hcounts, fmap_empty. clear Hcounts.
    repeat split; try reflexivity;
      match goal with
      | |- context [list_mem ?c ?cols] => destruct (list_mem c cols); reflexivity
      end.
Qed.

Example metrics_ex :
  match generate_risk_metrics metrics_frame with
  | Ok m =>
      total m = 3%nat
      /\ counts m !! "High-Risk" = Some 2%nat
      /\ counts m !! "Normal" = Some 1%nat
      /\ counts m !! "Medium-Risk" = None
      /\ percentages m !! "High-Risk" = Some (float_of_Z 667 / 10)%float
      /\ percentages m !! "Normal" = Some (float_of_Z 333 / 10)%float
      /\ deprecated_count m = 1%nat
      /\ missing_vendor_count m = 1%nat
      /\ unclassified_count m = 1%nat
  | Raise _ => False
  end.
Proof. vm_compute. repeat split; reflexivity. Qed.

Example metrics_ex_empty :
  generate_risk_metrics {| df_columns := ["Product Name"; "Risk Flag"]; df_rows := [] |}
  = Ok {| counts := ∅; percentages := ∅; deprecated_count := 0;
          missing_vendor_count := 0; unclassified_count := 0; total := 0 |}.
Proof. vm_compute. reflexivity. Qed.

Lemma In_list_mem x l : In x l -> list_mem x l = true.
Proof.
  intros H. unfold list_mem. rewrite existsb_exists.
  exists x. split; [done | apply String.eqb_refl].
Qed.

Lemma filter_map_length {A B : Type} (p : B -> bool) (q : A -> bool) (f : A -> B) l :
  (forall x, In x l -> p (f x) = q x) ->
  length (List.filter p (map f l)) = length (List.filter q l).
Proof.
  induction l as [|x l IH]; intros H; [done|].
  cbn [map List.filter]. rewrite (H x) by (by left).
  destruct (q x); cbn [length]; rewrite IH; auto; intros y Hy; apply H; by right.
Qed.

Lemma filter_none_length {A : Type} (q : A -> bool) l :
  (forall x, In x l -> q x = false) -> length (List.filter q l) = 0%nat.
Proof.
  induction l as [|x l IH]; intros H; [done|].
  cbn [List.filter]. rewrite (H x) by (by left).
  apply IH. intros y Hy. apply H. by right.
Qed.

Lemma df_wfb_sound df : df_wfb df = true -> df_wf df.
Proof.
  unfold df_wfb, df_wf. rewrite forallb_forall. intros H idx row Hin c.
  specialize (H _ Hin). apply bool_decide_eq_true_1 in H. cbn [snd] in H.
  rewrite <- elem_of_dom, H, elem_of_list_to_set. apply list_elem_of_In.
Qed.

Lemma no_blank_vendorb_sound df : no_blank_vendorb df = true -> no_blank_vendor df.
Proof.
  unfold no_blank_vendorb, no_blank_vendor. rewrite forallb_forall.
  intros H idx row s Hin Hv Hstrip. specialize (H _ Hin). cbn [snd] in H.
  rewrite Hv, Hstrip in H. cbn in H. by apply String.eqb_eq.
Qed.

(** C9, as the code has it: on every record set in which no vendor is a
    non-empty string of white space only, [missing_vendor_count] is the
    number of records that the risk rule 2 finds without vendor, those whose
    vendor field is there and is null or empty; it is 0 when the record set
    has no vendor column. *)
Theorem C9_missing_vendor_count (df : DataFrame) :
  df_wf df ->
  no_blank_vendor df ->
  exists m,
    generate_risk_metrics df = Ok m
    /\ missing_vendor_count m = rows_missing_vendor df
    /\ (forall idx row, In (idx, row) (df_rows df) ->
          vendor_missing row = Ok (vendor_blank row))
    /\ (list_mem "Vendor" (df_columns df) = false -> missing_vendor_count m = 0%nat).
Proof.
  intros Hwf Hblank.
  eexists. split; [apply generate_risk_metrics_ok|]. cbn.
  split; [|split].
  - unfold rows_missing_vendor.
    destruct (list_mem "Vendor" (df_columns df)) eqn:Hcol.
    + unfold count_where, column. apply filter_map_length.
      intros [idx row] Hin. cbn [snd]. unfold vendor_blank.
      destruct (Hwf idx row Hin "Vendor") as [_ Hsome].
      destruct (Hsome (list_mem_In _ _ Hcol)) as [v Hv]. rewrite Hv. cbn.
      destruct v as [|s]; [reflexivity|]. cbn.
      destruct (String.eqb (PyStr.strip s) "") eqn:Hstrip.
      * apply String.eqb_eq in Hstrip.
        rewrite (Hblank idx row s Hin Hv Hstrip). reflexivity.
      * apply bool_decide_eq_false_2. intros [= ->]. discriminate.
    + symmetry. apply filter_none_length.
      intros [idx row] Hin. cbn [snd]. unfold vendor_blank.
      destruct (row !! "Vendor") as [v|] eqn:Hv; [|reflexivity].
      destruct (Hwf idx row Hin "Vendor") as [Hcols _].
      rewrite (In_list_mem _ _ (Hcols (ex_intro _ v Hv))) in Hcol. discriminate.
  - intros idx row _. apply vendor_missing_ok.
  - by intros ->.
Qed.

Lemma C9_missing_vendor_count_witness :
  exists m,
    generate_risk_metrics metrics_frame = Ok m
    /\ missing_vendor_count m = rows_missing_vendor metrics_frame
    /\ (forall idx row, In (idx, row) (df_rows metrics_frame) ->
          vendor_missing row = Ok (vendor_blank row))
    /\ (list_mem "Vendor" (df_columns metrics_frame) = false ->
        missing_vendor_count m = 0%nat).
Proof.
  apply (C9_missing_vendor_count metrics_frame).
  - apply df_wfb_sound. vm_compute. reflexivity.
  - apply no_blank_vendorb_sound. vm_compute. reflexivity.
Defined.

(** C9 as the spec words it fails: with no vendor column the count is 0
    although every record lacks a vendor, and a vendor made of one space,
    which the risk rule 2 takes as missing, is not counted. *)
Lemma C9_counterexample :
  rows_vendor_absent_or_blank frame_without_vendor = 1%nat
  /\ (missing_vendor_count <$> match generate_risk_metrics frame_without_vendor with
                               | Ok m => Some m
                               | Raise _ => None
                               end) = Some 0%nat
  /\ rows_vendor_absent_or_blank frame_blank_vendor = 1%nat
  /\ rows_missing_vendor frame_blank_vendor = 1%nat
  /\ (missing_vendor_count <$> match generate_risk_metrics frame_blank_vendor with
                               | Ok m => Some m
                               | Raise _ => None
                               end) = Some 0%nat.
Proof. vm_compute. repeat split; reflexivity. Qed.

(** ** The orchestrator *)

Lemma agree_refl e : agree e e.
Proof. by split. Qed.

Lemma agree_trans e1 e2 e3 : agree e1 e2 -> agree e2 e3 -> agree e1 e3.
Proof.
  intros [Hl Hc] [Hl' Hc']. split; [congruence|].
  intros c H1 H2. rewrite Hc', Hc; done.
Qed.

Lemma agree_insert e i row col v :
  agree e (i, row) -> col = "TRM Domain" \/ col = "TRM Subdomain" ->
  agree e (i, <[col := v]> row).
Proof.
  intros [Hl Hc] Hcol. split; [done|]. intros c H1 H2. cbn.
  rewrite lookup_insert_ne; [by apply Hc|]. destruct Hcol; congruence.
Qed.

Lemma Forall2_agree_map (f : nat * Series -> nat * Series) rows0 rows :
  (forall e e', agree e e' -> agree e (f e')) ->
  Forall2 agree rows0 rows -> Forall2 agree rows0 (map f rows).
Proof.
  intros Hf. induction 1 as [|e e' l l' He _ IH]; cbn; constructor; auto.
Qed.

Lemma Forall2_agree_refl rows : Forall2 agree rows rows.
Proof. induction rows; constructor; [apply agree_refl | done]. Qed.

Lemma Forall2_agree_labels rows0 rows :
  Forall2 agree rows0 rows -> map fst rows = map fst rows0.
Proof.
  induction 1 as [|e e' l l' [He _] _ IH]; [done|]. cbn. by rewrite He, IH.
Qed.

Lemma has_label_labels idx df :
  has_label idx df = true <-> In idx (map fst (df_rows df)).
Proof.
  unfold has_label. rewrite existsb_exists, in_map_iff. split.
  - intros ([i row] & Hin & Heq). apply Nat.eqb_eq in Heq. subst.
    by exists (idx, row).
  - intros ([i row] & <- & Hin). exists (i, row). split; [done | apply Nat.eqb_refl].
Qed.

Lemma add_column_agree col df rows0 :
  col = "TRM Domain" \/ col = "TRM Subdomain" ->
  Forall2 agree rows0 (df_rows df) ->
  Forall2 agree rows0 (df_rows (add_column col df)).
Proof.
  intros Hcol H. unfold add_column.
  destruct (list_mem col (df_columns df)); [done|]. cbn.
  apply Forall2_agree_map; [|done].
  intros e [i row] He. by apply agree_insert.
Qed.

(** [df.at[idx, col] = v] on a label the frame has, for one of the two
    classification columns, leaves everything else as it was. *)
Lemma at_set_agree df idx col v rows0 :
  col = "TRM Domain" \/ col = "TRM Subdomain" ->
  In idx (map fst rows0) ->
  Forall2 agree rows0 (df_rows df) ->
  Forall2 agree rows0 (df_rows (at_set df idx col v)).
Proof.
  intros Hcol Hidx H. unfold at_set.
  pose proof (add_column_agree col df rows0 Hcol H) as H1.
  assert (Hlab : has_label idx (add_column col df) = true).
  { apply has_label_labels. by rewrite (Forall2_agree_labels _ _ H1). }
  rewrite Hlab. cbn.
  apply Forall2_agree_map; [|done].
  intros e [i row] He. destruct (Nat.eqb i idx); [by apply agree_insert | done].
Qed.

Lemma copy_invariant_frames F0 r df0 w w' :
  frames w' = frames w -> copy_invariant F0 r df0 w -> copy_invariant F0 r df0 w'.
Proof. unfold copy_invariant. by intros ->. Qed.

Lemma set_at_run F0 r df0 idx col v w :
  col = "TRM Domain" \/ col = "TRM Subdomain" ->
  In idx (map fst (df_rows df0)) ->
  copy_invariant F0 r df0 w ->
  exists w', set_at r idx col v w = (Ok tt, w') /\ copy_invariant F0 r df0 w'.
Proof.
  intros Hcol Hidx [Hother (dfk & Hr & Hag)].
  unfold set_at, mbind, M_bind, deref, store. rewrite Hr.
  eexists. split; [reflexivity|]. split; cbn.
  - intros l Hl. rewrite lookup_insert_ne by done. by apply Hother.
  - exists (at_set dfk idx col v). rewrite lookup_insert_eq. split; [done|].
    by apply at_set_agree.
Qed.

Lemma llm_classify_frames key service product_name description hint w :
  frames (llm_classify key service product_name description hint w).2 = frames w.
Proof.
  destruct (key_missing key) eqn:Hkey.
  - by rewrite (llm_classify_no_key _ service product_name _ _ w Hkey).
  - destruct (service (requests w) (prompt_of product_name description hint))
      as [content|detail] eqn:Hout.
    + rewrite (llm_classify_responded _ _ _ _ _ _ _ Hkey Hout).
      by destruct (read_response content).
    + by rewrite (llm_classify_failed _ _ _ _ _ _ _ Hkey Hout).
Qed.

Section RunClassification.

Variable key : option string.
Variable service : nat -> string -> completion.
Variable F0 : gmap nat DataFrame.
Variable r : nat.
Variable df0 : DataFrame.
Variable method : string.

(** One turn of the loop keeps the invariant, and does not fail on a row
    that has a product name and a description. *)
Lemma classify_row_run idx row w :
  In idx (map fst (df_rows df0)) ->
  copy_invariant F0 r df0 w ->
  copy_invariant F0 r df0 (classify_row key service r method (idx, row) w).2
  /\ (classifiable row ->
      (classify_row key service r method (idx, row) w).1 = Ok tt).
Proof.
  intros Hidx Hinv. unfold classify_row, classifiable, row_get.
  destruct (row !! "Product Name") as [product_name|];
    [|split; [done | by intros [[? [=]] _]]].
  destruct (row !! "Description") as [description|];
    [|split; [done | by intros [_ [? [=]]]]].
  set (hint := if row_mem "Category Hint" row
               then lift match row !! "Category Hint" with
                         | Some v => Ok v
                         | None => Raise KeyError
                         end
               else mret (Str "")).
  assert (Hhint : exists h, hint w = (Ok h, w)).
  { subst hint. unfold row_mem. case_bool_decide as Hmem.
    - destruct Hmem as [h ->]. by exists h.
    - by exists (Str ""). }
  destruct Hhint as [h Hh].
  assert (Hsets : forall domain subdomain w1,
             frames w1 = frames w ->
             let run := (let (r2, w2) := set_at r idx "TRM Domain" (Str domain) w1 in
                         match r2 with
                         | Ok _ => set_at r idx "TRM Subdomain" (Str subdomain) w2
                         | Raise e => (Raise e, w2)
                         end) in
             copy_invariant F0 r df0 run.2 /\ run.1 = Ok tt).
  { intros domain subdomain w1 Hframes.
    destruct (set_at_run F0 r df0 idx "TRM Domain" (Str domain) w1)
      as (w2 & Hset1 & Hinv2);
      [by left | done | by apply (copy_invariant_frames _ _ _ w) |].
    destruct (set_at_run F0 r df0 idx "TRM Subdomain" (Str subdomain) w2)
      as (w3 & Hset2 & Hinv3); [by right | done | done |].
    cbv zeta. rewrite Hset1, Hset2. by split. }
  unfold mbind, M_bind, lift. rewrite Hh. cbv beta iota.
  destruct (String.eqb method "rule-based").
  - destruct (rule_based_classify_valid description h) as (d & s & Hrule & _).
    rewrite Hrule. cbv beta iota.
    destruct (Hsets d s w eq_refl) as [Hinv' Hok]. by split.
  - destruct (llm_classify_valid key service product_name description h w)
      as (d & s & w1 & Hrun & _).
    pose proof (llm_classify_frames key service product_name description h w)
      as Hframes.
    rewrite Hrun in *. cbv beta iota.
    destruct (Hsets d s w1 Hframes) as [Hinv' Hok]. by split.
Qed.

Lemma for_each_run rows w :
  (forall idx row, In (idx, row) rows -> In idx (map fst (df_rows df0))) ->
  copy_invariant F0 r df0 w ->
  copy_invariant F0 r df0 (for_each rows (classify_row key service r method) w).2
  /\ ((forall idx row, In (idx, row) rows -> classifiable row) ->
      (for_each rows (classify_row key service r method) w).1 = Ok tt).
Proof.
  revert w. induction rows as [|[idx row] rows IH]; intros w Hlabels Hinv.
  - by split.
  - cbn [for_each]. unfold mbind, M_bind.
    destruct (classify_row_run idx row w) as [Hinv1 Hok1];
      [by apply (Hlabels idx row); left | done |].
    destruct (classify_row key service r method (idx, row) w) as [[[]|e] w1] eqn:Hrow;
      cbn [fst snd] in *.
    + destruct (IH w1) as [Hinv2 Hok2];
        [intros i x Hin; apply (Hlabels i x); by right | done |].
      split; [done|]. intros Hall. apply Hok2.
      intros i x Hin. apply (Hall i x). by right.
    + split; [done|]. intros Hall.
      specialize (Hok1 (Hall idx row (or_introl eq_refl))). discriminate.
Qed.

End RunClassification.

(** C10: [run_classification] leaves every frame that existed before the
    call as it was, the caller's input among them; the frame it returns is a
    new one, whose rows are the rows of the input, one for one and in the
    same order, with the same index labels and the same cells in every
    column but 'TRM Domain' and 'TRM Subdomain'; and it does return when
    every record has a product name and a description. *)
Theorem C10_run_classification_frame
    (key : option string) (service : nat -> string -> completion)
    (df : nat) (method : string) (w : World) (input : DataFrame) :
  frames w !! df = Some input ->
  let res := (run_classification key service df method w).1 in
  let w' := (run_classification key service df method w).2 in
  (forall l, is_Some (frames w !! l) -> frames w' !! l = frames w !! l)
  /\ frames w' !! df = Some input
  /\ (forall result_df,
        res = Ok result_df ->
        frames w !! result_df = None
        /\ exists output,
             frames w' !! result_df = Some output
             /\ only_classification_written input output
             /\ map fst (df_rows output) = map fst (df_rows input))
  /\ ((forall idx row, In (idx, row) (df_rows input) -> classifiable row) ->
      exists result_df, res = Ok result_df).
Proof.
  intros Hin res w'. subst res w'.
  unfold run_classification, df_copy, iterrows, deref, alloc, mbind, M_bind.
  rewrite Hin. cbn [frames].
  set (r := fresh (dom (frames w))).
  assert (Hfresh : frames w !! r = None)
    by (apply not_elem_of_dom, is_fresh).
  set (w1 := {| frames := <[r := input]> (frames w);
                notices := notices w; requests := requests w |}).
  rewrite lookup_insert_eq. unfold mret, M_ret.
  assert (Hinv1 : copy_invariant (frames w) r input w1).
  { split.
    - intros l Hl. cbn. by rewrite lookup_insert_ne.
    - exists input. cbn. rewrite lookup_insert_eq. split; [done|].
      apply Forall2_agree_refl. }
  destruct (for_each_run key service (frames w) r input method (df_rows input) w1)
    as [Hinv2 Hok]; [|done|].
  { intros idx row Hrow. apply in_map_iff. by exists (idx, row). }
  destruct (for_each (df_rows input) (classify_row key service r method) w1)
    as [[[]|e] w2] eqn:Hloop; cbn [fst snd] in *.
  - destruct Hinv2 as [Hother (output & Hout & Hag)].
    assert (Hkeep : forall l, is_Some (frames w !! l) -> frames w2 !! l = frames w !! l).
    { intros l [x Hx]. apply Hother. intros ->. congruence. }
    split; [done|]. split; [rewrite Hkeep; eauto|]. split.
    + intros result_df [= <-]. split; [done|].
      exists output. repeat split; [done | done |].
      by apply Forall2_agree_labels.
    + intros _. by exists r.
  - destruct Hinv2 as [Hother _].
    assert (Hkeep : forall l, is_Some (frames w !! l) -> frames w2 !! l = frames w !! l).
    { intros l [x Hx]. apply Hother. intros ->. congruence. }
    split; [done|]. split; [rewrite Hkeep; eauto|]. split.
    + intros result_df [=].
    + intros Hall. specialize (Hok Hall). discriminate.
Qed.

Lemma C10_run_classification_frame_witness :
  let res := (run_classification None (fun _ _ => Failed "off") 0 "rule-based"
                sample_world).1 in
  let w' := (run_classification None (fun _ _ => Failed "off") 0 "rule-based"
               sample_world).2 in
  (forall l, is_Some (frames sample_world !! l) ->
             frames w' !! l = frames sample_world !! l)
  /\ frames w' !! 0%nat = Some sample_frame
  /\ (forall result_df,
        res = Ok result_df ->
        frames sample_world !! result_df = None
        /\ exists output,
             frames w' !! result_df = Some output
             /\ only_classification_written sample_frame output
             /\ map fst (df_rows output) = map fst (df_rows sample_frame))
  /\ ((forall idx row, In (idx, row) (df_rows sample_frame) -> classifiable row) ->
      exists result_df, res = Ok result_df).
Proof.
  apply (C10_run_classification_frame None (fun _ _ => Failed "off") 0 "rule-based"
           sample_world sample_frame).
  vm_compute. reflexivity.
Defined.

Example run_ex_llm :
  let '(r, w) := run_classification (Some "sk-test")
                   (fun n _ => match n with
                               | O => Responded (Some "Data Management, Data Storage")
                               | _ => Failed "rate limit"
                               end)
                   0 "llm-based" sample_world in
  r = Ok 1%nat
  /\ frames w !! 0%nat = Some sample_frame
  /\ notices w = ["LLM API Error: rate limit"]
  /\ requests w = 2%nat
  /\ (map (fun '(i, row) => (i, row !! "TRM Domain", row !! "TRM Subdomain"))
        <$> (df_rows <$> frames w !! 1%nat))
     = Some [ (0%nat, Some (Str "Data Management"), Some (Str "Data Storage"));
              (1%nat, Some (Str "Unclassified"), Some (Str "Unclassified")) ].
Proof. vm_compute. repeat split; reflexivity. Qed.

Example run_ex_missing_column :
  let w := {| frames := {[ 0%nat := frame_without_vendor ]};
              notices := []; requests := 0 |} in
  (run_classification None (fun _ _ => Failed "off") 0 "rule-based" w).1
    = Raise KeyError
  /\ frames (run_classification None (fun _ _ => Failed "off") 0 "rule-based" w).2
       !! 0%nat = Some frame_without_vendor.
Proof. vm_compute. repeat split; reflexivity. Qed.

(** * Further properties of the code *)

(** ** The model classifier: the remaining exit, and its requests *)

Lemma read_response_validated classification a b subs :
  PyStr.split ", " classification = [a; b] ->
  dict_lookup config.TRM_DOMAINS_SUBDOMAINS (PyStr.strip a) = Some subs ->
  list_mem (PyStr.strip b) subs = true ->
  read_response (Some classification) = Ok (PyStr.strip a, PyStr.strip b).
Proof.
  intros Hsplit Hdom Hsub.
  rewrite (read_response_two _ _ _ Hsplit), (parse_response_two _ _ _ Hsplit).
  rewrite Hdom, Hsub. reflexivity.
Qed.

(** A response "Domain, Subdomain" that names a declared domain and one of
    its declared subdomains is returned as it is, trimmed, with no notice. *)
Theorem llm_classify_validated_pair
    (key : option string) (service : nat -> string -> completion)
    (product_name description hint : cell) (w : World)
    (response a b : string) (subs : list string) :
  key_missing key = false ->
  service (requests w) (prompt_of product_name description hint)
    = Responded (Some response) ->
  PyStr.split ", " response = [a; b] ->
  dict_lookup config.TRM_DOMAINS_SUBDOMAINS (PyStr.strip a) = Some subs ->
  list_mem (PyStr.strip b) subs = true ->
  llm_classify key service product_name description hint w
    = (Ok (PyStr.strip a, PyStr.strip b), after_request w).
Proof.
  intros Hkey Hout Hsplit Hdom Hsub.
  rewrite (llm_classify_responded _ _ _ _ _ _ _ Hkey Hout).
  by rewrite (read_response_validated _ _ _ _ Hsplit Hdom Hsub).
Qed.

Lemma llm_classify_validated_pair_witness :
  llm_classify (Some "sk-test") (fun _ _ => Responded (Some "Network,  API Gateways "))
    (Str "Kong") (Str "gateway") (Str "") w0
  = (Ok ("Network", "API Gateways"), after_request w0).
Proof.
  apply (llm_classify_validated_pair (Some "sk-test")
           (fun _ _ => Responded (Some "Network,  API Gateways "))
           (Str "Kong") (Str "gateway") (Str "") w0
           "Network,  API Gateways " "Network" " API Gateways "
           ["Networking Tools"; "Load Balancers"; "API Gateways"]);
    reflexivity.
Defined.

(** [llm_classify] never retries: it sends no request when no key is
    configured and exactly one otherwise, whatever the service answers; it
    shows at most one notice, and none when the response could be read. *)
Theorem llm_classify_one_request
    (key : option string) (service : nat -> string -> completion)
    (product_name description hint : cell) (w : World) :
  let w' := (llm_classify key service product_name description hint w).2 in
  requests w' = (if key_missing key then requests w else S (requests w))
  /\ (notices w' = notices w \/ exists notice, notices w' = notices w ++ [notice])
  /\ (key_missing key = false ->
      (exists content res,
          service (requests w) (prompt_of product_name description hint)
            = Responded content
          /\ read_response content = Ok res) ->
      notices w' = notices w).
Proof.
  cbv zeta. destruct (key_missing key) eqn:Hkey.
  - rewrite (llm_classify_no_key _ service product_name _ _ w Hkey).
    split; [done|]. split; [right; by eexists | done].
  - destruct (service (requests w) (prompt_of product_name description hint))
      as [content|detail] eqn:Hout.
    + rewrite (llm_classify_responded _ _ _ _ _ _ _ Hkey Hout).
      destruct (read_response content) as [res|e] eqn:Hread.
      * split; [done|]. split; [by left | done].
      * split; [done|]. split; [right; by eexists|].
        intros _ (content' & res & [= <-] & Hres). congruence.
    + rewrite (llm_classify_failed _ _ _ _ _ _ _ Hkey Hout).
      split; [done|]. split; [right; by eexists|].
      intros _ (content' & res & [=] & _).
Qed.

(** ** The rule classifier: case, keywords, subdomains *)

Lemma lower_char_idem c : PyStr.lower_char (PyStr.lower_char c) = PyStr.lower_char c.
Proof. destruct c as [[] [] [] [] [] [] [] []]; reflexivity. Qed.

Lemma lower_idem s : PyStr.lower (PyStr.lower s) = PyStr.lower s.
Proof.
  induction s as [|c s IH]; [done|]. cbn. by rewrite lower_char_idem, IH.
Qed.

(** The classification does not depend on the letter case of its input:
    lowercasing the description and the hint beforehand changes nothing, and
    two inputs that differ in case only get the same classification. *)
Theorem rule_based_classify_case_insensitive (d h d' h' : string) :
  rule_based_classify (Str (PyStr.lower d)) (Str (PyStr.lower h))
    = rule_based_classify (Str d) (Str h)
  /\ (PyStr.lower d = PyStr.lower d' -> PyStr.lower h = PyStr.lower h' ->
      rule_based_classify (Str d) (Str h) = rule_based_classify (Str d') (Str h')).
Proof.
  unfold rule_based_classify, desc_hint. cbn [py_str]. split.
  - by rewrite !lower_idem.
  - by intros -> ->.
Qed.

Lemma prefix_append k a b :
  String.prefix k a = true -> String.prefix k (a +:+ b) = true.
Proof.
  revert a. induction k as [|c k IH]; intros a.
  - intros _. by destruct (a +:+ b).
  - destruct a as [|c' a]; [discriminate|].
    rewrite append_cons, !prefix_cons.
    destruct (ascii_dec c c'); [apply IH | done].
Qed.

Lemma contains_append_l k a b :
  PyStr.contains k a = true -> PyStr.contains k (a +:+ b) = true.
Proof.
  induction a as [|c a IH].
  - cbn [PyStr.contains]. rewrite orb_false_r. intros H.
    destruct k; [|discriminate]. by destruct b.
  - rewrite append_cons. cbn [PyStr.contains]. rewrite !orb_true_iff.
    intros [H | H].
    + left. rewrite <- append_cons. by apply prefix_append.
    + right. by apply IH.
Qed.

Lemma contains_append_r k a b :
  PyStr.contains k b = true -> PyStr.contains k (a +:+ b) = true.
Proof.
  intros H. induction a as [|c a IH]; [done|].
  rewrite append_cons. cbn [PyStr.contains]. rewrite IH. apply orb_true_r.
Qed.

(** No domain of the keyword table is the sentinel domain. *)
Lemma keyword_domain_not_sentinel entry :
  In entry config.CLASSIFICATION_KEYWORDS -> entry.1 <> config.DEFAULT_DOMAIN.
Proof.
  assert (H : forallb (fun e => negb (String.eqb e.1 config.DEFAULT_DOMAIN))
                      config.CLASSIFICATION_KEYWORDS = true)
    by (vm_compute; reflexivity).
  rewrite forallb_forall in H. intros Hin Heq. specialize (H _ Hin).
  rewrite Heq, String.eqb_refl in H. discriminate.
Qed.

(** A record is left unclassified by the rules exactly when no keyword of
    any domain occurs in its text; and whatever domain the rules give, the
    subdomain is that domain's first declared one. *)
Theorem rule_based_classify_unclassified_iff (description hint : cell) :
  exists domain subdomain,
    rule_based_classify description hint = Ok (domain, subdomain)
    /\ first_subdomain domain = Some subdomain
    /\ (domain = "Unclassified" <->
        Forall (fun e => domain_matches (desc_hint description hint) e = false)
               config.CLASSIFICATION_KEYWORDS).
Proof.
  destruct (rule_based_classify_first_match description hint)
    as ([domain subdomain] & Hrun & Hspec).
  exists domain, subdomain. split; [done|].
  unfold first_match_wins in Hspec.
  destruct (List.find _ _) as [[dom kws]|] eqn:Hfind.
  - destruct (first_subdomain dom) as [s|] eqn:Hs; [|discriminate].
    injection Hspec as <- <-. split; [done|].
    apply find_some in Hfind as [Hin Hm]. split.
    + intros Heq. by destruct (keyword_domain_not_sentinel _ Hin).
    + intros Hnone. rewrite List.Forall_forall in Hnone.
      rewrite (Hnone _ Hin) in Hm. discriminate.
  - injection Hspec as <- <-. split; [reflexivity|]. split; [|done].
    intros _. apply List.Forall_forall. intros e Hin.
    destruct (domain_matches _ e) eqn:Hm; [|done].
    by rewrite (find_none _ _ Hfind e Hin) in Hm.
Qed.

(** A keyword of any domain that occurs in the lowercased description, or in
    the lowercased hint, is enough for the record to be classified. *)
Theorem rule_based_classify_keyword_suffices
    (description hint : string) (entry : string * list string) (keyword : string) :
  In entry config.CLASSIFICATION_KEYWORDS ->
  In keyword entry.2 ->
  PyStr.contains keyword (PyStr.lower description) = true
  \/ PyStr.contains keyword (PyStr.lower hint) = true ->
  exists domain subdomain,
    rule_based_classify (Str description) (Str hint) = Ok (domain, subdomain)
    /\ domain <> "Unclassified".
Proof.
  intros Hentry Hkw Hocc.
  assert (Hm : domain_matches (desc_hint (Str description) (Str hint)) entry = true).
  { unfold domain_matches, any_keyword_in. apply existsb_exists.
    exists keyword. split; [done|].
    unfold desc_hint. cbn [py_str].
    destruct Hocc as [H | H].
    - by apply contains_append_l.
    - apply contains_append_r. by apply (contains_append_r _ " "). }
  destruct (rule_based_classify_first_match (Str description) (Str hint))
    as ([domain subdomain] & Hrun & Hspec).
  exists domain, subdomain. split; [done|].
  unfold first_match_wins in Hspec.
  destruct (List.find _ _) as [[dom kws]|] eqn:Hfind.
  - destruct (first_subdomain dom) as [s|]; [|discriminate].
    injection Hspec as <- <-.
    apply find_some in Hfind as [Hin _].
    exact (keyword_domain_not_sentinel _ Hin).
  - by rewrite (find_none _ _ Hfind entry Hentry) in Hm.
Qed.

Lemma rule_based_classify_keyword_suffices_witness :
  exists domain subdomain,
    rule_based_classify (Str "Team wiki") (Str "uses OAuth") = Ok (domain, subdomain)
    /\ domain <> "Unclassified".
Proof.
  apply (rule_based_classify_keyword_suffices "Team wiki" "uses OAuth"
           ("Security", ["security"; "auth"; "encryption"; "firewall"; "protection";
                         "vulnerability"; "antivirus"]) "auth").
  - vm_compute. tauto.
  - vm_compute. tauto.
  - right. vm_compute. reflexivity.
Defined.

(** ** The two tests for a configured key *)

Lemma length_pos_nonempty s : (0 <? String.length s)%nat = true <-> s <> "".
Proof. destruct s; cbn; split; intros; congruence. Qed.

(** Whenever [is_api_key_configured] accepts a key, [llm_classify] takes it
    as configured and calls the service; the two tests differ only on a
    non-empty key made of white space, which [is_api_key_configured] rejects
    and [llm_classify] uses. *)
Theorem is_api_key_configured_vs_llm (key : option string) :
  (is_api_key_configured key = true -> key_missing key = false)
  /\ (key_missing key = false -> is_api_key_configured key = false ->
      exists k, key = Some k /\ k <> "" /\ PyStr.strip k = "")
  /\ (forall k, k <> "" -> PyStr.strip k = "" ->
      is_api_key_configured (Some k) = false /\ key_missing (Some k) = false).
Proof.
  unfold is_api_key_configured, key_missing. split; [|split].
  - destruct key as [k|]; [|discriminate].
    rewrite length_pos_nonempty. intros Hstrip.
    apply String.eqb_neq. intros ->. by apply Hstrip.
  - destruct key as [k|]; [|discriminate]. intros Hk Hconf.
    exists k. split; [done|]. split.
    + by apply String.eqb_neq.
    + destruct (PyStr.strip k); [done | discriminate].
  - intros k Hk Hstrip. rewrite Hstrip. split; [done|].
    by apply String.eqb_neq.
Qed.

(** ** The risk of a record and the tables of [config.py] *)

Lemma flag_risk_level row level :
  flag_risk row = Ok level ->
  level = "High-Risk" \/ level = "Medium-Risk" \/ level = "Normal".
Proof.
  unfold flag_risk.
  destruct (lifecycle_is "deprecated" row) as [[]|]; cbn; [intros [= <-]; tauto | | done].
  destruct (vendor_missing row) as [[]|]; cbn; [intros [= <-]; tauto | | done].
  destruct (domain_unclassified row) as [[]|]; cbn; [intros [= <-]; tauto | | done].
  destruct (lifecycle_is "beta" row) as [[]|]; cbn; [intros [= <-]; tauto | | done].
  intros [= <-]. tauto.
Qed.

(** Whatever [flag_risk] returns is one of the levels [RISK_STATUSES]
    describes; and for a record with a vendor and a resolved domain whose
    lifecycle status is one of [LIFECYCLE_STATUSES], it is the level
    [STATUS_RISK_MAPPING] gives to that status. *)
Theorem flag_risk_agrees_with_status_mapping (row : Series) :
  (forall level, flag_risk row = Ok level ->
                 dict_mem level config.RISK_STATUSES = true)
  /\ (forall status,
        In status config.LIFECYCLE_STATUSES ->
        row !! "Lifecycle Status" = Some (Str status) ->
        vendor_blank row = false ->
        domain_is_sentinel row = false ->
        exists level,
          dict_lookup config.STATUS_RISK_MAPPING status = Some level
          /\ flag_risk row = Ok level).
Proof.
  split.
  - intros level Hrisk.
    destruct (flag_risk_level _ _ Hrisk) as [-> | [-> | ->]]; reflexivity.
  - intros status Hin Hstatus Hvendor Hdomain.
    assert (Htext : lifecycle_is_text row)
      by (unfold lifecycle_is_text; rewrite Hstatus; discriminate).
    rewrite (flag_risk_ok _ Htext). unfold risk_by_precedence, lifecycle_equals.
    rewrite Hstatus, Hvendor, Hdomain.
    cbn in Hin. destruct Hin as [<- | [<- | [<- | [<- | []]]]];
      eexists; split; reflexivity.
Qed.

Lemma flag_risk_agrees_with_status_mapping_witness :
  exists level,
    dict_lookup config.STATUS_RISK_MAPPING "Planned" = Some level
    /\ flag_risk (mk_row [("Lifecycle Status", Str "Planned"); ("Vendor", Str "Acme");
                          ("TRM Domain", Str "Network")]) = Ok level.
Proof.
  apply (proj2 (flag_risk_agrees_with_status_mapping
                  (mk_row [("Lifecycle Status", Str "Planned"); ("Vendor", Str "Acme");
                           ("TRM Domain", Str "Network")])) "Planned").
  - vm_compute. tauto.
  - vm_compute. reflexivity.
  - vm_compute. reflexivity.
  - vm_compute. reflexivity.
Defined.

(** ** One turn of the classification loop *)

Lemma hint_run (row : Series) w :
  (if row_mem "Category Hint" row
   then lift (row_get row "Category Hint")
   else mret (Str "")) w = (Ok (hint_of row), w).
Proof.
  unfold row_mem, hint_of, row_get, lift. case_bool_decide as Hmem.
  - by destruct Hmem as [h ->].
  - destruct (row !! "Category Hint") as [h|]; [|done].
    destruct Hmem. by exists h.
Qed.

Lemma set_at_twice r idx pair w df :
  frames w !! r = Some df ->
  (_ ← set_at r idx "TRM Domain" (Str pair.1);
   set_at r idx "TRM Subdomain" (Str pair.2)) w
  = (Ok tt, with_frame r (write_pair df idx pair) w).
Proof.
  intros Hr. unfold set_at, deref, store, mbind, M_bind. rewrite Hr. cbn.
  rewrite lookup_insert_eq. unfold with_frame, write_pair. cbn.
  by rewrite insert_insert_eq.
Qed.

(** What one turn does: it fails with [KeyError] on a row without product
    name or description and leaves the state alone; otherwise it runs the
    classifier once and writes the pair it gets into the rows that carry the
    label. *)
Lemma classify_row_effect key service r method idx (row : Series) w :
  classify_row key service r method (idx, row) w =
    match row !! "Product Name", row !! "Description" with
    | Some product_name, Some description =>
        match classifier_run key service method product_name description
                (hint_of row) w with
        | (Ok res, w1) =>
            match frames w1 !! r with
            | Some df => (Ok tt, with_frame r (write_pair df idx res) w1)
            | None => (Raise ReferenceError, w1)
            end
        | (Raise e, w1) => (Raise e, w1)
        end
    | _, _ => (Raise KeyError, w)
    end.
Proof.
  unfold classify_row, row_get.
  destruct (row !! "Product Name") as [product_name|]; [|reflexivity].
  destruct (row !! "Description") as [description|]; [|reflexivity].
  unfold mbind at 1 2 3, M_bind at 1 2 3, lift at 1 2. cbv beta iota.
  rewrite hint_run. cbv beta iota.
  unfold mbind at 1, M_bind at 1, classifier_run.
  destruct (String.eqb method "rule-based").
  - unfold lift. destruct (rule_based_classify description (hint_of row)) as [[d s]|e];
      [|reflexivity].
    destruct (frames w !! r) as [df|] eqn:Hr.
    + apply (set_at_twice r idx (d, s) w df Hr).
    + unfold set_at, deref, mbind, M_bind. rewrite Hr. reflexivity.
  - destruct (llm_classify key service product_name description (hint_of row) w)
      as [[[d s]|e] w1]; [|reflexivity].
    destruct (frames w1 !! r) as [df|] eqn:Hr.
    + apply (set_at_twice r idx (d, s) w1 df Hr).
    + unfold set_at, deref, mbind, M_bind. rewrite Hr. reflexivity.
Qed.

(** ** [df.at[idx, col] = v], row by row *)

Lemma add_column_rows col df :
  df_rows (add_column col df) = map (fun e => (e.1, fill_column col df e.2)) (df_rows df).
Proof.
  unfold add_column, fill_column. destruct (list_mem col (df_columns df)); cbn.
  - induction (df_rows df) as [|[i row] l IH]; [done|]. cbn. by rewrite <- IH.
  - apply map_ext. by intros [i row].
Qed.

Lemma has_label_add_column idx col df :
  has_label idx (add_column col df) = has_label idx df.
Proof.
  unfold has_label. rewrite add_column_rows.
  induction (df_rows df) as [|[i row] l IH]; [done|]. cbn. by rewrite IH.
Qed.

Lemma at_set_rows df idx col v :
  df_rows (at_set df idx col v) =
    map (set_in_row df idx col v) (df_rows df)
    ++ (if has_label idx df then []
        else [(idx, <[col := v]> (list_to_map (map (fun c => (c, Null))
                                                  (df_columns (add_column col df)))))]).
Proof.
  unfold at_set. rewrite has_label_add_column.
  destruct (has_label idx df) eqn:Hlab; cbn [df_rows]; rewrite add_column_rows.
  - rewrite app_nil_r, map_map. apply map_ext. by intros [i row].
  - f_equal. apply map_ext_in. intros [i row] Hin. unfold set_in_row. cbn [fst snd].
    destruct (Nat.eqb i idx) eqn:Hi; [|done].
    apply Nat.eqb_eq in Hi. subst.
    assert (Hlab' : has_label idx df = true).
    { apply has_label_labels, in_map_iff. by exists (idx, row). }
    congruence.
Qed.

Lemma at_set_has_label df idx col v : has_label idx (at_set df idx col v) = true.
Proof.
  apply has_label_labels. rewrite at_set_rows, map_app, in_app_iff.
  destruct (has_label idx df) eqn:Hlab.
  - left. apply has_label_labels in Hlab. rewrite map_map.
    by rewrite (map_ext _ fst) by done.
  - right. by left.
Qed.

Lemma at_set_columns df idx col v c :
  list_mem c (df_columns (at_set df idx col v))
    = list_mem c (df_columns df) || String.eqb c col.
Proof.
  assert (Hcols : df_columns (at_set df idx col v) = df_columns (add_column col df)).
  { unfold at_set. by destruct (has_label idx (add_column col df)). }
  rewrite Hcols. unfold add_column.
  destruct (list_mem col (df_columns df)) eqn:Hcol; cbn.
  - destruct (String.eqb c col) eqn:E; [|by rewrite orb_false_r].
    apply String.eqb_eq in E. subst. by rewrite Hcol.
  - unfold list_mem. rewrite existsb_app. cbn. by rewrite orb_false_r.
Qed.

(** After both writes, the rows with the label carry the pair; the other
    rows are rows of the frame before, once the two columns exist; and no
    label is new but [idx]. *)
Lemma write_pair_rows df idx pair e :
  In e (df_rows (write_pair df idx pair)) ->
  (e.1 = idx -> carries e.2 pair)
  /\ (e.1 <> idx ->
      list_mem "TRM Domain" (df_columns df) = true ->
      list_mem "TRM Subdomain" (df_columns df) = true ->
      In e (df_rows df))
  /\ (e.1 = idx \/ In e.1 (map fst (df_rows df))).
Proof.
  unfold write_pair. rewrite at_set_rows, at_set_has_label, app_nil_r.
  rewrite in_map_iff. intros ([i1 row1] & <- & Hin1).
  rewrite at_set_rows, in_app_iff in Hin1. unfold set_in_row, carries. cbn [fst snd].
  assert (Hlookup_td : forall row : Series,
             fill_column "TRM Subdomain" (at_set df idx "TRM Domain" (Str pair.1)) row
               !! "TRM Domain" = row !! "TRM Domain").
  { intros row. unfold fill_column. destruct (list_mem _ _); [done|].
    by rewrite lookup_insert_ne. }
  assert (Hcarries : forall row : Series,
             row !! "TRM Domain" = Some (Str pair.1) ->
             <["TRM Subdomain" := Str pair.2]>
               (fill_column "TRM Subdomain"
                  (at_set df idx "TRM Domain" (Str pair.1)) row)
               !! "TRM Domain" = Some (Str pair.1)
             /\ <["TRM Subdomain" := Str pair.2]>
                  (fill_column "TRM Subdomain"
                     (at_set df idx "TRM Domain" (Str pair.1)) row)
                  !! "TRM Subdomain" = Some (Str pair.2)).
  { intros row Hrow. split.
    - rewrite lookup_insert_ne by done. by rewrite Hlookup_td.
    - by rewrite lookup_insert_eq. }
  destruct Hin1 as [Hin1 | Hin1].
  - apply in_map_iff in Hin1 as ([i0 row0] & Heq & Hin0).
    unfold set_in_row in Heq. cbn [fst snd] in Heq. injection Heq as <- <-.
    split; [|split].
    + intros ->. rewrite Nat.eqb_refl. apply Hcarries. by rewrite lookup_insert_eq.
    + intros Hne Htd Hts. apply Nat.eqb_neq in Hne. rewrite Hne.
      unfold fill_column. rewrite at_set_columns, Hts, Htd. cbn. done.
    + right. apply in_map_iff. by exists (i0, row0).
  - destruct (has_label idx df); [done|].
    destruct Hin1 as [[= <- <-] | []].
    split; [|split]; [| done | by left].
    intros _. rewrite Nat.eqb_refl. apply Hcarries. by rewrite lookup_insert_eq.
Qed.

Lemma write_pair_columns df idx pair :
  list_mem "TRM Domain" (df_columns (write_pair df idx pair)) = true
  /\ list_mem "TRM Subdomain" (df_columns (write_pair df idx pair)) = true.
Proof.
  unfold write_pair. rewrite !at_set_columns. cbn. by rewrite !orb_true_r.
Qed.

(** ** The loop as a whole *)

Lemma for_each_ind {A : Type} (body : A -> M unit) (I : list A -> World -> Prop) :
  (forall pre x w w', I pre w -> body x w = (Ok tt, w') -> I (pre ++ [x]) w') ->
  forall rest pre w w',
    I pre w -> for_each rest body w = (Ok tt, w') -> I (pre ++ rest) w'.
Proof.
  intros Hstep. induction rest as [|x rest IH]; intros pre w w' Hpre Hrun.
  - cbn in Hrun. injection Hrun as <-. by rewrite app_nil_r.
  - cbn [for_each] in Hrun. unfold mbind, M_bind in Hrun.
    destruct (body x w) as [[[]|e] w1] eqn:Hx; [|discriminate].
    replace (pre ++ x :: rest) with ((pre ++ [x]) ++ rest)
      by (by rewrite <- app_assoc).
    apply (IH _ w1); [|done]. by apply (Hstep pre x w).
Qed.

Lemma run_classification_unfold key service df method w input :
  frames w !! df = Some input ->
  run_classification key service df method w =
    let r := fresh (dom (frames w)) in
    match for_each (df_rows input) (classify_row key service r method)
            (with_frame r input w) with
    | (Ok _, w2) => (Ok r, w2)
    | (Raise e, w2) => (Raise e, w2)
    end.
Proof.
  intros Hin.
  unfold run_classification, df_copy, iterrows, deref, alloc, mbind, M_bind.
  rewrite Hin. cbn [frames]. rewrite lookup_insert_eq. unfold mret, M_ret.
  cbv zeta. unfold with_frame.
  by destruct (for_each _ _ _) as [[[]|e] w2].
Qed.

Lemma classifier_run_ok key service method product_name description hint w res w1 :
  classifier_run key service method product_name description hint w = (Ok res, w1) ->
  is_valid res.1 res.2
  /\ frames w1 = frames w
  /\ (method = "rule-based" ->
      rule_based_classify description hint = Ok res /\ w1 = w).
Proof.
  unfold classifier_run. destruct (String.eqb method "rule-based") eqn:Hm.
  - intros [= Hrule <-].
    destruct (rule_based_classify_valid description hint) as (d & s & Hrun & Hvalid).
    rewrite Hrun in Hrule. injection Hrule as <-. done.
  - intros Hrun. split; [|split].
    + destruct (llm_classify_valid key service product_name description hint w)
        as (d & s & w' & Hllm & Hvalid).
      rewrite Hllm in Hrun. by injection Hrun as <- <-.
    + pose proof (llm_classify_frames key service product_name description hint w)
        as Hframes. by rewrite Hrun in Hframes.
    + intros ->. discriminate.
Qed.

Lemma last_with_label_snoc idx pre i row :
  last_with_label idx (pre ++ [(i, row)])
    = if Nat.eqb i idx then Some row else last_with_label idx pre.
Proof.
  unfold last_with_label. rewrite rev_unit. cbn [List.find fst].
  by destruct (Nat.eqb i idx).
Qed.

Lemma last_with_label_Some idx rows :
  In idx (map fst rows) -> is_Some (last_with_label idx rows).
Proof.
  induction rows as [|[i row] rows IH] using rev_ind; [done|].
  rewrite map_app, in_app_iff, last_with_label_snoc. cbn.
  destruct (Nat.eqb i idx) eqn:Hi; [by eexists|].
  apply Nat.eqb_neq in Hi. intros [H | [H | []]]; [by apply IH | done].
Qed.

Lemma last_with_label_NoDup idx row rows :
  NoDup (map fst rows) -> In (idx, row) rows ->
  last_with_label idx rows = Some row.
Proof.
  induction rows as [|[i x] rows IH] using rev_ind; [done|].
  rewrite map_app, in_app_iff, last_with_label_snoc. cbn.
  intros Hnd Hin. apply NoDup_app in Hnd as (Hnd & Hdisj & _).
  destruct (Nat.eqb i idx) eqn:Hi.
  - apply Nat.eqb_eq in Hi. subst.
    destruct Hin as [Hin | [[= ->] | []]]; [|done].
    destruct (Hdisj idx).
    + apply list_elem_of_In, in_map_iff. by exists (idx, row).
    + by left.
  - apply Nat.eqb_neq in Hi.
    destruct Hin as [Hin | [[= -> ->] | []]]; [by apply IH | done].
Qed.

Lemma llm_classify_accounting key service product_name description hint w :
  let w' := (llm_classify key service product_name description hint w).2 in
  requests w' = (if key_missing key then requests w else S (requests w))
  /\ (key_missing key = true -> length (notices w') = S (length (notices w)))
  /\ (length (notices w') <= S (length (notices w)))%nat.
Proof.
  cbv zeta. destruct (key_missing key) eqn:Hkey.
  - rewrite (llm_classify_no_key _ service product_name _ _ w Hkey). cbn.
    rewrite length_app. cbn. repeat split; lia.
  - destruct (service (requests w) (prompt_of product_name description hint))
      as [content|detail] eqn:Hout.
    + rewrite (llm_classify_responded _ _ _ _ _ _ _ Hkey Hout).
      destruct (read_response content); cbn; rewrite ?length_app; cbn;
        repeat split; (done || lia).
    + rewrite (llm_classify_failed _ _ _ _ _ _ _ Hkey Hout). cbn.
      rewrite length_app. cbn. repeat split; (done || lia).
Qed.

Lemma classifier_run_requests key service method product_name description hint w res w1 :
  classifier_run key service method product_name description hint w = (Ok res, w1) ->
  (requests w <= requests w1)%nat.
Proof.
  unfold classifier_run. destruct (String.eqb method "rule-based").
  - intros [= _ <-]. done.
  - intros Hrun.
    pose proof (llm_classify_accounting key service product_name description hint w)
      as (Hreq & _).
    rewrite Hrun in Hreq. cbn [snd] in Hreq. destruct (key_missing key); lia.
Qed.

Lemma classified_by_mono key service method lo hi lo' hi' row res :
  (lo' <= lo)%nat -> (hi <= hi')%nat ->
  classified_by key service method lo hi row res ->
  classified_by key service method lo' hi' row res.
Proof.
  intros Hlo Hhi (product_name & description & w_at & w_after & Hp & Hd & Hrun & H1 & H2).
  exists product_name, description, w_at, w_after. repeat split; (done || lia).
Qed.

Lemma classified_by_classification_of key service method lo hi row res :
  classified_by key service method lo hi row res -> classification_of method row res.
Proof.
  intros (product_name & description & w_at & w_after & Hp & Hd & Hrun & _).
  destruct (classifier_run_ok _ _ _ _ _ _ _ _ _ Hrun) as (Hvalid & _ & Hrule).
  split; [done|]. intros Hm. exists description. split; [done|]. by apply Hrule.
Qed.

Section Written.

Variable key : option string.
Variable service : nat -> string -> completion.
Variable r : nat.
Variable method : string.
Variable lo : nat.

Lemma written_step pre entry w w' :
  written key service r method lo pre w ->
  classify_row key service r method entry w = (Ok tt, w') ->
  written key service r method lo (pre ++ [entry]) w'.
Proof.
  intros (Hlo & dfk & Hr & Hcols & Hrows) Hrun. destruct entry as [idx row].
  rewrite classify_row_effect in Hrun.
  destruct (row !! "Product Name") as [product_name|] eqn:Hname; [|discriminate].
  destruct (row !! "Description") as [description|] eqn:Hdesc; [|discriminate].
  destruct (classifier_run _ _ _ _ _ _ _) as [[res|e] w1] eqn:Hcl; [|discriminate].
  destruct (classifier_run_ok _ _ _ _ _ _ _ _ _ Hcl) as (_ & Hframes & _).
  pose proof (classifier_run_requests _ _ _ _ _ _ _ _ _ Hcl) as Hreq.
  rewrite Hframes, Hr in Hrun. injection Hrun as <-.
  split; [cbn; lia|].
  exists (write_pair dfk idx res). split; [|split].
  - cbn. by rewrite lookup_insert_eq.
  - intros _. apply write_pair_columns.
  - intros e He row_last. rewrite last_with_label_snoc.
    destruct (write_pair_rows _ _ _ _ He) as (Hsame & Hother & _).
    cbn [requests with_frame].
    destruct (Nat.eqb idx e.1) eqn:Hi.
    + apply Nat.eqb_eq in Hi. intros [= <-]. exists res. split; [|by apply Hsame].
      exists product_name, description, w, w1. done.
    + apply Nat.eqb_neq in Hi. intros Hlast.
      assert (Hpre : pre <> []) by (by intros ->).
      destruct (Hcols Hpre) as [Htd Hts].
      destruct (Hrows e) with row_last as (res0 & Hby & Hcar);
        [apply Hother; [congruence | done | done] | done |].
      exists res0. split; [|done].
      by apply (classified_by_mono _ _ _ lo (requests w)).
Qed.

End Written.

(** The frame a run returns: the input up to the two classification
    fields, each row carrying the classification, by a call made during the
    run, of the last input row with its label. *)
Lemma run_classification_output key service df method w w' input result_df :
  frames w !! df = Some input ->
  run_classification key service df method w = (Ok result_df, w') ->
  (requests w <= requests w')%nat
  /\ exists output,
       frames w' !! result_df = Some output
       /\ only_classification_written input output
       /\ forall e, In e (df_rows output) ->
            forall row_last, last_with_label e.1 (df_rows input) = Some row_last ->
              exists res,
                classified_by key service method (requests w) (requests w') row_last res
                /\ carries e.2 res.
Proof.
  intros Hin Hrun. rewrite (run_classification_unfold _ _ _ _ _ _ Hin) in Hrun.
  cbv zeta in Hrun. set (r := fresh (dom (frames w))) in *.
  destruct (for_each _ _ _) as [[[]|e] w2] eqn:Hloop; [|discriminate].
  injection Hrun as <- <-.
  assert (Hwritten : written key service r method (requests w) ([] ++ df_rows input) w2).
  { apply (for_each_ind (classify_row key service r method)
             (written key service r method (requests w))
             (written_step key service r method (requests w)) _ [] _ _) in Hloop;
      [done|].
    split; [done|]. exists input. split; [cbn; by rewrite lookup_insert_eq|].
    split; [done|]. intros e _ row_last. discriminate. }
  cbn [app] in Hwritten. destruct Hwritten as (Hreq & output & Hout & _ & Hrows).
  assert (Hinv : copy_invariant (frames w) r input w2).
  { pose proof (for_each_run key service (frames w) r input method (df_rows input)
                  (with_frame r input w)) as Hfe.
    rewrite Hloop in Hfe. apply Hfe.
    - intros idx row Hrow. apply in_map_iff. by exists (idx, row).
    - split.
      + intros l Hl. cbn. by rewrite lookup_insert_ne.
      + exists input. cbn. rewrite lookup_insert_eq. split; [done|].
        apply Forall2_agree_refl. }
  destruct Hinv as [_ (output' & Hout' & Hagree)].
  rewrite Hout in Hout'. injection Hout' as <-.
  split; [done|]. by exists output.
Qed.

(** After [run_classification] every record carries the classification of
    the last input record with the same index label, which is the record
    itself when the labels are distinct: the pair that the classifier of the
    method returned when the run called it on that record's product name,
    description and hint. The pair is valid for the taxonomy, and under the
    rule-based method it is what [rule_based_classify] gives for the
    record's description and hint. *)
Theorem run_classification_writes
    (key : option string) (service : nat -> string -> completion)
    (df : nat) (method : string) (w w' : World) (input : DataFrame)
    (result_df : nat) :
  frames w !! df = Some input ->
  run_classification key service df method w = (Ok result_df, w') ->
  exists output,
    frames w' !! result_df = Some output
    /\ forall k idx row_out,
         df_rows output !! k = Some (idx, row_out) ->
         exists row_in row_last res,
           df_rows input !! k = Some (idx, row_in)
           /\ last_with_label idx (df_rows input) = Some row_last
           /\ (NoDup (map fst (df_rows input)) -> row_last = row_in)
           /\ classified_by key service method (requests w) (requests w') row_last res
           /\ classification_of method row_last res
           /\ carries row_out res.
Proof.
  intros Hin Hrun.
  destruct (run_classification_output _ _ _ _ _ _ _ _ Hin Hrun)
    as (_ & output & Hout & Hagree & Hrows).
  exists output. split; [done|].
  intros k idx row_out Hk.
  destruct (Forall2_lookup_r _ _ _ _ _ Hagree Hk) as ([idx' row_in] & Hk_in & Hlab & _).
  cbn in Hlab. subst idx'.
  assert (Hmem : In idx (map fst (df_rows input))).
  { apply in_map_iff. exists (idx, row_in). split; [done|].
    by apply list_elem_of_In, list_elem_of_lookup_2 with k. }
  destruct (last_with_label_Some _ _ Hmem) as [row_last Hlast].
  destruct (Hrows (idx, row_out)) with row_last as (res & Hby & Hcar);
    [by apply list_elem_of_In, list_elem_of_lookup_2 with k | done |].
  exists row_in, row_last, res.
  split; [done|]. split; [done|]. split; [|split; [done|split; [|done]]].
  - intros Hnd.
    rewrite (last_with_label_NoDup idx row_in _ Hnd) in Hlast; [congruence|].
    by apply list_elem_of_In, list_elem_of_lookup_2 with k.
  - by apply (classified_by_classification_of key service method
                (requests w) (requests w') row_last).
Qed.

Lemma run_classification_writes_witness :
  let service := fun (_ : nat) (_ : string) => Responded (Some "Security, Encryption") in
  let run := run_classification (Some "sk-test") service 0 "llm-based" sample_world in
  exists output,
    frames run.2 !! 1%nat = Some output
    /\ forall k idx row_out,
         df_rows output !! k = Some (idx, row_out) ->
         exists row_in row_last res,
           df_rows sample_frame !! k = Some (idx, row_in)
           /\ last_with_label idx (df_rows sample_frame) = Some row_last
           /\ (NoDup (map fst (df_rows sample_frame)) -> row_last = row_in)
           /\ classified_by (Some "sk-test") service "llm-based"
                (requests sample_world) (requests run.2) row_last res
           /\ classification_of "llm-based" row_last res
           /\ carries row_out res.
Proof.
  intros service run.
  apply (run_classification_writes (Some "sk-test") service 0 "llm-based"
           sample_world run.2 sample_frame 1).
  - vm_compute. reflexivity.
  - vm_compute. reflexivity.
Defined.

(** Rows that share an index label all end up with the classification of
    the last of them. *)
Example run_ex_duplicate_labels :
  let frame :=
    {| df_columns := ["Product Name"; "Description"];
       df_rows := [ (7%nat, mk_row [("Product Name", Str "pgAdmin");
                                    ("Description", Str "PostgreSQL console")]);
                    (7%nat, mk_row [("Product Name", Str "nmap");
                                    ("Description", Str "network scanner")]) ] |} in
  let w := {| frames := {[ 0%nat := frame ]}; notices := []; requests := 0 |} in
  (map (fun '(i, row) => (i, row !! "Product Name", row !! "TRM Domain"))
     <$> (df_rows <$> frames (run_classification None (fun _ _ => Failed "off")
                                0 "rule-based" w).2 !! 1%nat))
  = Some [ (7%nat, Some (Str "pgAdmin"), Some (Str "Network"));
           (7%nat, Some (Str "nmap"), Some (Str "Network")) ].
Proof. vm_compute. reflexivity. Qed.

(** ** Requests and notices of a run *)

Lemma accounted_step key service r method w0 pre entry w w' :
  accounted key method w0 pre w ->
  classify_row key service r method entry w = (Ok tt, w') ->
  accounted key method w0 (pre ++ [entry]) w'.
Proof.
  intros (Hreq & Hrule & Hmiss & Hle) Hrun. destruct entry as [idx row].
  rewrite classify_row_effect in Hrun.
  destruct (row !! "Product Name") as [product_name|]; [|discriminate].
  destruct (row !! "Description") as [description|]; [|discriminate].
  destruct (classifier_run _ _ _ _ _ _ _) as [[res|e] w1] eqn:Hcl; [|discriminate].
  destruct (frames w1 !! r); [|discriminate]. injection Hrun as <-.
  unfold accounted. cbn [requests notices with_frame]. rewrite length_app. cbn [length].
  unfold classifier_run in Hcl.
  destruct (String.eqb method "rule-based") eqn:Hm.
  - injection Hcl as _ <-. apply String.eqb_eq in Hm. cbn [orb] in *.
    repeat split; [done | done | intros Hne; by destruct Hne | lia].
  - apply String.eqb_neq in Hm.
    pose proof (llm_classify_accounting key service product_name description
                  (hint_of row) w) as (Hreq1 & Hmiss1 & Hle1).
    rewrite Hcl in Hreq1, Hmiss1, Hle1. cbn [snd orb] in *.
    destruct (key_missing key) eqn:Hkey.
    + repeat split; [lia | done | |lia].
      intros _ _. specialize (Hmiss Hm eq_refl). specialize (Hmiss1 eq_refl). lia.
    + repeat split; [lia | done | done | lia].
Qed.

(** A run that returns has sent one request for each record under the
    model-based method with a key, and none otherwise; under the rule-based
    method it shows no notice; with the key missing the model-based method
    shows one notice for each record; and no run shows more than one notice
    for each record. *)
Theorem run_classification_requests
    (key : option string) (service : nat -> string -> completion)
    (df : nat) (method : string) (w w' : World) (input : DataFrame)
    (result_df : nat) :
  frames w !! df = Some input ->
  run_classification key service df method w = (Ok result_df, w') ->
  requests w' = (requests w +
                 if String.eqb method "rule-based" || key_missing key
                 then 0 else length (df_rows input))%nat
  /\ (method = "rule-based" -> notices w' = notices w)
  /\ (method <> "rule-based" -> key_missing key = true ->
      length (notices w') = (length (notices w) + length (df_rows input))%nat)
  /\ (length (notices w') <= length (notices w) + length (df_rows input))%nat.
Proof.
  intros Hin Hrun. rewrite (run_classification_unfold _ _ _ _ _ _ Hin) in Hrun.
  cbv zeta in Hrun. set (r := fresh (dom (frames w))) in *.
  destruct (for_each _ _ _) as [[[]|e] w2] eqn:Hloop; [|discriminate].
  injection Hrun as _ <-.
  apply (for_each_ind (classify_row key service r method) (accounted key method w)
           (accounted_step key service r method w) _ [] _ _) in Hloop; [done|].
  unfold accounted. cbn. destruct (_ || _); repeat split; (done || lia).
Qed.

Lemma run_classification_requests_witness :
  let run := run_classification (Some "sk-test") (fun _ _ => Failed "rate limit")
               0 "llm-based" sample_world in
  requests run.2 = 2%nat /\ length (notices run.2) <= 2.
Proof.
  intros run.
  destruct (run_classification_requests (Some "sk-test") (fun _ _ => Failed "rate limit")
              0 "llm-based" sample_world run.2 sample_frame 1)
    as (Hreq & _ & _ & Hle).
  - vm_compute. reflexivity.
  - vm_compute. reflexivity.
  - split; [exact Hreq | exact Hle].
Defined.

(** ** [classify_software] *)

Example classify_software_ex :
  (classify_software None (fun _ _ => Failed "off") 0 "rule-based" sample_world).1
  = Ok {| Results.classifications :=
            [("Data Management", "Database Platforms"); ("Unclassified", "Unclassified")];
          Results.domain_counts :=
            {[ "Data Management" := 1%nat; "Unclassified" := 1%nat ]};
          Results.unclassified_count := 1 |}.
Proof. vm_compute. reflexivity. Qed.

Lemma classify_software_row_effect key service method results idx (row : Series) w :
  classify_software_row key service method results (idx, row) w =
    match row !! "Product Name", row !! "Description" with
    | Some product_name, Some description =>
        match classifier_run key service method product_name description
                (hint_of row) w with
        | (Ok res, w1) => (Ok (record_pair results res), w1)
        | (Raise e, w1) => (Raise e, w1)
        end
    | _, _ => (Raise KeyError, w)
    end.
Proof.
  unfold classify_software_row, row_get.
  destruct (row !! "Product Name") as [product_name|]; [|reflexivity].
  destruct (row !! "Description") as [description|]; [|reflexivity].
  unfold mbind at 1 2 3, M_bind at 1 2 3, lift at 1 2. cbv beta iota.
  rewrite hint_run. cbv beta iota.
  unfold mbind at 1, M_bind at 1, classifier_run.
  destruct (String.eqb method "rule-based").
  - unfold lift. destruct (rule_based_classify description (hint_of row)) as [[d s]|e];
      reflexivity.
  - destruct (llm_classify key service product_name description (hint_of row) w)
      as [[[d s]|e] w1]; reflexivity.
Qed.

Lemma fold_each_ind {A S : Type} (body : S -> A -> M S)
    (I : list A -> S -> World -> Prop) :
  (forall pre x acc w acc' w',
     I pre acc w -> body acc x w = (Ok acc', w') -> I (pre ++ [x]) acc' w') ->
  forall rest pre acc w acc' w',
    I pre acc w -> fold_each rest body acc w = (Ok acc', w') ->
    I (pre ++ rest) acc' w'.
Proof.
  intros Hstep. induction rest as [|x rest IH]; intros pre acc w acc' w' Hpre Hrun.
  - cbn in Hrun. injection Hrun as <- <-. by rewrite app_nil_r.
  - cbn [fold_each] in Hrun. unfold mbind, M_bind in Hrun.
    destruct (body acc x w) as [[acc1|e] w1] eqn:Hx; [|discriminate].
    replace (pre ++ x :: rest) with ((pre ++ [x]) ++ rest)
      by (by rewrite <- app_assoc).
    apply (IH _ acc1 w1); [|done]. by apply (Hstep pre x acc w).
Qed.

Lemma domain_tally_snoc d pairs pair :
  domain_tally d (pairs ++ [pair])
  = (domain_tally d pairs + if String.eqb pair.1 d then 1 else 0)%nat.
Proof.
  unfold domain_tally. rewrite List.filter_app, length_app. cbn.
  by destruct (String.eqb pair.1 d).
Qed.

Lemma tallied_record_pair results pair :
  tallied results -> tallied (record_pair results pair).
Proof.
  intros [Hcounts Hunc]. split.
  - intros d. cbn [record_pair Results.domain_counts Results.classifications].
    rewrite domain_tally_snoc. pose proof (Hcounts pair.1) as Hp.
    destruct (String.eqb pair.1 d) eqn:Hd.
    + apply String.eqb_eq in Hd. subst d.
      destruct (Nat.eqb (domain_tally pair.1 (Results.classifications results)) 0) eqn:Hz.
      * apply Nat.eqb_eq in Hz. rewrite Hp, lookup_insert_eq, Hz. done.
      * rewrite Hp, lookup_insert_eq.
        replace (_ + 1)%nat with (S (domain_tally pair.1 (Results.classifications results)))
          by lia.
        done.
    + apply String.eqb_neq in Hd. rewrite Nat.add_0_r, <- Hcounts.
      destruct (Results.domain_counts results !! pair.1); by rewrite lookup_insert_ne.
  - cbn [record_pair Results.unclassified_count Results.classifications].
    rewrite domain_tally_snoc, Hunc.
    destruct (String.eqb pair.1 config.DEFAULT_DOMAIN); lia.
Qed.

Lemma classify_software_unfold key service df method w input :
  frames w !! df = Some input ->
  classify_software key service df method w =
  fold_each (df_rows input) (classify_software_row key service method)
    {| Results.classifications := [];
       Results.domain_counts := ∅;
       Results.unclassified_count := 0 |} w.
Proof.
  intros Hin. unfold classify_software, iterrows, deref, mbind, M_bind. by rewrite Hin.
Qed.

(** The statistics [classify_software] returns are those of the list of
    pairs it returns: a domain is a key of [domain_counts] exactly when some
    pair has it, with the number of such pairs as its value, and
    [unclassified_count] is the number of pairs with the sentinel domain,
    which is the value of that key when it is there. The call changes no
    frame. *)
Theorem classify_software_statistics
    (key : option string) (service : nat -> string -> completion)
    (df : nat) (method : string) (w w' : World) (input : DataFrame)
    (results : Results.t) :
  frames w !! df = Some input ->
  classify_software key service df method w = (Ok results, w') ->
  (forall d,
     Results.domain_counts results !! d =
     if Nat.eqb (domain_tally d (Results.classifications results)) 0
     then None
     else Some (domain_tally d (Results.classifications results)))
  /\ Results.unclassified_count results
     = domain_tally "Unclassified" (Results.classifications results)
  /\ Results.unclassified_count results
     = default 0%nat (Results.domain_counts results !! "Unclassified")
  /\ frames w' = frames w.
Proof.
  intros Hin Hrun. rewrite (classify_software_unfold _ _ _ _ _ _ Hin) in Hrun.
  apply (fold_each_ind (classify_software_row key service method)
           (fun _ acc w1 => tallied acc /\ frames w1 = frames w)) with (pre := [])
    in Hrun.
  - destruct Hrun as [[Hcounts Hunc] Hframes].
    split; [done|]. split; [done|]. split; [|done].
    rewrite Hcounts, Hunc. change config.DEFAULT_DOMAIN with "Unclassified".
    by destruct (Nat.eqb_spec (domain_tally "Unclassified"
                                 (Results.classifications results)) 0) as [->|].
  - intros _ [idx row] acc w1 acc' w1' [Htally Hframes] Hrow.
    rewrite classify_software_row_effect in Hrow.
    destruct (row !! "Product Name") as [product_name|]; [|discriminate].
    destruct (row !! "Description") as [description|]; [|discriminate].
    destruct (classifier_run _ _ _ _ _ _ _) as [[res|e] w2] eqn:Hcl; [|discriminate].
    injection Hrow as <- <-.
    destruct (classifier_run_ok _ _ _ _ _ _ _ _ _ Hcl) as (_ & Hf & _).
    split; [by apply tallied_record_pair | congruence].
  - split; [|done]. split; [|done]. intros d. cbn. apply lookup_empty.
Qed.

Lemma classify_software_statistics_witness :
  let run := classify_software None (fun _ _ => Failed "off") 0 "rule-based"
               sample_world in
  let results :=
    {| Results.classifications :=
         [("Data Management", "Database Platforms"); ("Unclassified", "Unclassified")];
       Results.domain_counts :=
         {[ "Data Management" := 1%nat; "Unclassified" := 1%nat ]};
       Results.unclassified_count := 1 |} in
  run = (Ok results, sample_world)
  /\ Results.unclassified_count results
     = default 0%nat (Results.domain_counts results !! "Unclassified")
  /\ frames run.2 = frames sample_world.
Proof.
  intros run results.
  assert (Hrun : run = (Ok results, sample_world)) by (vm_compute; reflexivity).
  split; [exact Hrun|].
  destruct (classify_software_statistics None (fun _ _ => Failed "off") 0 "rule-based"
              sample_world run.2 sample_frame results) as (_ & _ & Hunc & Hframes).
  - vm_compute. reflexivity.
  - rewrite Hrun. reflexivity.
  - split; [exact Hunc | exact Hframes].
Defined.

(** [classify_software] returns one pair for each record, in the order of
    the records; each pair is valid for the taxonomy, and under the
    rule-based method it is what [rule_based_classify] gives for the record's
    description and hint. *)
Theorem classify_software_classifications
    (key : option string) (service : nat -> string -> completion)
    (df : nat) (method : string) (w w' : World) (input : DataFrame)
    (results : Results.t) :
  frames w !! df = Some input ->
  classify_software key service df method w = (Ok results, w') ->
  length (Results.classifications results) = length (df_rows input)
  /\ Forall2 (fun entry res => classification_of method entry.2 res)
       (df_rows input) (Results.classifications results).
Proof.
  intros Hin Hrun. rewrite (classify_software_unfold _ _ _ _ _ _ Hin) in Hrun.
  apply (fold_each_ind (classify_software_row key service method)
           (fun pre acc _ =>
              Forall2 (fun entry res => classification_of method entry.2 res)
                pre (Results.classifications acc))) with (pre := [])
    in Hrun.
  - split; [|done]. symmetry. by apply Forall2_length in Hrun.
  - intros pre [idx row] acc w1 acc' w1' Hpre Hrow.
    rewrite classify_software_row_effect in Hrow.
    destruct (row !! "Product Name") as [product_name|]; [|discriminate].
    destruct (row !! "Description") as [description|] eqn:Hdesc; [|discriminate].
    destruct (classifier_run _ _ _ _ _ _ _) as [[res|e] w2] eqn:Hcl; [|discriminate].
    injection Hrow as <- <-.
    destruct (classifier_run_ok _ _ _ _ _ _ _ _ _ Hcl) as (Hvalid & _ & Hrule).
    cbn [record_pair Results.classifications]. apply Forall2_app; [done|].
    constructor; [|constructor]. split; [done|].
    intros Hm. exists description. split; [done|]. by apply Hrule.
  - constructor.
Qed.

Lemma classify_software_classifications_witness :
  let run := classify_software (Some "sk-test")
               (fun _ _ => Responded (Some "Security, Encryption")) 0 "llm-based"
               sample_world in
  let results :=
    {| Results.classifications :=
         [("Security", "Encryption"); ("Security", "Encryption")];
       Results.domain_counts := {[ "Security" := 2%nat ]};
       Results.unclassified_count := 0 |} in
  run.1 = Ok results
  /\ length (Results.classifications results) = length (df_rows sample_frame).
Proof.
  intros run results.
  assert (Hrun : run.1 = Ok results) by (vm_compute; reflexivity).
  split; [exact Hrun|].
  refine (proj1 (classify_software_classifications (Some "sk-test")
                   (fun _ _ => Responded (Some "Security, Encryption")) 0 "llm-based"
                   sample_world run.2 sample_frame results _ _)).
  - vm_compute. reflexivity.
  - rewrite <- Hrun. vm_compute. reflexivity.
Defined.

(** ** Frames without the columns the loops read *)

Lemma for_each_raise {A : Type} (body : A -> M unit) x rest e w w' :
  body x w = (Raise e, w') -> for_each (x :: rest) body w = (Raise e, w').
Proof. intros Hx. cbn [for_each]. unfold mbind, M_bind. by rewrite Hx. Qed.

Lemma fold_each_raise {A S : Type} (body : S -> A -> M S) x rest acc e w w' :
  body acc x w = (Raise e, w') -> fold_each (x :: rest) body acc w = (Raise e, w').
Proof. intros Hx. cbn [fold_each]. unfold mbind, M_bind. by rewrite Hx. Qed.

Lemma row_lacks_column (df : DataFrame) idx row c :
  df_wf df -> In (idx, row) (df_rows df) -> ~ In c (df_columns df) ->
  row !! c = None.
Proof.
  intros Hwf Hrow Hc. destruct (row !! c) as [v|] eqn:Hv; [|done].
  destruct Hc. apply (Hwf idx row Hrow c). by exists v.
Qed.

(** A frame that has records but no ['Product Name'] column, or no
    ['Description'] column, makes both [run_classification] and
    [classify_software] raise [KeyError] at the first record, whatever the
    method, before any request is sent or any notice shown; and the frame
    handed in is still as it was. A frame with no records goes through
    both, columns or not. *)
Theorem classification_needs_columns
    (key : option string) (service : nat -> string -> completion)
    (df : nat) (method : string) (w : World) (input : DataFrame) :
  frames w !! df = Some input ->
  df_wf input ->
  ~ In "Product Name" (df_columns input) \/ ~ In "Description" (df_columns input) ->
  let run := run_classification key service df method w in
  let stats := classify_software key service df method w in
  match df_rows input with
  | [] =>
      (exists result_df, run.1 = Ok result_df /\ frames run.2 !! result_df = Some input)
      /\ stats.1 = Ok {| Results.classifications := [];
                         Results.domain_counts := ∅;
                         Results.unclassified_count := 0 |}
  | _ :: _ => run.1 = Raise KeyError /\ stats.1 = Raise KeyError
  end
  /\ frames run.2 !! df = Some input /\ stats.2 = w
  /\ requests run.2 = requests w /\ notices run.2 = notices w.
Proof.
  intros Hin Hwf Hcols run stats. subst run stats.
  rewrite (run_classification_unfold _ _ _ _ _ _ Hin),
          (classify_software_unfold _ _ _ _ _ _ Hin).
  cbv zeta.
  assert (Hfresh : fresh (dom (frames w)) <> df).
  { intros Heq. apply (is_fresh (dom (frames w))). rewrite Heq.
    apply elem_of_dom. by exists input. }
  destruct (df_rows input) as [|[idx row] rest] eqn:Hrows.
  - unfold with_frame. cbn. rewrite lookup_insert_ne by done.
    repeat split; try done. exists (fresh (dom (frames w))).
    by rewrite lookup_insert_eq.
  - assert (Hmiss : row !! "Product Name" = None \/ row !! "Description" = None).
    { assert (Hrow : In (idx, row) (df_rows input)) by (rewrite Hrows; by left).
      destruct Hcols as [Hc|Hc]; [left|right];
        by apply (row_lacks_column input idx row). }
    assert (Hmatch : forall (A : Type) (f : cell -> cell -> A) (a : A),
              match row !! "Product Name", row !! "Description" with
              | Some product_name, Some description => f product_name description
              | _, _ => a
              end = a).
    { intros A f a. destruct Hmiss as [-> | ->]; [done|].
      by destruct (row !! "Product Name"). }
    rewrite (for_each_raise _ _ _ KeyError _ (with_frame (fresh (dom (frames w))) input w))
      by (by rewrite classify_row_effect, Hmatch).
    rewrite (fold_each_raise _ _ _ _ KeyError _ w)
      by (by rewrite classify_software_row_effect, Hmatch).
    unfold with_frame. cbn. rewrite lookup_insert_ne by done. done.
Qed.

Lemma classification_needs_columns_witness :
  let nameless :=
    {| df_columns := ["Description"];
       df_rows := [(0%nat, mk_row [("Description", Str "a database")])] |} in
  let w := {| frames := {[ 0%nat := nameless ]}; notices := []; requests := 0 |} in
  (run_classification None (fun _ _ => Failed "off") 0 "rule-based" w).1 = Raise KeyError
  /\ (classify_software None (fun _ _ => Failed "off") 0 "rule-based" w).1
     = Raise KeyError.
Proof.
  intros nameless w.
  refine (proj1 (classification_needs_columns None (fun _ _ => Failed "off") 0
                   "rule-based" w nameless _ _ _)).
  - vm_compute. reflexivity.
  - apply df_wfb_sound. vm_compute. reflexivity.
  - left. vm_compute. intros [H|[]]. discriminate H.
Defined.

(** ** [clean_data] *)

Example clean_data_ex :
  clean_data raw_frame =
  Ok {| df_columns := ["Product Name"; "Description"; "Category Hint"; "Vendor";
                       "Lifecycle Status"; "TRM Domain"; "TRM Subdomain"; "Risk Flag"];
        df_rows :=
          [ (0%nat, mk_row [("Product Name", Str "pgAdmin");
                            ("Description", Str "PostgreSQL console");
                            ("Category Hint", Str "");
                            ("Vendor", Str "Acme");
                            ("Lifecycle Status", Str "Deprecated");
                            ("TRM Domain", Null); ("TRM Subdomain", Null);
                            ("Risk Flag", Null)]);
            (1%nat, mk_row [("Product Name", Str "Abacus");
                            ("Description", Str "");
                            ("Category Hint", Str "tools");
                            ("Vendor", Null);
                            ("Lifecycle Status", Str "Active");
                            ("TRM Domain", Null); ("TRM Subdomain", Null);
                            ("Risk Flag", Null)]) ] |}.
Proof. vm_compute. reflexivity. Qed.

Lemma setitem_column df c g :
  list_mem c (df_columns df) = true ->
  setitem df c (map g (column df c)) = map_rows (on_cell c g) df.
Proof.
  intros Hc. unfold setitem, map_rows, column. rewrite Hc. f_equal.
  induction (df_rows df) as [|[i row] l IH]; [done|]. cbn. by rewrite <- IH.
Qed.

Lemma column_map_rows f df c :
  column (map_rows f df) c = map (fun e => default Null (f e.2 !! c)) (df_rows df).
Proof.
  unfold column, map_rows. cbn. rewrite map_map. apply map_ext. by intros [i row].
Qed.

Lemma column_on_cell_ne c' g df c :
  c' <> c -> column (map_rows (on_cell c' g) df) c = column df c.
Proof.
  intros Hne. rewrite column_map_rows. unfold column. apply map_ext.
  intros [i row]. cbn. unfold on_cell. by rewrite lookup_insert_ne.
Qed.

Lemma map_rows_compose f g df :
  map_rows f (map_rows g df) = map_rows (fun row => f (g row)) df.
Proof. unfold map_rows. cbn. f_equal. rewrite map_map. done. Qed.

Lemma str_accessor_has_text col :
  str_accessor col = if has_text col then Ok col else Raise AttributeError.
Proof.
  destruct col as [|v l]; [done|]. unfold str_accessor, has_text.
  by destruct (forallb isnull (v :: l)).
Qed.

Lemma str_map_has_text f col :
  str_map f col = if has_text col then Ok (map (str_cell f) col) else Raise AttributeError.
Proof.
  unfold str_map. rewrite str_accessor_has_text. by destruct (has_text col).
Qed.

(** [clean_data] in closed form. *)
Lemma clean_data_cleaned df : clean_data df = cleaned df.
Proof.
  unfold clean_data, cleaned, getitem. cbv zeta.
  destruct (list_mem "Description" (df_columns df)) eqn:Hd; [|reflexivity].
  cbn [mbind result_bind rbind andb].
  change (fillna "" (column df "Description"))
    with (map (fill_null "") (column df "Description")).
  rewrite (setitem_column df "Description" _ Hd).
  cbn [df_columns map_rows].
  destruct (list_mem "Category Hint" (df_columns df)) eqn:Hh; [|reflexivity].
  cbn [mbind result_bind rbind andb].
  rewrite (column_on_cell_ne "Description" _ df "Category Hint") by done.
  change (fillna "" (column df "Category Hint"))
    with (map (fill_null "") (column df "Category Hint")).
  rewrite <- (column_on_cell_ne "Description" (fill_null "") df "Category Hint") by done.
  rewrite (setitem_column (map_rows _ df) "Category Hint" _ Hh).
  rewrite map_rows_compose. cbn [df_columns map_rows].
  destruct (list_mem "Product Name" (df_columns df)) eqn:Hp; [|reflexivity].
  cbn [mbind result_bind rbind andb].
  rewrite str_map_has_text.
  assert (Hcol : forall c, c <> "Description" -> c <> "Category Hint" ->
            column (map_rows (fun row => on_cell "Category Hint" (fill_null "")
                                           (on_cell "Description" (fill_null "") row)) df) c
            = column df c).
  { intros c H1 H2. rewrite column_map_rows. unfold column. apply map_ext.
    intros [i row]. cbn. unfold on_cell. by rewrite !lookup_insert_ne. }
  rewrite (Hcol "Product Name") by done.
  destruct (has_text (column df "Product Name")) eqn:Htp; [|reflexivity].
  cbn [mbind result_bind rbind].
  rewrite <- (Hcol "Product Name") by done.
  rewrite (setitem_column (map_rows _ df) "Product Name" _ Hp).
  rewrite map_rows_compose. cbn [df_columns map_rows].
  destruct (list_mem "Lifecycle Status" (df_columns df)) eqn:Hl; [|reflexivity].
  cbn [mbind result_bind rbind].
  rewrite str_map_has_text.
  assert (Hcol' : column (map_rows (fun row => on_cell "Product Name" (str_cell PyStr.strip)
                                      (on_cell "Category Hint" (fill_null "")
                                         (on_cell "Description" (fill_null "") row))) df)
                    "Lifecycle Status"
                  = column df "Lifecycle Status").
  { rewrite column_map_rows. unfold column. apply map_ext.
    intros [i row]. cbn. unfold on_cell. by rewrite !lookup_insert_ne. }
  rewrite Hcol'.
  destruct (has_text (column df "Lifecycle Status")) eqn:Htl; [|reflexivity].
  cbn [mbind result_bind rbind]. rewrite map_map.
  change (fun x => map_status (str_cell PyStr.lower x)) with clean_status.
  rewrite <- Hcol'.
  rewrite (setitem_column (map_rows _ df) "Lifecycle Status" clean_status Hl).
  by rewrite map_rows_compose.
Qed.

Lemma list_mem_app c l1 l2 : list_mem c (l1 ++ l2) = list_mem c l1 || list_mem c l2.
Proof. unfold list_mem. apply existsb_app. Qed.

Lemma add_column_columns c col df :
  list_mem c (df_columns (add_column col df))
  = list_mem c (df_columns df) || String.eqb c col.
Proof.
  unfold add_column. destruct (list_mem col (df_columns df)) eqn:Hcol; cbn [df_columns].
  - destruct (String.eqb_spec c col) as [->|]; [|by rewrite orb_false_r].
    by rewrite Hcol.
  - rewrite list_mem_app. cbn. by rewrite orb_false_r.
Qed.

Lemma add_columns_columns c cols df :
  list_mem c (df_columns (add_columns cols df))
  = list_mem c (df_columns df) || list_mem c cols.
Proof.
  revert df. induction cols as [|col cols IH]; intros df.
  - cbn. by rewrite orb_false_r.
  - change (add_columns (col :: cols) df) with (add_columns cols (add_column col df)).
    rewrite IH, add_column_columns. cbn. by rewrite orb_assoc.
Qed.

Lemma add_columns_lookup cols df k idx row' :
  df_rows (add_columns cols df) !! k = Some (idx, row') ->
  exists row,
    df_rows df !! k = Some (idx, row)
    /\ forall c, row' !! c =
         if list_mem c cols && negb (list_mem c (df_columns df))
         then Some Null else row !! c.
Proof.
  revert df row'. induction cols as [|col cols IH]; intros df row' Hk.
  - exists row'. split; [done|]. done.
  - change (add_columns (col :: cols) df) with (add_columns cols (add_column col df)) in Hk.
    destruct (IH _ _ Hk) as (row1 & Hk1 & Hrow1).
    rewrite add_column_rows, list_lookup_fmap in Hk1.
    destruct (df_rows df !! k) as [[i row]|] eqn:Hk0; [|done].
    cbn in Hk1. injection Hk1 as -> <-.
    exists row. split; [done|]. intros c. rewrite Hrow1, add_column_columns.
    unfold fill_column.
    change (list_mem c (col :: cols)) with (String.eqb c col || list_mem c cols).
    destruct (String.eqb_spec c col) as [->|Hne].
    + rewrite orb_true_r, andb_false_r. cbn [orb andb].
      destruct (list_mem col (df_columns df)) eqn:Hcol; cbn [negb]; [done|].
      by rewrite lookup_insert_eq.
    + rewrite orb_false_r. cbn [orb].
      destruct (list_mem c cols && negb (list_mem c (df_columns df))); [done|].
      destruct (list_mem col (df_columns df)); [done|].
      by rewrite lookup_insert_ne.
Qed.

Lemma clean_row_lookup lifecycle row :
  clean_row lifecycle row !! "Description"
    = Some (fill_null "" (default Null (row !! "Description")))
  /\ clean_row lifecycle row !! "Category Hint"
    = Some (fill_null "" (default Null (row !! "Category Hint")))
  /\ clean_row lifecycle row !! "Product Name"
    = Some (str_cell PyStr.strip (default Null (row !! "Product Name")))
  /\ (lifecycle = true ->
      clean_row lifecycle row !! "Lifecycle Status"
      = Some (clean_status (default Null (row !! "Lifecycle Status"))))
  /\ forall c, ~ In c ["Description"; "Category Hint"; "Product Name"; "Lifecycle Status"] ->
       clean_row lifecycle row !! c = row !! c.
Proof.
  unfold clean_row, on_cell. cbv zeta.
  destruct lifecycle;
    repeat split;
    try (intros Hl; first [discriminate Hl | clear Hl]);
    try (intros c Hc);
    repeat (first [ rewrite lookup_insert_eq
                  | rewrite lookup_insert_ne by done
                  | rewrite lookup_insert_ne by (intros <-; apply Hc; cbn; tauto) ]);
    try reflexivity; try discriminate.
Qed.

Lemma clean_data_ok df c :
  clean_data df = Ok c ->
  list_mem "Description" (df_columns df) = true
  /\ list_mem "Category Hint" (df_columns df) = true
  /\ list_mem "Product Name" (df_columns df) = true
  /\ has_text (column df "Product Name") = true
  /\ (list_mem "Lifecycle Status" (df_columns df) = true ->
      has_text (column df "Lifecycle Status") = true)
  /\ c = add_columns ["TRM Domain"; "TRM Subdomain"; "Risk Flag"]
           (map_rows (clean_row (list_mem "Lifecycle Status" (df_columns df))) df).
Proof.
  rewrite clean_data_cleaned. unfold cleaned.
  destruct (list_mem "Description" (df_columns df)); [|discriminate].
  destruct (list_mem "Category Hint" (df_columns df)); [|discriminate].
  destruct (list_mem "Product Name" (df_columns df)); [|discriminate].
  cbn [andb].
  destruct (has_text (column df "Product Name")); [|discriminate].
  destruct (list_mem "Lifecycle Status" (df_columns df)).
  - destruct (has_text (column df "Lifecycle Status")); [|discriminate].
    intros [= <-]. done.
  - intros [= <-]. done.
Qed.

Lemma clean_status_known v :
  exists s, clean_status v = Str s /\ In s config.LIFECYCLE_STATUSES.
Proof.
  unfold clean_status, map_status, status_mapping.
  destruct v as [|s0]; cbn [str_cell dict_lookup].
  - exists "Active". cbn. tauto.
  - destruct (String.eqb "active" (PyStr.lower s0)); [exists "Active"; cbn; tauto|].
    destruct (String.eqb "deprecated" (PyStr.lower s0)); [exists "Deprecated"; cbn; tauto|].
    destruct (String.eqb "beta" (PyStr.lower s0)); [exists "Beta"; cbn; tauto|].
    destruct (String.eqb "planned" (PyStr.lower s0)); [exists "Planned"; cbn; tauto|].
    exists "Active". cbn. tauto.
Qed.

Lemma clean_status_case s0 known :
  In known config.LIFECYCLE_STATUSES ->
  PyStr.lower s0 = PyStr.lower known ->
  clean_status (Str s0) = Str known.
Proof.
  intros Hin Hlow. unfold clean_status. cbn [str_cell]. rewrite Hlow.
  cbn in Hin. destruct Hin as [<-|[<-|[<-|[<-|[]]]]]; reflexivity.
Qed.

Lemma clean_status_unknown s0 :
  (forall known, In known config.LIFECYCLE_STATUSES ->
                 PyStr.lower s0 <> PyStr.lower known) ->
  clean_status (Str s0) = Str "Active".
Proof.
  intros Hunknown. unfold clean_status, map_status, status_mapping.
  cbn [str_cell dict_lookup].
  destruct (String.eqb_spec "active" (PyStr.lower s0)) as [Heq|_]; [done|].
  destruct (String.eqb_spec "deprecated" (PyStr.lower s0)) as [Heq|_].
  { destruct (Hunknown "Deprecated"); [cbn; tauto | by rewrite <- Heq]. }
  destruct (String.eqb_spec "beta" (PyStr.lower s0)) as [Heq|_].
  { destruct (Hunknown "Beta"); [cbn; tauto | by rewrite <- Heq]. }
  destruct (String.eqb_spec "planned" (PyStr.lower s0)) as [Heq|_].
  { destruct (Hunknown "Planned"); [cbn; tauto | by rewrite <- Heq]. }
  done.
Qed.

(** What [clean_data] returns holds the records of the frame it was given,
    one for one, with the same index labels and in the same order, and the
    frame's columns with the three result columns added where they were
    missing. In every record the description and the category hint are
    text: the empty string where they were missing, what they were
    otherwise; the product name is trimmed, and stays missing where it was;
    the lifecycle status, if the frame has that column, is one of
    [LIFECYCLE_STATUSES]: the one that the old value spells up to letter
    case, and ["Active"] for a missing value and for any text that spells
    none of them; every other column of the frame is as it was, a missing
    vendor included; an added column is empty. *)
Theorem clean_data_normalises (df c : DataFrame) :
  clean_data df = Ok c ->
  length (df_rows c) = length (df_rows df)
  /\ (forall col,
        In col (df_columns c) <->
        In col (df_columns df) \/ In col ["TRM Domain"; "TRM Subdomain"; "Risk Flag"])
  /\ forall k idx row,
       df_rows c !! k = Some (idx, row) ->
       exists row_in,
         df_rows df !! k = Some (idx, row_in)
         /\ (exists d, row !! "Description" = Some (Str d)
                       /\ (forall d0, row_in !! "Description" = Some (Str d0) -> d = d0)
                       /\ (row_in !! "Description" = Some Null -> d = ""))
         /\ (exists h, row !! "Category Hint" = Some (Str h)
                       /\ (forall h0, row_in !! "Category Hint" = Some (Str h0) -> h = h0)
                       /\ (row_in !! "Category Hint" = Some Null -> h = ""))
         /\ ((forall n0, row_in !! "Product Name" = Some (Str n0) ->
                         row !! "Product Name" = Some (Str (PyStr.strip n0)))
             /\ (row_in !! "Product Name" = Some Null ->
                 row !! "Product Name" = Some Null))
         /\ (In "Lifecycle Status" (df_columns df) ->
             exists s, row !! "Lifecycle Status" = Some (Str s)
                       /\ In s config.LIFECYCLE_STATUSES
                       /\ (forall s0 known,
                             row_in !! "Lifecycle Status" = Some (Str s0) ->
                             In known config.LIFECYCLE_STATUSES ->
                             PyStr.lower s0 = PyStr.lower known -> s = known)
                       /\ (forall s0,
                             row_in !! "Lifecycle Status" = Some (Str s0) ->
                             (forall known, In known config.LIFECYCLE_STATUSES ->
                                            PyStr.lower s0 <> PyStr.lower known) ->
                             s = "Active")
                       /\ (row_in !! "Lifecycle Status" = Some Null -> s = "Active"))
         /\ (forall col,
               In col (df_columns df) ->
               ~ In col ["Description"; "Category Hint"; "Product Name"; "Lifecycle Status"] ->
               row !! col = row_in !! col)
         /\ (forall col,
               In col ["TRM Domain"; "TRM Subdomain"; "Risk Flag"] ->
               ~ In col (df_columns df) ->
               row !! col = Some Null).
Proof.
  intros Hclean.
  destruct (clean_data_ok _ _ Hclean) as (Hd & Hh & Hp & _ & _ & ->).
  set (lifecycle := list_mem "Lifecycle Status" (df_columns df)).
  set (added := ["TRM Domain"; "TRM Subdomain"; "Risk Flag"]).
  assert (Hrow : forall k idx row,
            df_rows (add_columns added (map_rows (clean_row lifecycle) df)) !! k
              = Some (idx, row) ->
            exists row_in,
              df_rows df !! k = Some (idx, row_in)
              /\ forall col, row !! col =
                   if list_mem col added && negb (list_mem col (df_columns df))
                   then Some Null else clean_row lifecycle row_in !! col).
  { intros k idx row Hk. destruct (add_columns_lookup _ _ _ _ _ Hk) as (row1 & Hk1 & Hrow1).
    cbn [map_rows df_rows] in Hk1. rewrite list_lookup_fmap in Hk1.
    destruct (df_rows df !! k) as [[i row_in]|] eqn:Hk0; [|done].
    cbn in Hk1. injection Hk1 as -> <-. exists row_in. split; [done|]. apply Hrow1. }
  split; [|split].
  - apply Nat.le_antisymm.
    + destruct (Nat.le_gt_cases (length (df_rows (add_columns added
                  (map_rows (clean_row lifecycle) df)))) (length (df_rows df)))
        as [|Hlt]; [done|].
      destruct (lookup_lt_is_Some_2 _ _ Hlt) as [[idx row] Hk].
      destruct (Hrow _ _ _ Hk) as (row_in & Hk0 & _).
      apply lookup_lt_Some in Hk0. lia.
    + clear Hrow. subst added. unfold add_columns. cbn [fold_left].
      rewrite !add_column_rows, !length_map. cbn [map_rows df_rows].
      by rewrite length_map.
  - intros col. split.
    + intros Hin. apply In_list_mem in Hin. rewrite add_columns_columns in Hin.
      apply orb_true_iff in Hin as [Hin|Hin]; [left|right]; by apply list_mem_In.
    + intros Hin. apply list_mem_In. rewrite add_columns_columns.
      apply orb_true_iff. destruct Hin as [Hin|Hin]; [left|right]; by apply In_list_mem.
  - intros k idx row Hk. destruct (Hrow _ _ _ Hk) as (row_in & Hk0 & Hcells).
    exists row_in. split; [done|].
    destruct (clean_row_lookup lifecycle row_in) as (Hcd & Hch & Hcp & Hcl & Hco).
    split; [|split; [|split; [|split; [|split]]]].
    + rewrite Hcells, Hd, Hcd. cbn [negb andb].
      rewrite andb_false_r.
      destruct (row_in !! "Description") as [[|d0]|]; cbn; eexists;
        (split; [reflexivity|]); (split; [intros ? Heq | intros Heq]);
        first [discriminate Heq | by injection Heq as <- | done].
    + rewrite Hcells, Hh, Hch. rewrite andb_false_r.
      destruct (row_in !! "Category Hint") as [[|h0]|]; cbn; eexists;
        (split; [reflexivity|]); (split; [intros ? Heq | intros Heq]);
        first [discriminate Heq | by injection Heq as <- | done].
    + rewrite Hcells, Hp, Hcp. rewrite andb_false_r.
      split; [intros n0 Heq | intros Heq]; by rewrite Heq.
    + intros Hl. apply In_list_mem in Hl. fold lifecycle in Hl.
      rewrite Hcells. cbn. rewrite (Hcl Hl).
      destruct (clean_status_known (default Null (row_in !! "Lifecycle Status")))
        as (s & Hs & Hin).
      exists s. rewrite Hs. split; [done|]. split; [done|]. split; [|split].
      * intros s0 known Hs0 Hknown Hlow. rewrite Hs0 in Hs.
        change (clean_status (Str s0) = Str s) in Hs.
        rewrite (clean_status_case s0 known Hknown Hlow) in Hs. congruence.
      * intros s0 Hs0 Hunknown. rewrite Hs0 in Hs.
        change (clean_status (Str s0) = Str s) in Hs.
        rewrite (clean_status_unknown s0 Hunknown) in Hs. congruence.
      * intros Hnull. rewrite Hnull in Hs.
        change (Str "Active" = Str s) in Hs. congruence.
    + intros col Hcol Hnot. rewrite Hcells, (In_list_mem _ _ Hcol), andb_false_r.
      by apply Hco.
    + intros col Hcol Hnot. rewrite Hcells, (In_list_mem _ _ Hcol).
      destruct (list_mem col (df_columns df)) eqn:Hm; [|done].
      destruct Hnot. by apply list_mem_In.
Qed.

Lemma clean_data_normalises_witness :
  exists c, clean_data raw_frame = Ok c
            /\ length (df_rows c) = length (df_rows raw_frame).
Proof.
  destruct (clean_data raw_frame) as [c|e] eqn:Hc; [|vm_compute in Hc; discriminate].
  exists c. split; [reflexivity|].
  exact (proj1 (clean_data_normalises raw_frame c Hc)).
Defined.

(** ** Cleaning twice *)

Lemma rstrip_cons c r :
  PyStr.rstrip (String c r) =
  match PyStr.rstrip r with
  | EmptyString => if PyStr.is_space c then EmptyString else String c EmptyString
  | String c' t => String c (String c' t)
  end.
Proof. reflexivity. Qed.

Lemma rstrip_idem s : PyStr.rstrip (PyStr.rstrip s) = PyStr.rstrip s.
Proof.
  induction s as [|c r IH]; [done|]. rewrite rstrip_cons.
  destruct (PyStr.rstrip r) as [|c' t] eqn:Hr.
  - destruct (PyStr.is_space c) eqn:Hc; [done|]. rewrite rstrip_cons. cbn. by rewrite Hc.
  - rewrite rstrip_cons, IH. done.
Qed.

Lemma rstrip_head c r :
  PyStr.is_space c = false -> exists t, PyStr.rstrip (String c r) = String c t.
Proof.
  intros Hc. rewrite rstrip_cons. destruct (PyStr.rstrip r) as [|c' t].
  - rewrite Hc. by eexists.
  - by eexists.
Qed.

Lemma lstrip_head s :
  PyStr.lstrip s = EmptyString
  \/ exists c r, PyStr.lstrip s = String c r /\ PyStr.is_space c = false.
Proof.
  induction s as [|c r IH]; [by left|]. cbn [PyStr.lstrip].
  destruct (PyStr.is_space c) eqn:Hc; [done|]. right. by exists c, r.
Qed.

Lemma strip_idem s : PyStr.strip (PyStr.strip s) = PyStr.strip s.
Proof.
  unfold PyStr.strip. destruct (lstrip_head s) as [->|(c & r & -> & Hc)]; [done|].
  destruct (rstrip_head c r Hc) as [t Ht]. rewrite Ht.
  cbn [PyStr.lstrip]. rewrite Hc, <- Ht. apply rstrip_idem.
Qed.

Lemma clean_status_idem v : clean_status (clean_status v) = clean_status v.
Proof.
  destruct (clean_status_known v) as (s & -> & Hin). by apply clean_status_case.
Qed.

Lemma fill_null_idem s v : fill_null s (fill_null s v) = fill_null s v.
Proof. by destruct v. Qed.

Lemma has_text_spec col :
  has_text col = true <-> col = [] \/ exists s, In (Str s) col.
Proof.
  destruct col as [|v l]; [cbn; tauto|]. unfold has_text.
  rewrite negb_true_iff. split.
  - intros Hall. right.
    destruct (existsb (fun x => negb (isnull x)) (v :: l)) eqn:Hex.
    + apply existsb_exists in Hex as ([|s] & Hin & Hx); [done|]. by exists s.
    + assert (Hno : forallb isnull (v :: l) = true); [|congruence].
      apply forallb_forall. intros x Hx.
      destruct (isnull x) eqn:Hnx; [done|].
      assert (Hy : existsb (fun x => negb (isnull x)) (v :: l) = true); [|congruence].
      apply existsb_exists. exists x. by rewrite Hnx.
  - intros [Hnil|(s & Hin)]; [done|].
    destruct (forallb isnull (v :: l)) eqn:Hall; [|done].
    by rewrite forallb_forall in Hall; specialize (Hall _ Hin).
Qed.

Lemma add_columns_present cols df :
  (forall col, In col cols -> list_mem col (df_columns df) = true) ->
  add_columns cols df = df.
Proof.
  induction cols as [|col cols IH]; intros Hall; [done|].
  change (add_columns (col :: cols) df) with (add_columns cols (add_column col df)).
  assert (Hcol : add_column col df = df).
  { unfold add_column. rewrite Hall; [done|by left]. }
  rewrite Hcol. apply IH. intros c Hc. apply Hall. by right.
Qed.

Lemma map_rows_id f df :
  (forall e, In e (df_rows df) -> f e.2 = e.2) -> map_rows f df = df.
Proof.
  intros Hfix. destruct df as [cols rows]. unfold map_rows. cbn in *. f_equal.
  induction rows as [|[i row] rows IH]; [done|]. cbn [map fst snd].
  pose proof (Hfix (i, row) (or_introl eq_refl)) as Hrow. cbn in Hrow.
  rewrite Hrow. f_equal. apply IH.
  intros e He. apply Hfix. by right.
Qed.

Lemma add_columns_rows cols df :
  exists g : Series -> Series,
    df_rows (add_columns cols df) = map (fun e => (e.1, g e.2)) (df_rows df)
    /\ forall row c, g row !! c =
         if list_mem c cols && negb (list_mem c (df_columns df))
         then Some Null else row !! c.
Proof.
  revert df. induction cols as [|col cols IH]; intros df.
  - exists (fun row => row). split; [|done].
    cbn. induction (df_rows df) as [|[i row] l IHl]; [done|]. cbn. by rewrite <- IHl.
  - change (add_columns (col :: cols) df) with (add_columns cols (add_column col df)).
    destruct (IH (add_column col df)) as (g & Hrows & Hg).
    exists (fun row => g (fill_column col df row)). split.
    + rewrite Hrows, add_column_rows, map_map. done.
    + intros row c. rewrite Hg, add_column_columns. unfold fill_column.
      change (list_mem c (col :: cols)) with (String.eqb c col || list_mem c cols).
      destruct (String.eqb_spec c col) as [->|Hne].
      * rewrite orb_true_r, andb_false_r. cbn [orb andb].
        destruct (list_mem col (df_columns df)) eqn:Hcol; cbn [negb]; [done|].
        by rewrite lookup_insert_eq.
      * rewrite orb_false_r. cbn [orb].
        destruct (list_mem c cols && negb (list_mem c (df_columns df))); [done|].
        destruct (list_mem col (df_columns df)); [done|].
        by rewrite lookup_insert_ne.
Qed.

(** The rows of a cleaned frame. *)
Lemma cleaned_rows lifecycle df :
  exists g : Series -> Series,
    df_rows (add_columns ["TRM Domain"; "TRM Subdomain"; "Risk Flag"]
               (map_rows (clean_row lifecycle) df))
    = map (fun e => (e.1, g e.2)) (df_rows df)
    /\ forall row c, g row !! c =
         if list_mem c ["TRM Domain"; "TRM Subdomain"; "Risk Flag"]
            && negb (list_mem c (df_columns df))
         then Some Null else clean_row lifecycle row !! c.
Proof.
  destruct (add_columns_rows ["TRM Domain"; "TRM Subdomain"; "Risk Flag"]
              (map_rows (clean_row lifecycle) df)) as (g & Hrows & Hg).
  exists (fun row => g (clean_row lifecycle row)). split.
  - rewrite Hrows. cbn [map_rows df_rows]. by rewrite map_map.
  - intros row c. apply Hg.
Qed.

Lemma has_text_map g col :
  (forall v, isnull (g v) = isnull v) -> has_text (map g col) = has_text col.
Proof.
  intros Hg. destruct col as [|v l]; [done|]. unfold has_text. cbn [map].
  f_equal. cbn [forallb]. rewrite Hg. f_equal.
  induction l as [|x l IH]; [done|]. cbn. by rewrite Hg, IH.
Qed.

Lemma has_text_all_text col :
  (forall v, In v col -> isnull v = false) -> has_text col = true.
Proof.
  intros Hall. destruct col as [|v l]; [done|]. unfold has_text. cbn [forallb].
  rewrite (Hall v) by (by left). done.
Qed.

Lemma clean_row_false_other row c :
  ~ In c ["Description"; "Category Hint"; "Product Name"] ->
  clean_row false row !! c = row !! c.
Proof.
  intros Hc. unfold clean_row, on_cell. cbv zeta.
  rewrite !lookup_insert_ne; [done| | |]; intros <-; apply Hc; cbn; tauto.
Qed.

Lemma cleaned_row_fixed lifecycle (g : Series -> Series) (df : DataFrame) row :
  (forall row c, g row !! c =
     if list_mem c ["TRM Domain"; "TRM Subdomain"; "Risk Flag"]
        && negb (list_mem c (df_columns df))
     then Some Null else clean_row lifecycle row !! c) ->
  clean_row lifecycle (g row) = g row.
Proof.
  intros Hg. apply map_eq. intros x.
  destruct (clean_row_lookup lifecycle (g row)) as (Hcd & Hch & Hcp & Hcl & Hco).
  destruct (clean_row_lookup lifecycle row) as (Hcd' & Hch' & Hcp' & Hcl' & _).
  destruct (decide (x = "Description")) as [->|Hx1].
  { rewrite Hcd, Hg. cbn [list_mem existsb String.eqb Ascii.eqb Bool.eqb orb andb].
    rewrite Hcd'. cbn. by rewrite fill_null_idem. }
  destruct (decide (x = "Category Hint")) as [->|Hx2].
  { rewrite Hch, Hg. cbn [list_mem existsb String.eqb Ascii.eqb Bool.eqb orb andb].
    rewrite Hch'. cbn. by rewrite fill_null_idem. }
  destruct (decide (x = "Product Name")) as [->|Hx3].
  { rewrite Hcp, Hg. cbn [list_mem existsb String.eqb Ascii.eqb Bool.eqb orb andb].
    rewrite Hcp'. cbn.
    destruct (default Null (row !! "Product Name")) as [|s]; [done|].
    cbn. by rewrite strip_idem. }
  destruct (decide (x = "Lifecycle Status")) as [->|Hx4].
  { destruct lifecycle.
    - rewrite (Hcl eq_refl), Hg.
      cbn [list_mem existsb String.eqb Ascii.eqb Bool.eqb orb andb].
      rewrite (Hcl' eq_refl). cbn. by rewrite clean_status_idem.
    - apply clean_row_false_other. cbn. intros [H|[H|[H|[]]]]; discriminate H. }
  apply Hco. cbn. intros [H|[H|[H|[H|[]]]]]; congruence.
Qed.

(** Cleaning a frame that [clean_data] returned gives the same frame
    again. *)
Theorem clean_data_idempotent (df c : DataFrame) :
  clean_data df = Ok c -> clean_data c = Ok c.
Proof.
  intros Hclean.
  destruct (clean_data_ok _ _ Hclean) as (Hd & Hh & Hp & Htp & Htl & Hc).
  destruct (cleaned_rows (list_mem "Lifecycle Status" (df_columns df)) df)
    as (g & Hrows & Hg).
  rewrite <- Hc in Hrows.
  assert (Hcols : forall x, list_mem x (df_columns c)
            = list_mem x (df_columns df)
              || list_mem x ["TRM Domain"; "TRM Subdomain"; "Risk Flag"]).
  { intros x. rewrite Hc, add_columns_columns. done. }
  assert (Hcol : forall x, column c x
            = map (fun e => default Null (g e.2 !! x)) (df_rows df)).
  { intros x. unfold column. rewrite Hrows, map_map. apply map_ext. by intros [i row]. }
  assert (Hpn : has_text (column c "Product Name") = true).
  { assert (Heq : column c "Product Name"
                  = map (str_cell PyStr.strip) (column df "Product Name")).
    { rewrite Hcol. unfold column. rewrite map_map. apply map_ext. intros [i row].
      cbn [snd]. rewrite Hg.
      cbn [list_mem existsb String.eqb Ascii.eqb Bool.eqb orb andb].
      destruct (clean_row_lookup (list_mem "Lifecycle Status" (df_columns df)) row)
        as (_ & _ & Hcp & _).
      by rewrite Hcp. }
    rewrite Heq, has_text_map; [done|]. by intros [|s]. }
  assert (Hfixed : map_rows (clean_row (list_mem "Lifecycle Status" (df_columns df))) c = c).
  { apply map_rows_id. intros e He. rewrite Hrows in He.
    apply in_map_iff in He as ([i row_in] & <- & _). cbn [snd].
    by apply (cleaned_row_fixed _ g df). }
  assert (Hadded : forall f,
            add_columns ["TRM Domain"; "TRM Subdomain"; "Risk Flag"] (map_rows f c)
            = map_rows f c).
  { intros f. apply add_columns_present. intros col Hin. cbn [map_rows df_columns].
    rewrite Hcols. apply orb_true_iff. right. by apply In_list_mem. }
  rewrite clean_data_cleaned. unfold cleaned.
  rewrite !Hcols, Hd, Hh, Hp, Hpn. cbn [orb andb].
  cbn [list_mem existsb String.eqb Ascii.eqb Bool.eqb orb]. rewrite orb_false_r.
  destruct (list_mem "Lifecycle Status" (df_columns df)) eqn:HL.
  - assert (Hls : has_text (column c "Lifecycle Status") = true).
    { apply has_text_all_text. intros v Hv. rewrite Hcol in Hv.
      apply in_map_iff in Hv as ([i row] & <- & _). cbn [snd]. rewrite Hg.
      cbn [list_mem existsb String.eqb Ascii.eqb Bool.eqb orb andb].
      destruct (clean_row_lookup true row) as (_ & _ & _ & Hcl & _).
      rewrite (Hcl eq_refl). cbn.
      by destruct (clean_status_known (default Null (row !! "Lifecycle Status")))
        as (s & -> & _). }
    rewrite Hls, Hadded, Hfixed. done.
  - rewrite Hadded, Hfixed. done.
Qed.

Lemma clean_data_idempotent_witness :
  exists c, clean_data raw_frame = Ok c /\ clean_data c = Ok c.
Proof.
  destruct (clean_data raw_frame) as [c|e] eqn:Hc; [|vm_compute in Hc; discriminate].
  exists c. split; [reflexivity|].
  exact (clean_data_idempotent raw_frame c Hc).
Defined.

(** ** The columns [clean_data] needs *)

(** [clean_data] raises [KeyError] exactly when the frame lacks one of the
    columns ['Description'], ['Category Hint'] and ['Product Name'], records
    or no records; ['Lifecycle Status'] and ['Vendor'] may be missing. It
    returns a frame when the three columns are there and the frame has no
    record, or some product name is text and, where there is a
    ['Lifecycle Status'] column, some status is text. *)
Theorem clean_data_required_columns (df : DataFrame) :
  (clean_data df = Raise KeyError <->
   ~ (In "Description" (df_columns df)
      /\ In "Category Hint" (df_columns df)
      /\ In "Product Name" (df_columns df)))
  /\ (In "Description" (df_columns df) ->
      In "Category Hint" (df_columns df) ->
      In "Product Name" (df_columns df) ->
      df_rows df = []
      \/ ((exists s, In (Str s) (column df "Product Name"))
          /\ (In "Lifecycle Status" (df_columns df) ->
              exists s, In (Str s) (column df "Lifecycle Status"))) ->
      exists c, clean_data df = Ok c).
Proof.
  rewrite clean_data_cleaned. unfold cleaned. split.
  - split.
    + intros Hraise (Hd & Hh & Hp).
      rewrite !In_list_mem in Hraise by done. cbn [andb] in Hraise.
      destruct (has_text (column df "Product Name")); [|discriminate].
      destruct (list_mem "Lifecycle Status" (df_columns df)); [|discriminate].
      destruct (has_text (column df "Lifecycle Status")); discriminate.
    + intros Hnot.
      destruct (list_mem "Description" (df_columns df)) eqn:Hd; [|done].
      destruct (list_mem "Category Hint" (df_columns df)) eqn:Hh; [|done].
      destruct (list_mem "Product Name" (df_columns df)) eqn:Hp; [|done].
      destruct Hnot. repeat split; by apply list_mem_In.
  - intros Hd Hh Hp Htext. rewrite !In_list_mem by done. cbn [andb].
    assert (Hpn : has_text (column df "Product Name") = true).
    { apply has_text_spec. destruct Htext as [Hnil|[Hs _]]; [left|by right].
      unfold column. by rewrite Hnil. }
    rewrite Hpn.
    destruct (list_mem "Lifecycle Status" (df_columns df)) eqn:Hl; [|by eexists].
    assert (Hls : has_text (column df "Lifecycle Status") = true).
    { apply has_text_spec. destruct Htext as [Hnil|[_ Hs]]; [left|right].
      - unfold column. by rewrite Hnil.
      - apply Hs. by apply list_mem_In. }
    rewrite Hls. by eexists.
Qed.

Lemma clean_data_required_columns_witness :
  exists c, clean_data raw_frame = Ok c.
Proof.
  refine (proj2 (clean_data_required_columns raw_frame) _ _ _ _).
  - vm_compute. tauto.
  - vm_compute. tauto.
  - vm_compute. tauto.
  - right. split.
    + exists "  pgAdmin ". vm_compute. tauto.
    + intros _. exists "DEPRECATED". vm_compute. tauto.
Defined.

(** ** The risk level of a cleaned record *)

Lemma risk_by_precedence_cleaned row :
  row !! "Lifecycle Status" = None
  \/ (exists s, row !! "Lifecycle Status" = Some (Str s)
                /\ In s config.LIFECYCLE_STATUSES) ->
  (risk_by_precedence vendor_blank row = "High-Risk" <->
   row !! "Lifecycle Status" = Some (Str "Deprecated")
   \/ vendor_blank row = true
   \/ row !! "TRM Domain" = Some (Str "Unclassified"))
  /\ (risk_by_precedence vendor_blank row = "Medium-Risk" <->
      row !! "Lifecycle Status" = Some (Str "Beta")
      /\ vendor_blank row = false
      /\ row !! "TRM Domain" <> Some (Str "Unclassified"))
  /\ (risk_by_precedence vendor_blank row = "Normal" <->
      row !! "Lifecycle Status" <> Some (Str "Deprecated")
      /\ row !! "Lifecycle Status" <> Some (Str "Beta")
      /\ vendor_blank row = false
      /\ row !! "TRM Domain" <> Some (Str "Unclassified")).
Proof.
  intros Hstatus. unfold risk_by_precedence, lifecycle_equals, domain_is_sentinel.
  change config.DEFAULT_DOMAIN with "Unclassified".
  destruct Hstatus as [->|(s & -> & Hin)].
  - destruct (vendor_blank row); try case_bool_decide;
      (repeat split; intros; try discriminate; try tauto; try intuition congruence).
  - cbn in Hin. destruct Hin as [<-|[<-|[<-|[<-|[]]]]];
      repeat match goal with
             | |- context [String.eqb (PyStr.lower ?s) ?t] =>
                 let b := eval vm_compute in (String.eqb (PyStr.lower s) t) in
                 change (String.eqb (PyStr.lower s) t) with b
             end;
      cbv iota;
      destruct (vendor_blank row); try case_bool_decide;
      (repeat split; intros; try discriminate; try tauto; try intuition congruence).
Qed.

(** On every record of a frame that [clean_data] returned, [flag_risk]
    gives a level and does not raise; and so it does on the record with
    anything at all in its two classification fields, which are all that
    [run_classification] writes. The level is ["High-Risk"] exactly when the
    status is ["Deprecated"], or the vendor is missing or blank, or the
    domain is ["Unclassified"]; it is ["Medium-Risk"] exactly when none of
    these holds and the status is ["Beta"], and ["Normal"] in every other
    case. The status is compared as it stands, the cleaning having spelled
    it out. *)
Theorem flag_risk_on_cleaned_records (raw c : DataFrame) :
  df_wf raw ->
  clean_data raw = Ok c ->
  forall idx row row',
    In (idx, row) (df_rows c) ->
    (forall col, col <> "TRM Domain" -> col <> "TRM Subdomain" ->
                 row' !! col = row !! col) ->
    exists level,
      flag_risk row' = Ok level
      /\ (level = "High-Risk" <->
          row' !! "Lifecycle Status" = Some (Str "Deprecated")
          \/ vendor_blank row' = true
          \/ row' !! "TRM Domain" = Some (Str "Unclassified"))
      /\ (level = "Medium-Risk" <->
          row' !! "Lifecycle Status" = Some (Str "Beta")
          /\ vendor_blank row' = false
          /\ row' !! "TRM Domain" <> Some (Str "Unclassified"))
      /\ (level = "Normal" <->
          row' !! "Lifecycle Status" <> Some (Str "Deprecated")
          /\ row' !! "Lifecycle Status" <> Some (Str "Beta")
          /\ vendor_blank row' = false
          /\ row' !! "TRM Domain" <> Some (Str "Unclassified")).
Proof.
  intros Hwf Hclean idx row row' Hrow Hcells.
  destruct (clean_data_ok _ _ Hclean) as (_ & _ & _ & _ & _ & Hc).
  destruct (cleaned_rows (list_mem "Lifecycle Status" (df_columns raw)) raw)
    as (g & Hrows & Hg).
  rewrite <- Hc in Hrows. clear Hc.
  assert (Hstatus : row' !! "Lifecycle Status" = None
                    \/ exists s, row' !! "Lifecycle Status" = Some (Str s)
                                 /\ In s config.LIFECYCLE_STATUSES).
  { rewrite Hcells by done. rewrite Hrows in Hrow.
    apply in_map_iff in Hrow as ([i row_in] & [= <- <-] & Hrow_in). cbn [snd].
    rewrite Hg. cbn [list_mem existsb String.eqb Ascii.eqb Bool.eqb orb andb].
    destruct (list_mem "Lifecycle Status" (df_columns raw)) eqn:HL.
    - right. destruct (clean_row_lookup true row_in) as (_ & _ & _ & Hcl & _).
      rewrite (Hcl eq_refl).
      destruct (clean_status_known (default Null (row_in !! "Lifecycle Status")))
        as (s & -> & Hs). by exists s.
    - left. rewrite clean_row_false_other
        by (cbn; intros [H|[H|[H|[]]]]; discriminate H).
      apply (row_lacks_column raw i row_in); [done | done |].
      intros Hcol. apply In_list_mem in Hcol. congruence. }
  exists (risk_by_precedence vendor_blank row'). split.
  - apply flag_risk_ok. unfold lifecycle_is_text.
    destruct Hstatus as [->|(s & -> & _)]; done.
  - by apply risk_by_precedence_cleaned.
Qed.

Lemma flag_risk_on_cleaned_records_witness :
  let row := mk_row [("Product Name", Str "pgAdmin");
                     ("Description", Str "PostgreSQL console");
                     ("Category Hint", Str "");
                     ("Vendor", Str "Acme");
                     ("Lifecycle Status", Str "Deprecated");
                     ("TRM Domain", Null); ("TRM Subdomain", Null);
                     ("Risk Flag", Null)] in
  exists c,
    clean_data raw_frame = Ok c
    /\ df_rows c !! 0%nat = Some (0%nat, row)
    /\ exists level,
         flag_risk (<["TRM Domain" := Str "Data Management"]> row) = Ok level
         /\ (level = "High-Risk" <->
             (<["TRM Domain" := Str "Data Management"]> row) !! "Lifecycle Status"
               = Some (Str "Deprecated")
             \/ vendor_blank (<["TRM Domain" := Str "Data Management"]> row) = true
             \/ (<["TRM Domain" := Str "Data Management"]> row) !! "TRM Domain"
                = Some (Str "Unclassified")).
Proof.
  intros row.
  destruct (clean_data raw_frame) as [c|e] eqn:Hc; [|vm_compute in Hc; discriminate].
  assert (Hrow : df_rows c !! 0%nat = Some (0%nat, row)).
  { vm_compute in Hc. injection Hc as <-. vm_compute. reflexivity. }
  exists c. split; [reflexivity|]. split; [exact Hrow|].
  destruct (flag_risk_on_cleaned_records raw_frame c
              (df_wfb_sound raw_frame eq_refl) Hc 0%nat row
              (<["TRM Domain" := Str "Data Management"]> row))
    as (level & Hrun & Hhigh & _).
  - by apply list_elem_of_In, list_elem_of_lookup_2 with 0%nat.
  - intros col Hd _. by rewrite lookup_insert_ne.
  - exists level. split; [exact Hrun | exact Hhigh].
Defined.

(** ** The metrics of a flagged frame *)

Lemma flag_risk_Ok_text row level : flag_risk row = Ok level -> lifecycle_is_text row.
Proof.
  intros Hrun Hnull. unfold flag_risk, lifecycle_is, row_mem, row_get in Hrun.
  rewrite Hnull in Hrun. case_bool_decide as Hsome; [done|].
  destruct Hsome. by eexists.
Qed.

Lemma count_where_column p df c :
  count_where p (column df c)
  = length (List.filter (fun e => p (default Null (e.2 !! c))) (df_rows df)).
Proof.
  unfold count_where, column.
  induction (df_rows df) as [|[i row] l IH]; [done|]. cbn.
  destruct (p (default Null (row !! c))); cbn; by rewrite IH.
Qed.

Lemma filter_length_le {A : Type} (P Q : A -> bool) (l : list A) :
  (forall x, In x l -> P x = true -> Q x = true) ->
  (length (List.filter P l) <= length (List.filter Q l))%nat.
Proof.
  induction l as [|x l IH]; intros Hall; [done|]. cbn.
  assert (IH' : (length (List.filter P l) <= length (List.filter Q l))%nat).
  { apply IH. intros y Hy. apply Hall. by right. }
  destruct (P x) eqn:HP.
  - rewrite (Hall x) by (done || by left). cbn. lia.
  - destruct (Q x); cbn; lia.
Qed.

Lemma flagged_high_risk df idx row :
  df_wf df -> flagged df -> In (idx, row) (df_rows df) ->
  (default Null (row !! "Lifecycle Status") = Str "Deprecated"
   \/ (In "Vendor" (df_columns df)
       /\ (default Null (row !! "Vendor") = Null \/ default Null (row !! "Vendor") = Str ""))
   \/ default Null (row !! "TRM Domain") = Str "Unclassified") ->
  row !! "Risk Flag" = Some (Str "High-Risk").
Proof.
  intros Hwf Hflagged Hrow Hcond.
  destruct (Hflagged idx row Hrow) as (level & Hrun & ->).
  rewrite (flag_risk_ok row (flag_risk_Ok_text _ _ Hrun)) in Hrun.
  injection Hrun as <-. do 2 f_equal.
  unfold risk_by_precedence, lifecycle_equals, vendor_blank, domain_is_sentinel.
  destruct Hcond as [Hdep|[[Hcol Hvendor]|Hdom]].
  - destruct (row !! "Lifecycle Status") as [[|s]|]; try discriminate.
    cbn in Hdep. injection Hdep as ->. reflexivity.
  - destruct (lifecycle_equals "deprecated" row) eqn:Hd;
      unfold lifecycle_equals in Hd; rewrite Hd; [done|].
    destruct (proj2 (Hwf idx row Hrow "Vendor") Hcol) as [v Hv]. rewrite Hv in *.
    cbn in Hvendor. destruct Hvendor as [->| ->]; reflexivity.
  - destruct (row !! "TRM Domain") as [[|s]|]; try discriminate.
    cbn in Hdom. injection Hdom as ->.
    rewrite bool_decide_eq_true_2 by done.
    destruct (match row !! "Lifecycle Status" with
              | Some (Str s) => String.eqb (PyStr.lower s) "deprecated"
              | _ => false
              end); [done|].
    by destruct (match row !! "Vendor" with
                 | Some Null => true
                 | Some (Str s) => String.eqb (PyStr.strip s) ""
                 | None => false
                 end).
Qed.

Lemma value_counts_default col s :
  default 0%nat (value_counts col !! s) = occurrences s col.
Proof. rewrite value_counts_lookup. by destruct (occurrences s col). Qed.

Lemma occurrences_three col :
  (forall v, In v col -> v = Str "High-Risk" \/ v = Str "Medium-Risk" \/ v = Str "Normal") ->
  (occurrences "High-Risk" col + occurrences "Medium-Risk" col
   + occurrences "Normal" col = length col)%nat.
Proof.
  unfold occurrences, count_where.
  induction col as [|v col IH]; intros Hall; [done|].
  specialize (IH (fun x Hx => Hall x (or_intror Hx))).
  destruct (Hall v (or_introl eq_refl)) as [->|[->| ->]]; cbn [List.filter];
    repeat match goal with
           | |- context [bool_decide (Str ?a = Str ?b)] =>
               first [ rewrite (bool_decide_eq_true_2 (Str a = Str b)) by done
                     | rewrite (bool_decide_eq_false_2 (Str a = Str b)) by done ]
           end;
    cbn [length]; lia.
Qed.

Lemma occurrences_pos s col : (0 < occurrences s col)%nat -> In (Str s) col.
Proof.
  unfold occurrences, count_where. induction col as [|v col IH]; cbn; [lia|].
  case_bool_decide as Hv; [by left|]. intros Hpos. right. by apply IH.
Qed.

(** On a frame whose ['Risk Flag'] column holds what [flag_risk] gives for
    each record, the metrics hang together: the deprecated records, the
    records without vendor and the unclassified records are each at most as
    many as the records counted as ["High-Risk"]; the counts have no other
    keys than the three levels; and the three counts add up to the total. *)
Theorem risk_metrics_of_flagged_frame (df : DataFrame) (m : RiskMetrics) :
  df_wf df ->
  In "Risk Flag" (df_columns df) ->
  flagged df ->
  generate_risk_metrics df = Ok m ->
  let count level := default 0%nat (counts m !! level) in
  (deprecated_count m <= count "High-Risk")%nat
  /\ (missing_vendor_count m <= count "High-Risk")%nat
  /\ (unclassified_count m <= count "High-Risk")%nat
  /\ (count "High-Risk" + count "Medium-Risk" + count "Normal" = total m)%nat
  /\ (forall level, is_Some (counts m !! level) ->
        level = "High-Risk" \/ level = "Medium-Risk" \/ level = "Normal").
Proof.
  intros Hwf Hcol Hflagged Hm count. subst count.
  rewrite generate_risk_metrics_ok in Hm. cbv zeta in Hm. injection Hm as <-.
  cbn [counts deprecated_count missing_vendor_count unclassified_count total].
  rewrite (In_list_mem _ _ Hcol). rewrite !value_counts_default.
  assert (Hhigh : forall (p : nat * Series -> bool),
            (forall e, In e (df_rows df) -> p e = true ->
                       e.2 !! "Risk Flag" = Some (Str "High-Risk")) ->
            (length (List.filter p (df_rows df))
             <= occurrences "High-Risk" (column df "Risk Flag"))%nat).
  { intros p Hp. unfold occurrences. rewrite count_where_column.
    apply filter_length_le. intros e He Hpe. rewrite (Hp e He Hpe). cbn.
    by apply bool_decide_eq_true_2. }
  assert (Hlevels : forall v, In v (column df "Risk Flag") ->
            v = Str "High-Risk" \/ v = Str "Medium-Risk" \/ v = Str "Normal").
  { intros v Hv. unfold column in Hv. apply in_map_iff in Hv as ([i row] & <- & Hrow).
    destruct (Hflagged i row Hrow) as (level & Hrun & ->). cbn.
    destruct (flag_risk_level _ _ Hrun) as [->|[->| ->]]; tauto. }
  split; [|split; [|split; [|split]]].
  - destruct (list_mem "Lifecycle Status" (df_columns df)); [|lia].
    rewrite count_where_column. apply Hhigh. intros [i row] He Hp.
    apply (flagged_high_risk df i row Hwf Hflagged He). left.
    cbn in Hp. by apply bool_decide_eq_true_1 in Hp.
  - destruct (list_mem "Vendor" (df_columns df)) eqn:Hv; [|lia].
    rewrite count_where_column. apply Hhigh. intros [i row] He Hp.
    apply (flagged_high_risk df i row Hwf Hflagged He). right. left.
    split; [by apply list_mem_In|]. cbn in Hp.
    apply orb_true_iff in Hp as [Hp|Hp].
    + left. by destruct (default Null (row !! "Vendor")).
    + right. by apply bool_decide_eq_true_1 in Hp.
  - destruct (list_mem "TRM Domain" (df_columns df)); [|lia].
    rewrite count_where_column. apply Hhigh. intros [i row] He Hp.
    apply (flagged_high_risk df i row Hwf Hflagged He). right. right.
    cbn in Hp. by apply bool_decide_eq_true_1 in Hp.
  - rewrite (occurrences_three _ Hlevels). unfold column. by rewrite length_map.
  - intros level [n Hn]. rewrite value_counts_lookup in Hn.
    destruct (occurrences level (column df "Risk Flag")) eqn:Hocc; [done|].
    assert (Hin : In (Str level) (column df "Risk Flag"))
      by (apply occurrences_pos; lia).
    destruct (Hlevels _ Hin) as [[= ->]|[[= ->]|[= ->]]]; tauto.
Qed.

Lemma risk_metrics_of_flagged_frame_witness :
  exists m,
    generate_risk_metrics assessed_frame = Ok m
    /\ (deprecated_count m <= default 0%nat (counts m !! "High-Risk"))%nat
    /\ (missing_vendor_count m <= default 0%nat (counts m !! "High-Risk"))%nat
    /\ (unclassified_count m <= default 0%nat (counts m !! "High-Risk"))%nat.
Proof.
  destruct (generate_risk_metrics assessed_frame) as [m|e] eqn:Hm;
    [|rewrite generate_risk_metrics_ok in Hm; discriminate].
  exists m. split; [reflexivity|].
  destruct (risk_metrics_of_flagged_frame assessed_frame m) as (H1 & H2 & H3 & _).
  - apply df_wfb_sound. vm_compute. reflexivity.
  - vm_compute. tauto.
  - intros idx row [[= <- <-]|[[= <- <-]|[[= <- <-]|[]]]];
      eexists; split; vm_compute; reflexivity.
  - exact Hm.
  - split; [exact H1|]. split; [exact H2 | exact H3].
Defined.

(** ** Several methods in a row *)

Lemma Forall2_agree_trans l1 l2 l3 :
  Forall2 agree l1 l2 -> Forall2 agree l2 l3 -> Forall2 agree l1 l3.
Proof.
  intros H12. revert l3. induction H12 as [|e1 e2 l1 l2 He _ IH]; intros l3 H23.
  - by inversion H23.
  - inversion H23 as [|e2' e3 l2' l3' He' Hl' Heq1 Heq2]; subst.
    constructor; [by apply agree_trans with e2 | by apply IH].
Qed.

Lemma last_with_label_agree rows rows' idx row' :
  Forall2 agree rows rows' ->
  last_with_label idx rows' = Some row' ->
  exists row, last_with_label idx rows = Some row
              /\ forall c, c <> "TRM Domain" -> c <> "TRM Subdomain" ->
                           row' !! c = row !! c.
Proof.
  revert rows'. induction rows as [|[i x] rows IH] using rev_ind; intros rows' Hagree.
  - apply Forall2_nil_inv_l in Hagree as ->. discriminate.
  - apply Forall2_app_inv_l in Hagree as (pre' & last' & Hpre & Hlast & ->).
    apply Forall2_cons_inv_l in Hlast as ([i' x'] & tl & [Hi Hx] & Htl & ->).
    apply Forall2_nil_inv_l in Htl as ->. cbn in Hi, Hx. subst i'.
    rewrite !last_with_label_snoc. destruct (Nat.eqb i idx).
    + intros [= <-]. by exists x.
    + by apply IH.
Qed.

Lemma classified_by_agree key service method lo hi row row' res :
  (forall c, c <> "TRM Domain" -> c <> "TRM Subdomain" -> row' !! c = row !! c) ->
  classified_by key service method lo hi row' res ->
  classified_by key service method lo hi row res.
Proof.
  intros Hcells (product_name & description & w_at & w_after & Hp & Hd & Hrun & Hb).
  exists product_name, description, w_at, w_after.
  rewrite <- !Hcells by done. split; [done|]. split; [done|]. split; [|done].
  unfold hint_of in *. by rewrite <- Hcells.
Qed.

Lemma run_classification_frames key service df method w input :
  frames w !! df = Some input ->
  forall l, is_Some (frames w !! l) ->
    frames (run_classification key service df method w).2 !! l = frames w !! l.
Proof.
  intros Hin l [x Hx]. rewrite (run_classification_unfold _ _ _ _ _ _ Hin). cbv zeta.
  set (r := fresh (dom (frames w))).
  assert (Hfresh : frames w !! r = None) by (apply not_elem_of_dom, is_fresh).
  destruct (for_each_run key service (frames w) r input method (df_rows input)
              (with_frame r input w)) as [[Hother _] _].
  - intros idx row Hrow. apply in_map_iff. by exists (idx, row).
  - split.
    + intros l' Hl. cbn. by rewrite lookup_insert_ne.
    + exists input. cbn. rewrite lookup_insert_eq. split; [done|].
      apply Forall2_agree_refl.
  - assert (Hl : l <> r) by (intros ->; congruence).
    destruct (for_each _ _ _) as [[[]|e] w2]; cbn [snd] in *; by apply Hother.
Qed.

Lemma run_methods_snoc key service df methods method w :
  run_methods key service df (methods ++ [method]) w =
  match run_methods key service df methods w with
  | (Ok mid, w_mid) => run_classification key service mid method w_mid
  | (Raise e, w_mid) => (Raise e, w_mid)
  end.
Proof.
  revert df w. induction methods as [|m methods IH]; intros df w.
  - cbn [app run_methods]. unfold mbind, M_bind, mret, M_ret.
    by destruct (run_classification key service df method w) as [[r|e] w1].
  - cbn [app run_methods]. unfold mbind, M_bind.
    destruct (run_classification key service df m w) as [[r1|e] w1]; [apply IH | done].
Qed.

Lemma run_methods_kept key service input :
  forall methods df w cur mid w_mid,
    frames w !! df = Some cur ->
    only_classification_written input cur ->
    run_methods key service df methods w = (Ok mid, w_mid) ->
    (forall l, is_Some (frames w !! l) -> frames w_mid !! l = frames w !! l)
    /\ (requests w <= requests w_mid)%nat
    /\ exists cur', frames w_mid !! mid = Some cur'
                    /\ only_classification_written input cur'.
Proof.
  induction methods as [|m methods IH]; intros df w cur mid w_mid Hcur Hagree Hrun.
  - cbn in Hrun. injection Hrun as <- <-. split; [done|]. split; [done|]. by exists cur.
  - cbn [run_methods] in Hrun. unfold mbind, M_bind in Hrun.
    pose proof (run_classification_frames key service df m w cur Hcur) as Hkeep.
    destruct (run_classification key service df m w) as [[r1|e] w1] eqn:Hone;
      [|discriminate].
    cbn [snd] in Hkeep.
    destruct (run_classification_output _ _ _ _ _ _ _ _ Hcur Hone)
      as (Hreq & next & Hnext & Hag & _).
    destruct (IH r1 w1 next mid w_mid Hnext) as (Hkeep' & Hreq' & cur' & Hcur' & Hag');
      [by apply Forall2_agree_trans with (df_rows cur) | done |].
    split; [|split; [lia | by exists cur']].
    intros l Hl. rewrite <- (Hkeep l Hl). apply Hkeep'. by rewrite (Hkeep l Hl).
Qed.

(** When several methods are chosen, only the last one counts. The loop
    first runs the earlier methods, then the last one on what they left; the
    frame it ends with carries, in every record, the classification of the
    last input record with the same index label by the last method: the pair
    its classifier returned when it was called on that record during that
    last run, after the earlier methods were done. The pair is valid for the
    taxonomy, and under the rule-based method it is what
    [rule_based_classify] gives for the description and hint of the frame
    the loop started with. Every other column is as in that frame, which
    itself is left as it was. *)
Theorem last_method_wins
    (key : option string) (service : nat -> string -> completion)
    (df : nat) (methods : list string) (method : string)
    (w w' : World) (input : DataFrame) (result_df : nat) :
  frames w !! df = Some input ->
  run_methods key service df (methods ++ [method]) w = (Ok result_df, w') ->
  frames w' !! df = Some input
  /\ exists mid w_mid output,
       run_methods key service df methods w = (Ok mid, w_mid)
       /\ run_classification key service mid method w_mid = (Ok result_df, w')
       /\ frames w' !! result_df = Some output
       /\ only_classification_written input output
       /\ forall k idx row_out,
            df_rows output !! k = Some (idx, row_out) ->
            exists row_last res,
              last_with_label idx (df_rows input) = Some row_last
              /\ classified_by key service method (requests w_mid) (requests w')
                   row_last res
              /\ classification_of method row_last res
              /\ carries row_out res.
Proof.
  intros Hin Hrun. rewrite run_methods_snoc in Hrun.
  destruct (run_methods key service df methods w) as [[mid|e] w_mid] eqn:Hfirst;
    [|discriminate].
  destruct (run_methods_kept key service input methods df w input mid w_mid
              Hin (Forall2_agree_refl _) Hfirst) as (Hkeep & _ & cur & Hcur & Hagree).
  pose proof (run_classification_frames key service mid method w_mid cur Hcur) as Hkeep'.
  rewrite Hrun in Hkeep'. cbn [snd] in Hkeep'.
  destruct (run_classification_output _ _ _ _ _ _ _ _ Hcur Hrun)
    as (_ & output & Hout & Hag & Hrows).
  split.
  { rewrite Hkeep' by (rewrite Hkeep; eauto). rewrite Hkeep; eauto. }
  exists mid, w_mid, output. split; [done|]. split; [done|]. split; [done|].
  split; [by apply Forall2_agree_trans with (df_rows cur)|].
  intros k idx row_out Hk.
  assert (He : In (idx, row_out) (df_rows output))
    by (by apply list_elem_of_In, list_elem_of_lookup_2 with k).
  assert (Hmem : In idx (map fst (df_rows cur))).
  { rewrite <- (Forall2_agree_labels _ _ Hag). by apply (in_map fst) in He. }
  destruct (last_with_label_Some _ _ Hmem) as [row_cur Hlast_cur].
  destruct (last_with_label_agree _ _ _ _ Hagree Hlast_cur) as (row_last & Hlast & Hcells).
  destruct (Hrows _ He row_cur Hlast_cur) as (res & Hby & Hcar).
  exists row_last, res. split; [done|].
  assert (Hby' : classified_by key service method (requests w_mid) (requests w')
                   row_last res)
    by (by apply (classified_by_agree _ _ _ _ _ row_last row_cur)).
  split; [done|]. split; [|done].
  by apply (classified_by_classification_of key service method
              (requests w_mid) (requests w') row_last).
Qed.

Lemma last_method_wins_witness :
  let service := fun (_ : nat) (_ : string) => Responded (Some "Security, Encryption") in
  let run := run_methods (Some "sk-test") service
               0 (["rule-based"] ++ ["llm-based"]) sample_world in
  frames run.2 !! 0%nat = Some sample_frame
  /\ exists mid w_mid output,
       run_methods (Some "sk-test") service 0 ["rule-based"] sample_world
         = (Ok mid, w_mid)
       /\ run_classification (Some "sk-test") service mid "llm-based" w_mid
          = (Ok 2%nat, run.2)
       /\ frames run.2 !! 2%nat = Some output
       /\ only_classification_written sample_frame output.
Proof.
  intros service run.
  destruct (last_method_wins (Some "sk-test") service
              0 ["rule-based"] "llm-based" sample_world run.2 sample_frame 2)
    as (Hkeep & mid & w_mid & output & Hfirst & Hlast & Hout & Hag & _).
  - vm_compute. reflexivity.
  - vm_compute. reflexivity.
  - split; [exact Hkeep|]. exists mid, w_mid, output.
    split; [exact Hfirst|]. split; [exact Hlast|]. split; [exact Hout | exact Hag].
Defined.

Example run_methods_ex :
  let run := run_methods (Some "sk-test")
               (fun _ _ => Responded (Some "Security, Encryption"))
               0 ["llm-based"; "rule-based"] sample_world in
  (fun df => map (fun e => e.2 !! "TRM Domain") (df_rows df)) <$> frames run.2 !! 2%nat
  = Some [Some (Str "Data Management"); Some (Str "Unclassified")].
Proof. vm_compute. reflexivity. Qed.

(** ** [filter_data] *)

Lemma select_eq_mask df col v :
  select df (eq_mask (column df col) v)
  = keep_rows (fun row => bool_decide (default Null (row !! col) = Str v)) df.
Proof.
  unfold select, keep_rows, eq_mask, column. f_equal.
  induction (df_rows df) as [|[i row] l IH]; [done|]. cbn.
  destruct (bool_decide (default Null (row !! col) = Str v)); cbn; by rewrite IH.
Qed.

Lemma keep_rows_true df : keep_rows (fun _ => true) df = df.
Proof.
  destruct df as [cols rows]. unfold keep_rows. cbn. f_equal.
  induction rows as [|e rows IH]; [done|]. cbn. by rewrite IH.
Qed.

Lemma keep_rows_keep_rows p q df :
  keep_rows q (keep_rows p df) = keep_rows (fun row => p row && q row) df.
Proof.
  unfold keep_rows. cbn. f_equal.
  induction (df_rows df) as [|e rows IH]; [done|]. cbn.
  destruct (p e.2); cbn; [|done]. destruct (q e.2); by rewrite IH.
Qed.

Lemma filter_equal_keep df col value :
  filter_equal df col value
  = if readable col value df then Ok (keep_rows (meets col value) df)
    else Raise KeyError.
Proof.
  unfold filter_equal, readable, meets, active, truthy, getitem.
  destruct value as [v|]; [|by rewrite keep_rows_true].
  change config.UI_SELECT_ALL with "All".
  destruct (String.eqb v ""); cbn [negb andb orb]; [by rewrite keep_rows_true|].
  destruct (String.eqb v "All"); cbn [negb]; [by rewrite keep_rows_true|].
  destruct (list_mem col (df_columns df)); [|done].
  cbn. by rewrite select_eq_mask.
Qed.

Lemma no_search_skips term :
  no_search (Some term) = true ->
  truthy (Some term) && (0 <? String.length (PyStr.strip term))%nat = false.
Proof.
  unfold no_search. intros Hblank. apply String.eqb_eq in Hblank.
  rewrite Hblank. cbn. apply andb_false_r.
Qed.

Lemma readable_keep_rows col value p df :
  readable col value (keep_rows p df) = readable col value df.
Proof. reflexivity. Qed.

Lemma filter_equal_thrice df domain status risk_level :
  (filtered_df ← filter_equal df "TRM Domain" domain;
   filtered_df ← filter_equal filtered_df "Lifecycle Status" status;
   filtered_df ← filter_equal filtered_df "Risk Flag" risk_level;
   Ok filtered_df)
  = if readable_all domain status risk_level df
    then Ok (keep_rows (meets_all domain status risk_level) df)
    else Raise KeyError.
Proof.
  unfold readable_all, meets_all. rewrite !filter_equal_keep.
  destruct (readable "TRM Domain" domain df); [|done].
  cbn [mbind result_bind rbind andb].
  rewrite filter_equal_keep, readable_keep_rows.
  destruct (readable "Lifecycle Status" status df); [|done].
  cbn [mbind result_bind rbind andb].
  rewrite filter_equal_keep, !readable_keep_rows.
  destruct (readable "Risk Flag" risk_level df); [|done].
  cbn [mbind result_bind rbind].
  rewrite (keep_rows_keep_rows (meets "TRM Domain" domain)
             (meets "Lifecycle Status" status)).
  by rewrite keep_rows_keep_rows.
Qed.

Lemma filter_data_blank_search search_mask df search_term domain status risk_level :
  no_search search_term = true ->
  filter_data search_mask df search_term domain status risk_level
  = (filtered_df ← filter_equal df "TRM Domain" domain;
     filtered_df ← filter_equal filtered_df "Lifecycle Status" status;
     filtered_df ← filter_equal filtered_df "Risk Flag" risk_level;
     Ok filtered_df).
Proof.
  intros Hblank. unfold filter_data. cbv zeta.
  destruct search_term as [term|]; [|done].
  by rewrite (no_search_skips term Hblank).
Qed.

(** Without a search term (none, or only blanks), [filter_data] returns the
    records that pass every filter that is set, in their order and with
    their labels, under the columns of the frame; a filter is set when its
    value is neither [None], nor empty, nor ["All"], and a record passes it
    when its cell equals the value (a missing cell never does). It raises
    [KeyError] exactly when a filter that is set reads a column the frame
    does not have. *)
Theorem filter_data_without_search
    (search_mask : string -> DataFrame -> result (list bool))
    (df : DataFrame) (search_term domain status risk_level : option string) :
  no_search search_term = true ->
  filter_data search_mask df search_term domain status risk_level
  = if readable_all domain status risk_level df
    then Ok (keep_rows (meets_all domain status risk_level) df)
    else Raise KeyError.
Proof.
  intros Hblank. unfold filter_data. cbv zeta.
  destruct search_term as [term|].
  - rewrite (no_search_skips term Hblank). cbn [mbind result_bind rbind].
    apply filter_equal_thrice.
  - cbn [mbind result_bind rbind]. apply filter_equal_thrice.
Qed.

Lemma filter_data_without_search_witness :
  filter_data (fun _ _ => Raise ValueError) filter_frame (Some "  ")
    (Some "Data Management") (Some "All") None
  = Ok {| df_columns := ["Product Name"; "Lifecycle Status"; "TRM Domain"];
          df_rows :=
            [ (0%nat, mk_row [("Product Name", Str "pgAdmin");
                              ("Lifecycle Status", Str "Deprecated");
                              ("TRM Domain", Str "Data Management")]);
              (2%nat, mk_row [("Product Name", Str "Redis");
                              ("Lifecycle Status", Str "Active");
                              ("TRM Domain", Str "Data Management")]) ] |}.
Proof.
  rewrite (filter_data_without_search (fun _ _ => Raise ValueError) filter_frame
             (Some "  ") (Some "Data Management") (Some "All") None).
  - vm_compute. reflexivity.
  - vm_compute. reflexivity.
Defined.

Lemma select_sublist df mask : sublist (df_rows (select df mask)) (df_rows df).
Proof.
  unfold select. cbn. revert mask.
  induction (df_rows df) as [|e rows IH]; intros mask.
  - destruct mask; constructor.
  - destruct mask as [|b mask]; cbn.
    + apply sublist_nil_l.
    + destruct b; cbn; [by apply sublist_skip | by apply sublist_cons].
Qed.

Lemma keep_rows_sublist p df : sublist (df_rows (keep_rows p df)) (df_rows df).
Proof.
  unfold keep_rows. cbn. induction (df_rows df) as [|e rows IH]; [constructor|].
  cbn. destruct (p e.2); [by apply sublist_skip | by apply sublist_cons].
Qed.

(** Whatever is searched for, [filter_data] only leaves records out: what
    it returns has the columns of the frame, and its records are records of
    the frame, in the same order and with the same labels and cells; every
    one of them passes every filter that is set. *)
Theorem filter_data_narrows
    (search_mask : string -> DataFrame -> result (list bool))
    (df out : DataFrame) (search_term domain status risk_level : option string) :
  filter_data search_mask df search_term domain status risk_level = Ok out ->
  df_columns out = df_columns df
  /\ sublist (df_rows out) (df_rows df)
  /\ forall idx row, In (idx, row) (df_rows out) ->
       forall col value,
         In (col, value) [("TRM Domain", domain); ("Lifecycle Status", status);
                          ("Risk Flag", risk_level)] ->
         forall v, active value = Some v -> row !! col = Some (Str v).
Proof.
  unfold filter_data. cbv zeta. intros Hrun.
  assert (Hsearch : exists mid,
            df_columns mid = df_columns df
            /\ sublist (df_rows mid) (df_rows df)
            /\ (if readable_all domain status risk_level mid
                then Ok (keep_rows (meets_all domain status risk_level) mid)
                else Raise KeyError) = Ok out).
  { destruct search_term as [term|].
    - destruct (truthy (Some term) && (0 <? String.length (PyStr.strip term))%nat).
      + cbn [mbind result_bind rbind] in Hrun.
        destruct (search_mask (PyStr.lower (PyStr.strip term)) df) as [mask|e];
          [|discriminate].
        cbn [mbind result_bind rbind] in Hrun. rewrite filter_equal_thrice in Hrun.
        exists (select df mask). split; [done|]. split; [apply select_sublist | done].
      + cbn [mbind result_bind rbind] in Hrun. rewrite filter_equal_thrice in Hrun.
        by exists df.
    - cbn [mbind result_bind rbind] in Hrun. rewrite filter_equal_thrice in Hrun.
      by exists df. }
  destruct Hsearch as (mid & Hcols & Hsub & Hout).
  destruct (readable_all domain status risk_level mid); [|discriminate].
  injection Hout as <-. split; [done|]. split.
  - transitivity (df_rows mid); [apply keep_rows_sublist | done].
  - intros idx row Hrow col value Hcol v Hactive.
    unfold keep_rows in Hrow. cbn in Hrow. apply filter_In in Hrow as [_ Hmeets].
    cbn in Hmeets. unfold meets_all in Hmeets.
    apply andb_true_iff in Hmeets as [Hmeets Hr].
    apply andb_true_iff in Hmeets as [Hd Hs].
    assert (Hcell : meets col value row = true).
    { destruct Hcol as [[= <- <-]|[[= <- <-]|[[= <- <-]|[]]]]; done. }
    unfold meets in Hcell. rewrite Hactive in Hcell.
    apply bool_decide_eq_true_1 in Hcell.
    destruct (row !! col) as [[|s]|]; cbn in Hcell; try discriminate Hcell.
    by injection Hcell as ->.
Qed.

Lemma filter_data_narrows_witness :
  let out := {| df_columns := ["Product Name"; "Lifecycle Status"; "TRM Domain"];
                df_rows :=
                  [ (2%nat, mk_row [("Product Name", Str "Redis");
                                    ("Lifecycle Status", Str "Active");
                                    ("TRM Domain", Str "Data Management")]) ] |} in
  filter_data (fun _ _ => Ok [true; false; true]) filter_frame (Some "a")
    (Some "Data Management") (Some "Active") None = Ok out
  /\ sublist (df_rows out) (df_rows filter_frame).
Proof.
  intros out.
  assert (Hrun : filter_data (fun _ _ => Ok [true; false; true]) filter_frame (Some "a")
                   (Some "Data Management") (Some "Active") None = Ok out)
    by (vm_compute; reflexivity).
  split; [exact Hrun|].
  exact (proj1 (proj2 (filter_data_narrows _ _ _ _ _ _ _ Hrun))).
Defined.

Lemma keep_rows_ext p q df :
  (forall row, p row = q row) -> keep_rows p df = keep_rows q df.
Proof.
  intros Hpq. unfold keep_rows. f_equal.
  induction (df_rows df) as [|e rows IH]; [done|]. cbn. by rewrite Hpq, IH.
Qed.

Lemma filter_data_Ok search_mask df search_term domain status risk_level out :
  no_search search_term = true ->
  filter_data search_mask df search_term domain status risk_level = Ok out ->
  readable_all domain status risk_level df = true
  /\ out = keep_rows (meets_all domain status risk_level) df.
Proof.
  intros Hblank. rewrite filter_data_blank_search, filter_equal_thrice by done.
  destruct (readable_all domain status risk_level df); [|discriminate].
  by intros [= <-].
Qed.

(** Filtering what was filtered, without a search term: the second call
    returns the records of the first frame that pass the filters of both
    calls; so filtering twice with the same filters changes nothing, and two
    calls give the same in either order. *)
Theorem filter_data_twice
    (search_mask : string -> DataFrame -> result (list bool))
    (df mid : DataFrame)
    (search_term domain status risk_level : option string)
    (search_term' domain' status' risk_level' : option string) :
  no_search search_term = true ->
  no_search search_term' = true ->
  filter_data search_mask df search_term domain status risk_level = Ok mid ->
  filter_data search_mask mid search_term' domain' status' risk_level'
  = (if readable_all domain' status' risk_level' df
     then Ok (keep_rows (fun row => meets_all domain status risk_level row
                                    && meets_all domain' status' risk_level' row) df)
     else Raise KeyError)
  /\ filter_data search_mask mid search_term domain status risk_level = Ok mid
  /\ forall mid',
       filter_data search_mask df search_term' domain' status' risk_level' = Ok mid' ->
       filter_data search_mask mid' search_term domain status risk_level
       = filter_data search_mask mid search_term' domain' status' risk_level'.
Proof.
  intros Hblank Hblank' Hmid.
  destruct (filter_data_Ok _ _ _ _ _ _ _ Hblank Hmid) as [Hread ->].
  split; [|split].
  - rewrite filter_data_blank_search, filter_equal_thrice by done.
    change (readable_all domain' status' risk_level' (keep_rows _ df))
      with (readable_all domain' status' risk_level' df).
    by rewrite keep_rows_keep_rows.
  - rewrite filter_data_blank_search, filter_equal_thrice by done.
    change (readable_all domain status risk_level (keep_rows _ df))
      with (readable_all domain status risk_level df).
    rewrite Hread, keep_rows_keep_rows. f_equal. apply keep_rows_ext.
    intros row. by destruct (meets_all domain status risk_level row).
  - intros mid' Hmid'.
    destruct (filter_data_Ok _ _ _ _ _ _ _ Hblank' Hmid') as [Hread' ->].
    rewrite !filter_data_blank_search by done. rewrite !filter_equal_thrice.
    change (readable_all domain status risk_level (keep_rows _ df))
      with (readable_all domain status risk_level df).
    change (readable_all domain' status' risk_level' (keep_rows _ df))
      with (readable_all domain' status' risk_level' df).
    rewrite Hread, Hread', !keep_rows_keep_rows. f_equal. apply keep_rows_ext.
    intros row. apply andb_comm.
Qed.

Lemma filter_data_twice_witness :
  let mask := fun (_ : string) (_ : DataFrame) => Raise ValueError in
  exists mid,
    filter_data mask filter_frame None (Some "Data Management") None None = Ok mid
    /\ filter_data mask mid None (Some "Data Management") None None = Ok mid.
Proof.
  intros mask.
  destruct (filter_data mask filter_frame None (Some "Data Management") None None)
    as [mid|e] eqn:Hmid; [|vm_compute in Hmid; discriminate].
  exists mid. split; [reflexivity|].
  refine (proj1 (proj2 (filter_data_twice mask filter_frame mid
                          None (Some "Data Management") None None
                          None None (Some "Active") None _ _ Hmid))).
  - reflexivity.
  - reflexivity.
Defined.
